(** * GPA Tracker: the stored procedures and the forms that write the store

    A shallow embedding of
    - [supabase/migrations/20250710231051-...sql]: the four tables, the row
      level security policies, [calculate_gpa], [get_leaderboard];
    - [AddSemesterDialog.handleSubmit], [GradingCriteriaSetup.saveCriteria]
      and [Leaderboard.loadLeaderboard] of the React front end.
    - [count_leaderboard_entries], and the handlers that add and delete
      modules and semesters and read the grading scale:
      [AddModuleDialog], [ModuleList.handleDelete],
      [SemesterOverview.confirmDeleteSemester], [SemesterCard.loadModules],
      [Dashboard.checkGradingCriteria], [Transcript.loadGradingCriteria].

    Conventions.
    - A NUMERIC value of scale 2 ([DECIMAL(3,2)], [DECIMAL(5,2)], the running
      [total_grade_points]) is held as its integer number of hundredths:
      [343] stands for 3.43.
    - An INTEGER is a [Z] together with PostgreSQL's range check: an
      out-of-range sum raises, it does not wrap.
    - A table is the list of its rows in scan order.
    - TEXT and JavaScript strings are [string]s, one [ascii] per code unit.
    - UUIDs are opaque identifiers, here numbers. *)

From Stdlib Require Import ZArith QArith Qround String Ascii List Lia Bool Permutation Sorted.
From stdpp Require Import base decidable option list numbers strings.

Local Open Scope Z_scope.

(** ** PL/pgSQL values and exceptions *)

Module Sql.

Inductive sql_error : Type :=
| integer_out_of_range
| numeric_field_overflow
| not_null_violation
| row_security_violation
| limit_must_not_be_negative
| offset_must_not_be_negative
| infinite_recursion.            (* 42P17, raised when a policy is expanded *)

(** The outcome of running a PL/pgSQL block: a value, or a raised
    exception that aborts the whole function. *)
Inductive result (A : Type) : Type :=
| Ok (a : A)
| Raise (e : sql_error).
Arguments Ok {A} a.
Arguments Raise {A} e.

Definition bind {A B : Type} (r : result A) (k : A -> result B) : result B :=
  match r with
  | Ok a => k a
  | Raise e => Raise e
  end.

Notation "x <-- r ;; k" := (bind r (fun x => k))
  (at level 100, r at next level, right associativity).

Definition int4_min : Z := -2147483648.
Definition int4_max : Z := 2147483647.

Definition in_int4 (n : Z) : bool := (int4_min <=? n) && (n <=? int4_max).

(** [a + b] on INTEGER operands. *)
Definition int4pl (a b : Z) : result Z :=
  if in_int4 (a + b) then Ok (a + b) else Raise integer_out_of_range.

(** Assignment of a NUMERIC (in hundredths) to a [DECIMAL(3,2)] column or
    variable: one digit is left before the decimal point. *)
Definition to_decimal_3_2 (h : Z) : result Z :=
  if Z.abs h <? 1000 then Ok h else Raise numeric_field_overflow.

(** The same for a [DECIMAL(5,2)] target. *)
Definition to_decimal_5_2 (h : Z) : result Z :=
  if Z.abs h <? 100000 then Ok h else Raise numeric_field_overflow.

(** [ROUND(n / d, 2)] for a NUMERIC [n] given in hundredths and a non-zero
    INTEGER [d], in hundredths again: the quotient rounded to the nearest
    hundredth, ties away from zero.

    PostgreSQL computes [n / d] to a finite scale first and [ROUND] rounds
    that; [div_to_scale] and [round_scale] below are these two steps when
    [k] places are kept beyond the hundredths. Lemma [round_div_two_steps]
    shows that the two steps give [round_div n d] as soon as [10^k]
    exceeds [|d|]. PostgreSQL keeps at least 16 significant digits of a
    quotient, hence at least 10 places beyond the hundredths of one that
    is below [10^8], and a 32-bit [d] is below [10^10]. *)
Definition round_div (n d : Z) : Z :=
  Z.sgn n * Z.sgn d * ((2 * Z.abs n + Z.abs d) / (2 * Z.abs d)).

(** [n / d] computed to [k] further decimal places (the units of [n] are
    kept, so the result counts units of [10^-k]), rounded half away from
    zero as [div_var] does with [round = true]. *)
Definition div_to_scale (k : Z) (n d : Z) : Z := round_div (n * 10 ^ k) d.

(** [ROUND(q, 2)] of a value [q] that counts units of [10^-k] of a
    hundredth. *)
Definition round_scale (k : Z) (q : Z) : Z := round_div q (10 ^ k).

End Sql.

Export Sql.

(** ** The schema *)

Module Schema.

Definition uuid : Type := N.

Inductive module_type : Type := compulsory | elective | optional.
Inductive attempt_type : Type := first_attempt | repeat | dropped.

Record profile : Type := {
  p_id : uuid;
  p_user_id : uuid;
  full_name : string;
  university_name : string;
  course_name : string;
  registration_number : string
}.

Record grading_criteria_row : Type := {
  gc_id : uuid;
  gc_user_id : uuid;
  grade_name : string;
  gpa_value : Z;                  (* DECIMAL(3,2) NOT NULL, hundredths *)
  min_percentage : option Z;      (* DECIMAL(5,2), hundredths *)
  max_percentage : option Z
}.

Record semester : Type := {
  s_id : uuid;
  s_user_id : uuid;
  semester_name : string;
  academic_year : string;
  start_date : option string;
  end_date : option string;
  is_current : option bool        (* BOOLEAN DEFAULT false, nullable *)
}.

Record module_row : Type := {
  m_id : uuid;
  m_semester_id : uuid;
  m_user_id : uuid;
  module_code : string;
  module_name : string;
  credit_hours : Z;               (* INTEGER NOT NULL *)
  grade : string;
  m_module_type : module_type;
  m_attempt_type : attempt_type
}.

Record db : Type := {
  profiles : list profile;
  grading_criteria : list grading_criteria_row;
  semesters : list semester;
  modules : list module_row
}.

Definition attempt_type_eqb (a b : attempt_type) : bool :=
  match a, b with
  | first_attempt, first_attempt | repeat, repeat | dropped, dropped => true
  | _, _ => false
  end.

End Schema.

Export Schema.

(** ** [calculate_gpa] *)

Module Gpa.

(** One row of the loop's query: [m.credit_hours, m.grade, m.attempt_type]. *)
Record module_record : Type := {
  r_credit_hours : Z;
  r_grade : string;
  r_attempt_type : attempt_type
}.

(** The condition [ON m.semester_id = s.id] together with the [WHERE]
    clause. *)
Definition scan_cond (p_user_id : uuid) (p_semester_id : option uuid)
    (m : module_row) (s : semester) : bool :=
  bool_decide (m_semester_id m = s_id s)
  && bool_decide (m_user_id m = p_user_id)
  && match p_semester_id with
     | None => true
     | Some sid => bool_decide (m_semester_id m = sid)
     end
  && negb (attempt_type_eqb (m_attempt_type m) dropped).

(** [SELECT ... FROM modules m JOIN semesters s ON ... WHERE ...]: one
    record per pair of a module and a semester that satisfies the
    condition, modules in scan order. *)
Definition module_scan (d : db) (p_user_id : uuid) (p_semester_id : option uuid)
    : list module_record :=
  flat_map (fun m =>
    flat_map (fun s =>
      if scan_cond p_user_id p_semester_id m s
      then [ {| r_credit_hours := credit_hours m;
                r_grade := grade m;
                r_attempt_type := m_attempt_type m |} ]
      else [])
      (semesters d))
    (modules d).

(** [SELECT gc.gpa_value INTO gpa_value FROM grading_criteria gc
     WHERE gc.user_id = p_user_id AND gc.grade_name = g LIMIT 1]:
    the first matching row, and NULL ([None]) when there is none (a
    [SELECT INTO] that finds no row assigns NULL to its target). *)
Definition select_gpa_value (d : db) (p_user_id : uuid) (g : string) : option Z :=
  match filter (fun gc => gc_user_id gc = p_user_id /\ grade_name gc = g)
               (grading_criteria d) with
  | [] => None
  | gc :: _ => Some (gpa_value gc)
  end.

(** The declared variables that the loop updates. *)
Record locals : Type := {
  total_grade_points : Z;         (* DECIMAL, hundredths *)
  total_credit_hours : Z;         (* INTEGER *)
  gpa_value_var : option Z        (* DECIMAL(3,2), NULL until assigned *)
}.

Definition initial_locals : locals :=
  {| total_grade_points := 0; total_credit_hours := 0; gpa_value_var := None |}.

(** The body of the [FOR module_record IN ... LOOP]. *)
Definition loop_body (d : db) (p_user_id : uuid) (st : locals) (r : module_record)
    : result locals :=
  let st1 := {| total_grade_points := total_grade_points st;
                total_credit_hours := total_credit_hours st;
                gpa_value_var := select_gpa_value d p_user_id (r_grade r) |} in
  match gpa_value_var st1 with
  | Some v =>
      let tgp := total_grade_points st1 + v * r_credit_hours r in
      tch <-- int4pl (total_credit_hours st1) (r_credit_hours r) ;;
      Ok {| total_grade_points := tgp;
            total_credit_hours := tch;
            gpa_value_var := gpa_value_var st1 |}
  | None => Ok st1
  end.

Fixpoint for_loop (body : locals -> module_record -> result locals)
    (st : locals) (rows : list module_record) : result locals :=
  match rows with
  | [] => Ok st
  | r :: rows' => st' <-- body st r ;; for_loop body st' rows'
  end.

(** The function. [RETURNS DECIMAL(3,2)] declares a NUMERIC result: a type
    modifier in a function signature is discarded, so the value returned
    is not checked against three digits.

    [ROUND(total_grade_points / total_credit_hours, 2)] is [round_div]: see
    there. It is what PostgreSQL returns as long as the quotient is below
    [10^8], that is [|total_grade_points| < 10^10 * |total_credit_hours|]
    in hundredths; grade points of the column's type and credit hours that
    are not negative keep it below 10. *)
Definition calculate_gpa (d : db) (p_user_id : uuid) (p_semester_id : option uuid)
    : result Z :=
  st <-- for_loop (loop_body d p_user_id) initial_locals
           (module_scan d p_user_id p_semester_id) ;;
  if total_credit_hours st =? 0 then Ok 0
  else Ok (round_div (total_grade_points st) (total_credit_hours st)).

End Gpa.

Export Gpa.

(** ** The GPA of section 4.1, as the specification words it *)

Module GpaSpec.

(** Rounding to the nearest integer, ties away from zero. Applied to a
    number of hundredths this is "round to 2 decimal places". *)
Definition round_half_away_from_zero (x : Q) : Z :=
  if Qle_bool 0 x then Qfloor (x + (1 # 2)) else (- Qfloor (- x + (1 # 2)))%Z.

(** The user's grade-point mapping, read at a label. *)
Definition grade_point (d : db) (user : uuid) (label : string) : option Z :=
  (fun e => gpa_value e.2) <$>
    list_find (fun gc => gc_user_id gc = user /\ grade_name gc = label)
              (grading_criteria d).

(** Step 1: the modules of the user, of the semester when a scope is
    given, whose attempt type is not "dropped". *)
Definition selected (user : uuid) (scope : option uuid) (m : module_row) : Prop :=
  m_user_id m = user
  /\ (scope = None \/ scope = Some (m_semester_id m))
  /\ m_attempt_type m <> dropped.

#[global] Instance attempt_type_eq_dec : EqDecision attempt_type.
Proof. solve_decision. Defined.

#[global] Instance selected_dec user scope m : Decision (selected user scope m).
Proof. unfold selected. apply _. Defined.

(** Step 2: the selected modules whose label is found, each as
    (credit hours, grade point). *)
Definition eligible (d : db) (user : uuid) (scope : option uuid) : list (Z * Z) :=
  omap (fun m => (fun p => (credit_hours m, p)) <$> grade_point d user (grade m))
       (filter (selected user scope) (modules d)).

Definition sum_credit_hours (l : list (Z * Z)) : Z :=
  foldr (fun cp acc => cp.1 + acc) 0 l.

Definition sum_grade_points (l : list (Z * Z)) : Z :=
  foldr (fun cp acc => cp.2 * cp.1 + acc) 0 l.

(** Steps 3 and 4, in hundredths. *)
Definition gpa_reference (d : db) (user : uuid) (scope : option uuid) : Z :=
  let e := eligible d user scope in
  if decide (sum_credit_hours e = 0) then 0
  else round_half_away_from_zero
         (inject_Z (sum_grade_points e) / inject_Z (sum_credit_hours e)).

(** The largest grade-point value of the user's mapping (0 for an empty
    mapping). *)
Definition max_gpa_value (d : db) (user : uuid) : Z :=
  foldr Z.max 0
    (gpa_value <$> filter (fun gc => gc_user_id gc = user) (grading_criteria d)).

End GpaSpec.

Export GpaSpec.

(** ** Integrity constraints of the schema, and the ranges in which the
       procedure does not raise *)

Module Integrity.

(** [semesters.id] is the primary key. *)
Definition semesters_pkey (d : db) : Prop := NoDup (s_id <$> semesters d).

(** [modules.semester_id REFERENCES semesters(id)]. *)
Definition modules_semester_fkey (d : db) : Prop :=
  Forall (fun m => m_semester_id m ∈ (s_id <$> semesters d)) (modules d).

(** [grading_criteria.gpa_value] is a [DECIMAL(3,2)]. *)
Definition gpa_values_typed (d : db) : Prop :=
  Forall (fun gc => Z.abs (gpa_value gc) < 1000) (grading_criteria d).

(** Every running total [acc + c1 + ... + ci] is an INTEGER. *)
Fixpoint credits_fit_int4 (acc : Z) (cs : list Z) : bool :=
  match cs with
  | [] => true
  | c :: cs' => in_int4 (acc + c) && credits_fit_int4 (acc + c) cs'
  end.

(** The (credit hours, grade point) pairs that the loop adds up when it
    runs over [rows]: those whose [SELECT INTO] finds a value. *)
Definition counted (d : db) (user : uuid) (rows : list module_record) : list (Z * Z) :=
  omap (fun r => (fun v => (r_credit_hours r, v)) <$> select_gpa_value d user (r_grade r))
       rows.

(** The record that the loop's query makes of a module. *)
Definition record_of (m : module_row) : module_record :=
  {| r_credit_hours := credit_hours m;
     r_grade := grade m;
     r_attempt_type := m_attempt_type m |}.

(** The store with another [modules] table. *)
Definition with_modules (d : db) (ms : list module_row) : db :=
  {| profiles := profiles d;
     grading_criteria := grading_criteria d;
     semesters := semesters d;
     modules := ms |}.

End Integrity.

Export Integrity.

(** ** JavaScript strings and numbers, as far as the forms use them *)

Module Js.

(** The white-space code units below 256: TAB, LF, VT, FF, CR, SP, NBSP. *)
Definition is_white_space (c : ascii) : bool :=
  match N_of_ascii c with
  | 9 | 10 | 11 | 12 | 13 | 32 | 160 => true
  | _ => false
  end%N.

Fixpoint trimStart (s : string) : string :=
  match s with
  | EmptyString => EmptyString
  | String c s' => if is_white_space c then trimStart s' else s
  end.

Definition reverse_string (s : string) : string :=
  string_of_list_ascii (rev (list_ascii_of_string s)).

Definition trimEnd (s : string) : string :=
  reverse_string (trimStart (reverse_string s)).

(** [String.prototype.trim]. *)
Definition trim (s : string) : string := trimEnd (trimStart s).

(** [ToBoolean] of a string: the empty string is the only falsy one. *)
Definition truthy (s : string) : bool := negb (String.eqb s "").

(** A Number: a decimal [m * 10^e], an infinity, or NaN. The decimal stands
    for the double that JavaScript holds; the two agree on what reaches the
    store as long as the literal has at most 15 significant digits and
    stays in the range of a double, which is what a two-decimal grade
    point needs. Beyond that they differ (a literal of 17 digits and more
    is rounded to a double first, "1e400" is [Infinity]). *)
Inductive number : Type :=
| Num (m e : Z)
| Infinity (negative : bool)
| NaN.

Definition digit (c : ascii) : option Z :=
  let n := Z.of_N (N_of_ascii c) in
  if (48 <=? n) && (n <=? 57) then Some (n - 48) else None.

(** The longest run of decimal digits at the head of [s]: its value
    continuing [acc], the number of digits read after [cnt], the rest. *)
Fixpoint digits (s : string) (acc cnt : Z) : Z * Z * string :=
  match s with
  | EmptyString => (acc, cnt, s)
  | String c s' =>
      match digit c with
      | Some v => digits s' (10 * acc + v) (cnt + 1)
      | None => (acc, cnt, s)
      end
  end.

(** An ExponentPart at the head of [s], 0 when there is none. *)
Definition exponent_part (s : string) : Z :=
  match s with
  | String c s1 =>
      if Ascii.eqb c "e" || Ascii.eqb c "E" then
        let '(neg, s2) :=
          match s1 with
          | String "-" r => (true, r)
          | String "+" r => (false, r)
          | _ => (false, s1)
          end in
        let '(v, cnt, _) := digits s2 0 0 in
        if cnt =? 0 then 0 else if neg then - v else v
      else 0
  | EmptyString => 0
  end.

(** [parseFloat]: leading white space is skipped, then the longest prefix
    that is a StrDecimalLiteral is read; NaN when there is none. *)
Definition parseFloat (s : string) : number :=
  let s1 := trimStart s in
  let '(neg, s2) :=
    match s1 with
    | String "-" r => (true, r)
    | String "+" r => (false, r)
    | _ => (false, s1)
    end in
  if String.prefix "Infinity" s2 then Infinity neg
  else
    let '(ip, ni, s3) := digits s2 0 0 in
    let '(m, nf, s4) :=
      match s3 with
      | String "." r => digits r ip 0
      | _ => (ip, 0, s3)
      end in
    if ni + nf =? 0 then NaN
    else Num (if neg then - m else m) (exponent_part s4 - nf).

Definition isNaN (x : number) : bool :=
  match x with NaN => true | _ => false end.

(** A finite Number as a count of hundredths, the way the store rounds a
    NUMERIC input to scale 2 (ties away from zero). *)
Definition hundredths (m e : Z) : Z :=
  if 0 <=? e + 2 then m * 10 ^ (e + 2) else round_div m (10 ^ (- (e + 2))).

(** [Array.prototype.sort(cmp)]: the sort is stable, so its result is the
    one of any stable sort; here insertion from the right, an element
    going in front of the first one it does not have to follow. *)
Fixpoint sort_insert {A : Type} (cmp : A -> A -> Z) (x : A) (l : list A) : list A :=
  match l with
  | [] => [x]
  | y :: l' => if cmp x y <=? 0 then x :: l else y :: sort_insert cmp x l'
  end.

Definition array_sort {A : Type} (cmp : A -> A -> Z) (l : list A) : list A :=
  foldr (sort_insert cmp) [] l.

End Js.

(** ** The store as the client reaches it: row level security and RPC *)

Module Client.

Inductive client_error : Type :=
| fetch_failed                      (* the exchange did not complete *)
| store_error (e : sql_error).      (* the store rejected the statement *)

(** What an awaited supabase call resolves to. The builder does not
    throw: a failure is reported in [error], with [data] null. *)
Record response (A : Type) : Type := {
  data : option A;
  error : option client_error
}.
Arguments data {A} _.
Arguments error {A} _.

(** Whether the exchange with the store completes; when it does not, the
    store is left as it was. *)
Inductive delivery : Type := delivered | lost.

Definition resolved {A : Type} (a : option A) : response A :=
  {| data := a; error := None |}.

Definition rejected {A : Type} (e : client_error) : response A :=
  {| data := None; error := Some e |}.

(** *** Policies. [auth] is [auth.uid()]. *)

(** [USING (auth.uid() = user_id)] and [WITH CHECK (auth.uid() = user_id)]. *)
Definition owner_policy (auth owner : uuid) : bool := bool_decide (auth = owner).

(** The tables under row level security. *)
Inductive relation : Type :=
| profiles_rel
| grading_criteria_rel
| semesters_rel
| modules_rel.

#[global] Instance relation_eq_dec : EqDecision relation.
Proof. solve_decision. Defined.

(** The relations that the policies of a relation read in a subquery. One
    policy has a subquery: "Users can view leaderboard for same university
    and course", a [SELECT] policy on [profiles] whose [USING] expression
    is [EXISTS (SELECT 1 FROM public.profiles p WHERE ...)]. *)
Definition policy_subqueries (r : relation) : list relation :=
  match r with
  | profiles_rel => [profiles_rel]
  | grading_criteria_rel | semesters_rel | modules_rel => []
  end.

(** A statement that reads a relation is rewritten with the policies of
    that relation, and every relation that these read with its own. When
    this comes back to a relation that is being rewritten, PostgreSQL
    refuses the statement: "infinite recursion detected in policy for
    relation". No policy here reads another relation than its own, so the
    first step decides. *)
Definition policy_recursion (r : relation) : bool :=
  bool_decide (r ∈ policy_subqueries r).

(** What a [SELECT] on [profiles] by [auth] gives. The policies of
    [profiles] lead back to [profiles], so the statement is refused and
    no policy is evaluated; the other branch is what a relation without
    such a policy gives, the rows that "Users can view their own profile"
    lets through. *)
Definition rls_profiles (auth : uuid) (d : db) : result (list profile) :=
  if policy_recursion profiles_rel then Raise infinite_recursion
  else Ok (List.filter (fun p => owner_policy auth (p_user_id p)) (profiles d)).

(** The rows of the other tables that a [SELECT] by [auth] sees; their
    policies have no subquery. *)

Definition rls_grading_criteria (auth : uuid) (d : db) : list grading_criteria_row :=
  List.filter (fun gc => owner_policy auth (gc_user_id gc)) (grading_criteria d).

Definition rls_semesters (auth : uuid) (d : db) : list semester :=
  List.filter (fun s => owner_policy auth (s_user_id s)) (semesters d).

Definition rls_modules (auth : uuid) (d : db) : list module_row :=
  List.filter (fun m => owner_policy auth (m_user_id m)) (modules d).

(** *** RPC. Both functions are [SECURITY DEFINER]: they read the tables
    with the rights of their owner, whoever calls. *)
Definition rpc_calculate_gpa (net : delivery) (d : db)
    (p_user_id : uuid) (p_semester_id : option uuid) : response Z :=
  match net with
  | lost => rejected fetch_failed
  | delivered =>
      match calculate_gpa d p_user_id p_semester_id with
      | Ok r => resolved (Some r)
      | Raise e => rejected (store_error e)
      end
  end.

(** *** Writes *)

Definition set_is_current (b : bool) (s : semester) : semester :=
  {| s_id := s_id s; s_user_id := s_user_id s;
     semester_name := semester_name s; academic_year := academic_year s;
     start_date := start_date s; end_date := end_date s;
     is_current := Some b |}.

(** [from("semesters").update({ is_current: false }).eq("user_id", userId)]
    under the policy "Users can update their own semesters". *)
Definition update_semesters_not_current (net : delivery) (auth userId : uuid) (d : db)
    : db * response unit :=
  match net with
  | lost => (d, rejected fetch_failed)
  | delivered =>
      ({| profiles := profiles d;
          grading_criteria := grading_criteria d;
          semesters :=
            map (fun s =>
                   if owner_policy auth (s_user_id s) && bool_decide (s_user_id s = userId)
                   then set_is_current false s else s)
                (semesters d);
          modules := modules d |},
       resolved None)
  end.

(** [from("semesters").insert(row)] under "Users can create their own
    semesters"; [row] carries the id that [gen_random_uuid()] draws. *)
Definition insert_semester (net : delivery) (auth : uuid) (row : semester) (d : db)
    : db * response unit :=
  match net with
  | lost => (d, rejected fetch_failed)
  | delivered =>
      if owner_policy auth (s_user_id row)
      then ({| profiles := profiles d;
               grading_criteria := grading_criteria d;
               semesters := semesters d ++ [row];
               modules := modules d |},
            resolved None)
      else (d, rejected (store_error row_security_violation))
  end.

(** The body of one row of [from("grading_criteria").insert([...])]. *)
Record grading_criteria_input : Type := {
  in_user_id : uuid;
  in_grade_name : string;
  in_gpa_value : Js.number;
  in_min_percentage : option Js.number;
  in_max_percentage : option Js.number
}.

(** A Number as the NOT NULL [DECIMAL(3,2)] column takes it; NaN and the
    infinities travel as JSON null. *)
Definition gpa_value_of_json (x : Js.number) : result Z :=
  match x with
  | Js.Num m e => to_decimal_3_2 (Js.hundredths m e)
  | _ => Raise not_null_violation
  end.

(** The same for a nullable [DECIMAL(5,2)] column. *)
Definition percentage_of_json (x : option Js.number) : result (option Z) :=
  match x with
  | Some (Js.Num m e) => h <-- to_decimal_5_2 (Js.hundredths m e) ;; Ok (Some h)
  | _ => Ok None
  end.

Definition grading_criteria_of_input (auth : uuid) (id : uuid)
    (r : grading_criteria_input) : result grading_criteria_row :=
  if owner_policy auth (in_user_id r) then
    v <-- gpa_value_of_json (in_gpa_value r) ;;
    lo <-- percentage_of_json (in_min_percentage r) ;;
    hi <-- percentage_of_json (in_max_percentage r) ;;
    Ok {| gc_id := id; gc_user_id := in_user_id r;
          grade_name := in_grade_name r; gpa_value := v;
          min_percentage := lo; max_percentage := hi |}
  else Raise row_security_violation.

(** All rows of one statement, the [i]-th with id [fresh i]; the first
    row that fails aborts the statement. *)
Fixpoint rows_of_inputs (auth : uuid) (fresh : nat -> uuid) (i : nat)
    (rs : list grading_criteria_input) : result (list grading_criteria_row) :=
  match rs with
  | [] => Ok []
  | r :: rs' =>
      row <-- grading_criteria_of_input auth (fresh i) r ;;
      rows <-- rows_of_inputs auth fresh (S i) rs' ;;
      Ok (row :: rows)
  end.

Definition insert_grading_criteria (net : delivery) (auth : uuid) (fresh : nat -> uuid)
    (rs : list grading_criteria_input) (d : db) : db * response unit :=
  match net with
  | lost => (d, rejected fetch_failed)
  | delivered =>
      match rows_of_inputs auth fresh 0 rs with
      | Ok rows =>
          ({| profiles := profiles d;
              grading_criteria := grading_criteria d ++ rows;
              semesters := semesters d;
              modules := modules d |},
           resolved None)
      | Raise e => (d, rejected (store_error e))
      end
  end.

End Client.

Export Client.

(** ** What a handler reports to the user *)

Module Ui.

Inductive message : Type :=
| text (s : string)
| of_error (e : client_error).

Inductive toast : Type :=
| Success (description : string)
| Error (description : message).

End Ui.

Export Ui.

(** ** [AddSemesterDialog] *)

Module AddSemesterDialog.

Record formData : Type := {
  semester_name : string;
  academic_year : string;
  start_date : string;
  end_date : string;
  is_current : bool
}.

(** [s || null] on a string. *)
Definition or_null (s : string) : option string :=
  if Js.truthy s then Some s else None.

(** What the two awaited calls of one submission meet: whether each
    exchange completes, and the id the store draws for the new row. *)
Record exchange : Type := {
  net_update : delivery;
  net_insert : delivery;
  new_id : uuid
}.

(** [handleSubmit], for the session [auth] and the prop [userId]: the
    store afterwards and the toast shown. The response of the update is
    awaited and dropped; only the one of the insert is looked at. *)
Definition handleSubmit (auth userId : uuid) (fd : formData) (x : exchange) (d : db)
    : db * toast :=
  let d1 :=
    if is_current fd
    then (update_semesters_not_current (net_update x) auth userId d).1
    else d in
  let '(d2, r) :=
    insert_semester (net_insert x) auth
      {| s_id := new_id x;
         s_user_id := userId;
         Schema.semester_name := semester_name fd;
         Schema.academic_year := academic_year fd;
         Schema.start_date := or_null (start_date fd);
         Schema.end_date := or_null (end_date fd);
         Schema.is_current := Some (is_current fd) |}
      d1 in
  match error r with
  | Some e => (d2, Error (of_error e))
  | None => (d2, Success "Semester added successfully!")
  end.

(** The semesters of [user] that are flagged current. *)
Definition current_semesters (user : uuid) (d : db) : list semester :=
  List.filter (fun s => bool_decide (s_user_id s = user)
                        && bool_decide (Schema.is_current s = Some true))
    (semesters d).

End AddSemesterDialog.

(** ** [GradingCriteriaSetup] *)

Module GradingCriteriaSetup.

(** One line of the form; every field is the text of its input. *)
Record GradingCriteria : Type := {
  grade_name : string;
  gpa_value : string;
  min_percentage : string;
  max_percentage : string
}.

Definition defaultCriteria : list GradingCriteria :=
  [ {| grade_name := "A+"; gpa_value := "4.00"; min_percentage := "90"; max_percentage := "100" |};
    {| grade_name := "A"; gpa_value := "3.70"; min_percentage := "85"; max_percentage := "89" |};
    {| grade_name := "A-"; gpa_value := "3.30"; min_percentage := "80"; max_percentage := "84" |};
    {| grade_name := "B+"; gpa_value := "3.00"; min_percentage := "75"; max_percentage := "79" |};
    {| grade_name := "B"; gpa_value := "2.70"; min_percentage := "70"; max_percentage := "74" |};
    {| grade_name := "B-"; gpa_value := "2.30"; min_percentage := "65"; max_percentage := "69" |};
    {| grade_name := "C+"; gpa_value := "2.00"; min_percentage := "60"; max_percentage := "64" |};
    {| grade_name := "C"; gpa_value := "1.70"; min_percentage := "55"; max_percentage := "59" |};
    {| grade_name := "D"; gpa_value := "1.00"; min_percentage := "50"; max_percentage := "54" |};
    {| grade_name := "F"; gpa_value := "0.00"; min_percentage := "0"; max_percentage := "49" |} ].

(** The predicate of [criteria.filter(...)]. *)
Definition valid (c : GradingCriteria) : bool :=
  Js.truthy (Js.trim (grade_name c))
  && Js.truthy (Js.trim (gpa_value c))
  && negb (Js.isNaN (Js.parseFloat (gpa_value c))).

Definition validCriteria (criteria : list GradingCriteria) : list GradingCriteria :=
  List.filter valid criteria.

(** The object built for one valid line. *)
Definition to_input (userId : uuid) (c : GradingCriteria) : grading_criteria_input :=
  {| in_user_id := userId;
     in_grade_name := Js.trim (grade_name c);
     in_gpa_value := Js.parseFloat (gpa_value c);
     in_min_percentage :=
       if Js.truthy (min_percentage c) then Some (Js.parseFloat (min_percentage c)) else None;
     in_max_percentage :=
       if Js.truthy (max_percentage c) then Some (Js.parseFloat (max_percentage c)) else None |}.

(** [saveCriteria]: the store afterwards and the toast shown. *)
Definition saveCriteria (auth userId : uuid) (criteria : list GradingCriteria)
    (net : delivery) (fresh : nat -> uuid) (d : db) : db * toast :=
  let vc := validCriteria criteria in
  if (length vc =? 0)%nat
  then (d, Error (text "Please add at least one valid grading criteria"))
  else
    let '(d', r) := insert_grading_criteria net auth fresh (map (to_input userId) vc) d in
    match error r with
    | Some e => (d', Error (of_error e))
    | None => (d', Success "Grading criteria saved successfully!")
    end.

(** The grade labels of [user]'s grading scale, in table order. *)
Definition labels (user : uuid) (d : db) : list string :=
  map Schema.grade_name
    (List.filter (fun gc => bool_decide (gc_user_id gc = user)) (grading_criteria d)).

End GradingCriteriaSetup.

(** ** The [Leaderboard] page *)

Module Leaderboard.

Record LeaderboardEntry : Type := {
  id : uuid;
  full_name : string;
  university_name : string;
  course_name : string;
  registration_number : string;
  user_id : uuid;
  gpa : Z                         (* the Number shown with [toFixed(2)], hundredths *)
}.

Definition itemsPerPage : nat := 10.

(** The component state that [loadLeaderboard] writes. *)
Record State : Type := {
  leaderboard : list LeaderboardEntry;
  totalPages : nat;
  toasted : option toast
}.

(** What the awaited calls of one load meet; the RPC calls are told apart
    by the position of their profile in the page. *)
Record exchange : Type := {
  net_count : delivery;
  net_data : delivery;
  net_rpc : nat -> delivery
}.

(** [from("profiles").select(...).eq("university_name", ...)
    .eq("course_name", ...)] asked by the session [auth]: what the store
    answers. *)
Definition same_course (auth : uuid) (me : profile) (d : db) : result (list profile) :=
  visible <-- rls_profiles auth d ;;
  Ok (List.filter (fun p =>
          String.eqb (Schema.university_name p) (Schema.university_name me)
          && String.eqb (Schema.course_name p) (Schema.course_name me))
        visible).

(** [.range((page - 1) * itemsPerPage, page * itemsPerPage - 1)]; [page]
    starts at 1 and the pagination never sets it below. *)
Definition range (page : positive) (l : list profile) : list profile :=
  take itemsPerPage (drop ((Pos.to_nat page - 1) * itemsPerPage) l).

(** [Math.ceil(count / itemsPerPage)]. *)
Definition pages (count : nat) : nat := (count + (itemsPerPage - 1)) / itemsPerPage.

(** The callback of [(data || []).map(async (entry) => ...)]. *)
Definition with_gpa (x : exchange) (d : db) (i : nat) (entry : profile) : LeaderboardEntry :=
  let gpaData := data (rpc_calculate_gpa (net_rpc x i) d (p_user_id entry) None) in
  {| id := p_id entry;
     full_name := Schema.full_name entry;
     university_name := Schema.university_name entry;
     course_name := Schema.course_name entry;
     registration_number := Schema.registration_number entry;
     user_id := p_user_id entry;
     gpa := match gpaData with Some g => g | None => 0 end |}.

(** [(a, b) => b.gpa - a.gpa]. Two grade points of two decimals are equal
    as doubles exactly when they are equal, and the sign of the difference
    of the doubles is the sign of the difference of the hundredths. *)
Definition by_gpa_desc (a b : LeaderboardEntry) : Z := gpa b - gpa a.

Definition failed_to_load : toast := Error (text "Failed to load leaderboard").

(** The second half of [loadLeaderboard] (from "For each profile,
    calculate their GPA" on): what the page makes of the rows [data] that
    the second query returned, [count] being the count of the first. *)
Definition loaded (x : exchange) (d : db) (count : nat) (data : list profile) : State :=
  let leaderboardWithGPA := imap (with_gpa x d) data in
  {| leaderboard := Js.array_sort by_gpa_desc leaderboardWithGPA;
     totalPages := pages count;
     toasted := None |}.

(** [loadLeaderboard], with [me] the profile in the component state. An
    error of either query ([countError], [error]) is thrown and caught:
    the toast is shown and the rows are left as they were. *)
Definition loadLeaderboard (auth : uuid) (me : profile) (page : positive)
    (x : exchange) (d : db) (st : State) : State :=
  let failed (total : nat) :=
    {| leaderboard := leaderboard st; totalPages := total;
       toasted := Some failed_to_load |} in
  match net_count x, same_course auth me d with
  | delivered, Ok counted_rows =>
      let count := length counted_rows in
      match net_data x, same_course auth me d with
      | delivered, Ok rows => loaded x d count (range page rows)
      | _, _ => failed (pages count)
      end
  | _, _ => failed (totalPages st)
  end.


(** The Rank cell of the row at [index]: [(page - 1) * itemsPerPage + index + 1]. *)
Definition rank (page : positive) (index : nat) : nat :=
  ((Pos.to_nat page - 1) * itemsPerPage + index + 1)%nat.

(** The table body: rank and entry of every row, top to bottom. *)
Definition rows (page : positive) (lb : list LeaderboardEntry) : list (nat * LeaderboardEntry) :=
  imap (fun index entry => (rank page index, entry)) lb.

End Leaderboard.

(** ** [get_leaderboard] *)

Module GetLeaderboard.

Record row : Type := {
  id : uuid;
  full_name : string;
  registration_number : string;
  gpa : Z
}.

(** [ORDER BY p.full_name]. The migration names no collation, so the
    order is the one of the database; here it is the C collation, code
    unit by code unit, with rows of equal names left in scan order. The
    statements below about [get_leaderboard] hold for any order that the
    names fix. *)
Definition by_full_name (a b : profile) : Z :=
  match String.compare (Schema.full_name a) (Schema.full_name b) with
  | Lt => -1
  | Eq => 0
  | Gt => 1
  end.

(** The query of the [FOR profile_record IN ...] loop. *)
Definition profile_scan (d : db) (p_university_name p_course_name : string)
    (p_limit p_offset : Z) : result (list profile) :=
  if p_limit <? 0 then Raise limit_must_not_be_negative
  else if p_offset <? 0 then Raise offset_must_not_be_negative
  else
    Ok (take (Z.to_nat p_limit) (drop (Z.to_nat p_offset)
         (Js.array_sort by_full_name
            (List.filter (fun p =>
                 String.eqb (Schema.university_name p) p_university_name
                 && String.eqb (Schema.course_name p) p_course_name)
               (profiles d))))).

(** The loop: one [RETURN NEXT] per profile. [calculated_gpa] is a
    declared [DECIMAL(3,2)] variable, so the assignment to it checks the
    value. *)
Fixpoint return_next (d : db) (ps : list profile) : result (list row) :=
  match ps with
  | [] => Ok []
  | p :: ps' =>
      g <-- calculate_gpa d (p_user_id p) None ;;
      calculated_gpa <-- to_decimal_3_2 g ;;
      rest <-- return_next d ps' ;;
      Ok ({| id := p_id p;
             full_name := Schema.full_name p;
             registration_number := Schema.registration_number p;
             gpa := calculated_gpa |} :: rest)
  end.

Definition get_leaderboard (d : db) (p_university_name p_course_name : string)
    (p_limit p_offset : Z) : result (list row) :=
  ps <-- profile_scan d p_university_name p_course_name p_limit p_offset ;;
  return_next d ps.

End GetLeaderboard.

(** ** Concrete stores *)

Module Examples.

Definition alice : uuid := 1%N.
Definition bob : uuid := 2%N.

Definition criterion (id user : uuid) (label : string) (value : Z) : grading_criteria_row :=
  {| gc_id := id; gc_user_id := user; grade_name := label; gpa_value := value;
     min_percentage := None; max_percentage := None |}.

Definition term (id user : uuid) (name : string) (current : bool) : semester :=
  {| s_id := id; s_user_id := user; semester_name := name; academic_year := "2024-2025";
     start_date := None; end_date := None; is_current := Some current |}.

Definition course (id sem user : uuid) (credits : Z) (label : string) (a : attempt_type)
    : module_row :=
  {| m_id := id; m_semester_id := sem; m_user_id := user;
     module_code := "CS101"; module_name := "Introduction";
     credit_hours := credits; grade := label;
     m_module_type := compulsory; m_attempt_type := a |}.

Definition student (id user : uuid) (name university program reg : string) : profile :=
  {| p_id := id; p_user_id := user; full_name := name;
     university_name := university; course_name := program;
     registration_number := reg |}.

(** 3 credits at 4.00 and 4 credits at 3.00. *)
Definition two_grades : db :=
  {| profiles := [];
     grading_criteria := [criterion 1%N alice "A" 400; criterion 2%N alice "B" 300];
     semesters := [term 10%N alice "Fall" true];
     modules := [course 20%N 10%N alice 3 "A" first_attempt;
                 course 21%N 10%N alice 4 "B" first_attempt] |}.

(** The only module is dropped. *)
Definition all_dropped : db :=
  {| profiles := [];
     grading_criteria := [criterion 1%N alice "A" 400];
     semesters := [term 10%N alice "Fall" true];
     modules := [course 20%N 10%N alice 3 "A" dropped] |}.

(** A scale whose only grade is worth -1.00. *)
Definition negative_scale : db :=
  {| profiles := [];
     grading_criteria := [criterion 1%N alice "F" (-100)];
     semesters := [term 10%N alice "Fall" true];
     modules := [course 20%N 10%N alice 3 "F" first_attempt] |}.

(** A scale with a label entered twice, and two grades. *)
Definition duplicate_scale : db :=
  {| profiles := [];
     grading_criteria :=
       [criterion 1%N alice "A" 400; criterion 2%N alice "A" 370; criterion 3%N alice "B" 300];
     semesters := [term 10%N alice "Fall" true];
     modules := [course 20%N 10%N alice 3 "A" first_attempt;
                 course 21%N 10%N alice 3 "B" repeat] |}.

(** Alice has a current semester. *)
Definition one_current : db :=
  {| profiles := [];
     grading_criteria := [];
     semesters := [term 10%N alice "Fall" true];
     modules := [] |}.

(** The form of a second semester, flagged current. *)
Definition spring_form : AddSemesterDialog.formData :=
  {| AddSemesterDialog.semester_name := "Spring";
     AddSemesterDialog.academic_year := "2024-2025";
     AddSemesterDialog.start_date := "";
     AddSemesterDialog.end_date := "";
     AddSemesterDialog.is_current := true |}.

(** The update is lost on its way, the insert arrives. *)
Definition update_lost : AddSemesterDialog.exchange :=
  {| AddSemesterDialog.net_update := lost;
     AddSemesterDialog.net_insert := delivered;
     AddSemesterDialog.new_id := 11%N |}.

Definition both_delivered : AddSemesterDialog.exchange :=
  {| AddSemesterDialog.net_update := delivered;
     AddSemesterDialog.net_insert := delivered;
     AddSemesterDialog.new_id := 11%N |}.

Definition empty_store : db :=
  {| profiles := []; grading_criteria := []; semesters := []; modules := [] |}.

(** A setup form in which the label "A" is typed on two lines. *)
Definition repeated_label : list GradingCriteriaSetup.GradingCriteria :=
  [ {| GradingCriteriaSetup.grade_name := "A";
       GradingCriteriaSetup.gpa_value := "4.00";
       GradingCriteriaSetup.min_percentage := "85";
       GradingCriteriaSetup.max_percentage := "100" |};
    {| GradingCriteriaSetup.grade_name := " A ";
       GradingCriteriaSetup.gpa_value := "3.70";
       GradingCriteriaSetup.min_percentage := "";
       GradingCriteriaSetup.max_percentage := "" |} ].

Definition fresh_ids (i : nat) : uuid := (100 + N.of_nat i)%N.

(** Alice and Bob study at different universities; Bob has one graded
    module, with grade [label]. *)
Definition two_universities (label : string) : db :=
  {| profiles := [student 1%N alice "Alice" "MIT" "CS" "R1";
                  student 2%N bob "Bob" "Oxford" "Law" "R2"];
     grading_criteria := [criterion 3%N bob "A" 400; criterion 4%N bob "B" 300];
     semesters := [term 30%N bob "Fall" true];
     modules := [course 40%N 30%N bob 3 label first_attempt] |}.

(** Eleven students of one course; the user [i] holds the profile [i],
    the semester [100 + i] and one module of 3 credits, graded "A" for the
    eleventh and "B" for the others. *)
Definition classmates : list (N * string * string) :=
  [ (1, "Ana", "R01"); (2, "Ben", "R02"); (3, "Cem", "R03"); (4, "Dan", "R04");
    (5, "Eva", "R05"); (6, "Fay", "R06"); (7, "Gus", "R07"); (8, "Hal", "R08");
    (9, "Ida", "R09"); (10, "Jon", "R10"); (11, "Kim", "R11") ]%N.

Definition eleven_students : db :=
  {| profiles := map (fun c => student c.1.1 c.1.1 c.1.2 "MIT" "CS" c.2) classmates;
     grading_criteria :=
       flat_map (fun c => [criterion (200 + c.1.1)%N c.1.1 "A" 400;
                           criterion (300 + c.1.1)%N c.1.1 "B" 300])
         classmates;
     semesters := map (fun c => term (100 + c.1.1)%N c.1.1 "Fall" true) classmates;
     modules :=
       map (fun c => course (400 + c.1.1)%N (100 + c.1.1)%N c.1.1 3
                       (if (c.1.1 =? 11)%N then "A" else "B") first_attempt)
         classmates |}.

(** The profile of the first of them, who looks at the leaderboard. *)
Definition ana : profile := student 1%N 1%N "Ana" "MIT" "CS" "R01".

Definition all_delivered : Leaderboard.exchange :=
  {| Leaderboard.net_count := delivered;
     Leaderboard.net_data := delivered;
     Leaderboard.net_rpc := fun _ => delivered |}.


Definition blank_page : Leaderboard.State :=
  {| Leaderboard.leaderboard := []; Leaderboard.totalPages := 1%nat;
     Leaderboard.toasted := None |}.

End Examples.

(** ** More of the store: constraints, deletes and ordered reads *)

Module Rest.

(** What the store can answer besides the errors above. *)
Inductive rest_error : Type :=
| of_client (e : client_error)
| foreign_key_violation
| undefined_column.

Record reply (A : Type) : Type := {
  data : option A;
  error : option rest_error
}.
Arguments data {A} _.
Arguments error {A} _.

Definition resolved {A : Type} (a : option A) : reply A :=
  {| data := a; error := None |}.

Definition rejected {A : Type} (e : rest_error) : reply A :=
  {| data := None; error := Some e |}.

Definition lost_on_the_way {A : Type} : reply A := rejected (of_client fetch_failed).

Inductive message : Type :=
| text (s : string)
| of_error (e : rest_error).

Inductive toast : Type :=
| Success (description : string)
| Error (description : message).

(** The store with another table. *)
Definition with_grading_criteria (d : db) (gcs : list grading_criteria_row) : db :=
  {| profiles := profiles d;
     grading_criteria := gcs;
     semesters := semesters d;
     modules := modules d |}.

Definition with_semesters_modules (d : db) (ss : list semester) (ms : list module_row) : db :=
  {| profiles := profiles d;
     grading_criteria := grading_criteria d;
     semesters := ss;
     modules := ms |}.

(** *** [modules] *)

(** The body of [from("modules").insert({...})]; [credit_hours] is the
    Number that [parseInt] gave, NaN being [None]. *)
Record module_input : Type := {
  in_user_id : uuid;
  in_semester_id : uuid;
  in_module_code : string;
  in_module_name : string;
  in_credit_hours : option Z;
  in_grade : string;
  in_module_type : module_type;
  in_attempt_type : attempt_type
}.

(** The insert under "Users can create their own modules" and the foreign
    key [semester_id REFERENCES semesters(id)]. The row is read from the
    JSON body first (a Number beyond INTEGER is refused there), then the
    policy is checked, then NOT NULL (NaN travels as JSON null), and the
    key last; the key is checked against the whole table, whoever owns
    the semester. *)
Definition insert_module (net : delivery) (auth : uuid) (id : uuid)
    (r : module_input) (d : db) : db * reply unit :=
  match net with
  | lost => (d, lost_on_the_way)
  | delivered =>
      if negb (match in_credit_hours r with Some n => in_int4 n | None => true end)
      then (d, rejected (of_client (store_error integer_out_of_range)))
      else if negb (owner_policy auth (in_user_id r))
      then (d, rejected (of_client (store_error row_security_violation)))
      else
        match in_credit_hours r with
        | None => (d, rejected (of_client (store_error not_null_violation)))
        | Some c =>
            if negb (bool_decide (in_semester_id r ∈ (s_id <$> semesters d)))
            then (d, rejected foreign_key_violation)
            else
              (with_modules d
                 (modules d ++
                  [ {| m_id := id;
                       m_semester_id := in_semester_id r;
                       m_user_id := in_user_id r;
                       module_code := in_module_code r;
                       module_name := in_module_name r;
                       credit_hours := c;
                       grade := in_grade r;
                       m_module_type := in_module_type r;
                       m_attempt_type := in_attempt_type r |} ]),
               resolved None)
        end
  end.

(** [from("modules").delete().eq(column, value)] under "Users can delete
    their own modules": the rows that match and that the session owns go,
    and no row matching is no error. *)
Definition delete_modules (net : delivery) (auth : uuid)
    (matches : module_row -> bool) (d : db) : db * reply unit :=
  match net with
  | lost => (d, lost_on_the_way)
  | delivered =>
      (with_modules d
         (List.filter (fun m => negb (owner_policy auth (m_user_id m) && matches m))
            (modules d)),
       resolved None)
  end.

(** [from("semesters").delete().eq("id", id)] under "Users can delete their
    own semesters". [ON DELETE CASCADE] takes the modules of a deleted
    semester with it, whoever owns them. *)
Definition delete_semester (net : delivery) (auth : uuid) (id : uuid) (d : db)
    : db * reply unit :=
  match net with
  | lost => (d, lost_on_the_way)
  | delivered =>
      let goes s := owner_policy auth (s_user_id s) && bool_decide (s_id s = id) in
      if existsb goes (semesters d)
      then (with_semesters_modules d
              (List.filter (fun s => negb (goes s)) (semesters d))
              (List.filter (fun m => negb (bool_decide (m_semester_id m = id))) (modules d)),
            resolved None)
      else (d, resolved None)
  end.

(** *** [grading_criteria], read in order *)

Definition grading_criteria_columns : list string :=
  [ "id"; "user_id"; "grade_name"; "gpa_value"; "min_percentage"; "max_percentage";
    "created_at" ].

Definition compare_Z (c : comparison) : Z :=
  match c with Lt => -1 | Eq => 0 | Gt => 1 end.

(** NULL sorts as the largest value. *)
Definition compare_nullable (a b : option Z) : Z :=
  match a, b with
  | Some x, Some y => compare_Z (x ?= y)
  | Some _, None => -1
  | None, Some _ => 1
  | None, None => 0
  end.

(** The ascending comparison of two rows on a column; rows are kept in the
    order of their creation, so [created_at] leaves the scan order. *)
Definition compare_on (column : string) (a b : grading_criteria_row) : Z :=
  if String.eqb column "id" then compare_Z (gc_id a ?= gc_id b)%N
  else if String.eqb column "user_id" then compare_Z (gc_user_id a ?= gc_user_id b)%N
  else if String.eqb column "grade_name"
       then compare_Z (String.compare (grade_name a) (grade_name b))
  else if String.eqb column "gpa_value" then compare_Z (gpa_value a ?= gpa_value b)
  else if String.eqb column "min_percentage"
       then compare_nullable (min_percentage a) (min_percentage b)
  else if String.eqb column "max_percentage"
       then compare_nullable (max_percentage a) (max_percentage b)
  else 0.

(** [from("grading_criteria").select(...).eq("user_id", userId)
    .order(column, { ascending })]: a column that the table does not have
    is an error of the store. Rows that compare equal stay in scan order. *)
Definition select_grading_criteria (net : delivery) (auth userId : uuid)
    (column : string) (ascending : bool) (d : db) : reply (list grading_criteria_row) :=
  match net with
  | lost => lost_on_the_way
  | delivered =>
      if negb (bool_decide (column ∈ grading_criteria_columns))
      then rejected undefined_column
      else
        resolved (Some
          (Js.array_sort
             (fun a b => if ascending then compare_on column a b else compare_on column b a)
             (List.filter (fun gc => bool_decide (gc_user_id gc = userId))
                (rls_grading_criteria auth d))))
  end.

End Rest.

(** ** [parseInt] *)

Module JsInt.

Definition hex_digit (c : ascii) : option Z :=
  let n := Z.of_N (N_of_ascii c) in
  if (48 <=? n) && (n <=? 57) then Some (n - 48)
  else if (97 <=? n) && (n <=? 102) then Some (n - 87)
  else if (65 <=? n) && (n <=? 70) then Some (n - 55)
  else None.

(** The longest run of digits of the radix at the head of [s]: its value
    continuing [acc] and the number of digits read after [cnt]. *)
Fixpoint digits (digit_of : ascii -> option Z) (radix : Z) (s : string) (acc cnt : Z)
    : Z * Z :=
  match s with
  | EmptyString => (acc, cnt)
  | String c s' =>
      match digit_of c with
      | Some v => digits digit_of radix s' (radix * acc + v) (cnt + 1)
      | None => (acc, cnt)
      end
  end.

(** [parseInt(s)] without a radix: white space, a sign, "0x" or "0X" for
    radix 16, then the longest run of digits; NaN ([None]) when there is no
    digit. The integer is exact: JavaScript gives the nearest double beyond
    [2^53], which is as far beyond an INTEGER as the exact value. *)
Definition parseInt (s : string) : option Z :=
  let s1 := Js.trimStart s in
  let '(neg, s2) :=
    match s1 with
    | String "-" r => (true, r)
    | String "+" r => (false, r)
    | _ => (false, s1)
    end in
  let '(v, cnt) :=
    match s2 with
    | String "0" (String "x" r) | String "0" (String "X" r) => digits hex_digit 16 r 0 0
    | _ => digits Js.digit 10 s2 0 0
    end in
  if cnt =? 0 then None else Some (if neg then - v else v).

End JsInt.

(** ** What a signed-in user can ask of the store *)

Module Access.

Inductive request : Type :=
| read_profiles
| read_grading_criteria
| read_semesters
| read_modules
| call_calculate_gpa (p_user_id : uuid) (p_semester_id : option uuid)
| call_get_leaderboard (p_university_name p_course_name : string) (p_limit p_offset : Z).

Inductive answer : Type :=
| profile_rows (r : result (list profile))
| grading_criteria_rows (l : list grading_criteria_row)
| semester_rows (l : list semester)
| module_rows (l : list module_row)
| gpa_result (r : result Z)
| leaderboard_result (r : result (list GetLeaderboard.row)).

(** The answer to [q] asked by the session [auth]. *)
Definition ask (auth : uuid) (d : db) (q : request) : answer :=
  match q with
  | read_profiles => profile_rows (rls_profiles auth d)
  | read_grading_criteria => grading_criteria_rows (rls_grading_criteria auth d)
  | read_semesters => semester_rows (rls_semesters auth d)
  | read_modules => module_rows (rls_modules auth d)
  | call_calculate_gpa u s => gpa_result (calculate_gpa d u s)
  | call_get_leaderboard un cn l o =>
      leaderboard_result (GetLeaderboard.get_leaderboard d un cn l o)
  end.

(** The rows of the four tables whose [user_id] is [user]. *)
Definition owned (user : uuid) (d : db) : db :=
  {| profiles := List.filter (fun p => bool_decide (p_user_id p = user)) (profiles d);
     grading_criteria :=
       List.filter (fun gc => bool_decide (gc_user_id gc = user)) (grading_criteria d);
     semesters := List.filter (fun s => bool_decide (s_user_id s = user)) (semesters d);
     modules := List.filter (fun m => bool_decide (m_user_id m = user)) (modules d) |}.

(** [u] is a peer of [auth]: they have profiles of the same university and
    course. *)
Definition peer (d : db) (auth u : uuid) : bool :=
  existsb (fun p =>
    bool_decide (p_user_id p = auth)
    && existsb (fun q =>
         bool_decide (p_user_id q = u)
         && String.eqb (university_name p) (university_name q)
         && String.eqb (course_name p) (course_name q))
         (profiles d))
    (profiles d).

(** The reads of the three tables whose policies are evaluated, and a GPA
    of one's own. *)
Definition own_request (auth : uuid) (q : request) : bool :=
  match q with
  | read_grading_criteria | read_semesters | read_modules => true
  | read_profiles => false
  | call_calculate_gpa u _ => bool_decide (u = auth)
  | call_get_leaderboard _ _ _ _ => false
  end.

(** The writes that the forms issue. *)
Inductive write : Type :=
| clear_current (userId : uuid)
| add_semester (row : semester)
| add_grading_criteria (fresh : nat -> uuid) (rows : list grading_criteria_input)
| add_module (id : uuid) (row : Rest.module_input)
| remove_modules (matches : module_row -> bool)
| remove_semester (id : uuid).

(** The store after [w] is issued by the session [auth]. *)
Definition perform (net : delivery) (auth : uuid) (w : write) (d : db) : db :=
  match w with
  | clear_current userId => (update_semesters_not_current net auth userId d).1
  | add_semester row => (insert_semester net auth row d).1
  | add_grading_criteria fresh rows => (insert_grading_criteria net auth fresh rows d).1
  | add_module id row => (Rest.insert_module net auth id row d).1
  | remove_modules matches => (Rest.delete_modules net auth matches d).1
  | remove_semester id => (Rest.delete_semester net auth id d).1
  end.

(** The store without the modules attached to the semester [id]: what
    [ON DELETE CASCADE] takes with the semester. *)
Definition without_modules_of (id : uuid) (d : db) : db :=
  with_modules d
    (List.filter (fun m => negb (bool_decide (m_semester_id m = id))) (modules d)).

End Access.

(** ** [AddModuleDialog] *)

Module AddModuleDialog.

Record GradingCriteria : Type := {
  grade_name : string;
  gpa_value : Z
}.

Record formData : Type := {
  module_code : string;
  module_name : string;
  credit_hours : string;
  grade : string;
  module_type : Schema.module_type;
  attempt_type : Schema.attempt_type
}.

(** [loadGradingCriteria]: the grades offered in the select box and the
    toast shown, if any. *)
Definition loadGradingCriteria (net : delivery) (auth userId : uuid) (d : db)
    (availableGrades : list GradingCriteria) : list GradingCriteria * option Rest.toast :=
  let r := Rest.select_grading_criteria net auth userId "gpa_value" false d in
  match Rest.error r with
  | Some _ => (availableGrades, Some (Rest.Error (Rest.text "Failed to load grading criteria")))
  | None =>
      (match Rest.data r with
       | Some rows =>
           map (fun gc => {| grade_name := Schema.grade_name gc;
                             gpa_value := Schema.gpa_value gc |}) rows
       | None => []
       end,
       None)
  end.

(** [handleSubmit], for the session [auth] and the props [userId] and
    [semesterId]: the store afterwards and the toast shown. *)
Definition handleSubmit (auth userId semesterId : uuid) (fd : formData)
    (net : delivery) (new_id : uuid) (d : db) : db * Rest.toast :=
  let '(d', r) :=
    Rest.insert_module net auth new_id
      {| Rest.in_user_id := userId;
         Rest.in_semester_id := semesterId;
         Rest.in_module_code := module_code fd;
         Rest.in_module_name := module_name fd;
         Rest.in_credit_hours := JsInt.parseInt (credit_hours fd);
         Rest.in_grade := grade fd;
         Rest.in_module_type := module_type fd;
         Rest.in_attempt_type := attempt_type fd |}
      d in
  match Rest.error r with
  | Some e => (d', Rest.Error (Rest.of_error e))
  | None => (d', Rest.Success "Module added successfully!")
  end.

End AddModuleDialog.

(** ** [ModuleList] *)

Module ModuleList.

(** [handleDelete]. *)
Definition handleDelete (auth moduleId : uuid) (net : delivery) (d : db)
    : db * Rest.toast :=
  let '(d', r) :=
    Rest.delete_modules net auth (fun m => bool_decide (m_id m = moduleId)) d in
  match Rest.error r with
  | Some e => (d', Rest.Error (Rest.of_error e))
  | None => (d', Rest.Success "Module deleted successfully!")
  end.

End ModuleList.

(** ** [SemesterOverview] *)

Module SemesterOverview.

(** [confirmDeleteSemester] with [semesterToDelete] the id of the semester
    picked, if any: the store afterwards and the toast shown, if any. The
    second call is made only when the first reports no error. *)
Definition confirmDeleteSemester (auth : uuid) (semesterToDelete : option uuid)
    (net_modules net_semester : delivery) (d : db) : db * option Rest.toast :=
  match semesterToDelete with
  | None => (d, None)
  | Some id =>
      let '(d1, r1) :=
        Rest.delete_modules net_modules auth
          (fun m => bool_decide (m_semester_id m = id)) d in
      match Rest.error r1 with
      | Some modulesError => (d1, Some (Rest.Error (Rest.of_error modulesError)))
      | None =>
          let '(d2, r2) := Rest.delete_semester net_semester auth id d1 in
          match Rest.error r2 with
          | Some semesterError => (d2, Some (Rest.Error (Rest.of_error semesterError)))
          | None =>
              (d2, Some (Rest.Success "Semester and its modules deleted successfully!"))
          end
      end
  end.

End SemesterOverview.

(** ** [SemesterCard] *)

Module SemesterCard.

Record State : Type := {
  modules : list module_row;
  totalCredits : Z;
  toasted : option Rest.toast
}.

(** The callback of [data?.reduce(..., 0)]; the sum of INTEGER columns is
    exact as a Number as long as it stays below 2^53. *)
Definition add_credits (sum : Z) (module : module_row) : Z :=
  if negb (attempt_type_eqb (m_attempt_type module) dropped)
  then sum + credit_hours module
  else sum.

(** [loadModules] for the semester [semester_id]; the rows come in the
    order of their creation. *)
Definition loadModules (net : delivery) (auth semester_id : uuid) (d : db) (st : State)
    : State :=
  match net with
  | lost =>
      {| modules := modules st; totalCredits := totalCredits st;
         toasted := Some (Rest.Error (Rest.text "Failed to load modules")) |}
  | delivered =>
      let data :=
        List.filter (fun m => bool_decide (m_semester_id m = semester_id))
          (rls_modules auth d) in
      {| modules := data;
         totalCredits := fold_left add_credits data 0;
         toasted := None |}
  end.

End SemesterCard.

(** ** [count_leaderboard_entries] *)

Module CountLeaderboard.

(** [SELECT COUNT( * ) INTO total_count ...]; the count is assigned to an
    INTEGER variable. *)
Definition count_leaderboard_entries (d : db) (p_university_name p_course_name : string)
    : result Z :=
  let total_count :=
    Z.of_nat (length
      (List.filter (fun p =>
           String.eqb (university_name p) p_university_name
           && String.eqb (course_name p) p_course_name)
         (profiles d))) in
  if in_int4 total_count then Ok total_count else Raise integer_out_of_range.

End CountLeaderboard.

(** ** The lines of the setup form *)

Module SetupForm.

Import GradingCriteriaSetup.

Definition blank : GradingCriteria :=
  {| grade_name := ""; gpa_value := ""; min_percentage := ""; max_percentage := "" |}.

(** [addCriteria]. *)
Definition addCriteria (criteria : list GradingCriteria) : list GradingCriteria :=
  criteria ++ [blank].

(** [removeCriteria]: [criteria.filter((_, i) => i !== index)]. *)
Definition removeCriteria (index : nat) (criteria : list GradingCriteria)
    : list GradingCriteria :=
  concat (imap (fun i c => if bool_decide (i = index) then [] else [c]) criteria).

End SetupForm.

(** ** [Dashboard] *)

Module Dashboard.

(** [checkGradingCriteria]: [select("id").eq("user_id", userId).limit(1)],
    then [data && data.length > 0]; the flag is left alone when the query
    fails. *)
Definition checkGradingCriteria (net : delivery) (auth userId : uuid) (d : db)
    (hasGradingCriteria : bool) : bool :=
  match net with
  | lost => hasGradingCriteria
  | delivered =>
      let data :=
        take 1 (List.filter (fun gc => bool_decide (gc_user_id gc = userId))
                  (rls_grading_criteria auth d)) in
      (0 <? length data)%nat
  end.

End Dashboard.

(** ** [Transcript] *)

Module Transcript.

Record GradingCriteria : Type := {
  id : uuid;
  grade : string;
  min_percentage : option Z;
  max_percentage : option Z;
  grade_point : Z
}.

(** [loadGradingCriteria]: the query orders by "grade_point"; a failure is
    logged and the state is left as it was. *)
Definition loadGradingCriteria (net : delivery) (auth userId : uuid) (d : db)
    (gradingCriteria : list GradingCriteria) : list GradingCriteria :=
  let r := Rest.select_grading_criteria net auth userId "grade_point" false d in
  match Rest.error r with
  | Some _ => gradingCriteria
  | None =>
      match Rest.data r with
      | Some rows =>
          map (fun item => {| id := gc_id item;
                              grade := Schema.grade_name item;
                              min_percentage := Schema.min_percentage item;
                              max_percentage := Schema.max_percentage item;
                              grade_point := Schema.gpa_value item |}) rows
      | None => []
      end
  end.

(** [getGradePoint]. *)
Definition getGradePoint (gradingCriteria : list GradingCriteria) (g : string) : Z :=
  match List.find (fun c => String.eqb (grade c) g) gradingCriteria with
  | Some criteria => grade_point criteria
  | None => 0
  end.

End Transcript.

(** ** More concrete stores *)

Module MoreExamples.

Import Examples.

(** Two classmates; the credit hours of Alice's two modules add up to one
    more than an INTEGER holds. *)
Definition too_many_credits : db :=
  {| profiles := [student 1%N alice "Alice" "MIT" "CS" "R1";
                  student 2%N bob "Bob" "MIT" "CS" "R2"];
     grading_criteria := [criterion 1%N alice "A" 400];
     semesters := [term 10%N alice "Fall" true];
     modules := [course 20%N 10%N alice 2147483647 "A" first_attempt;
                 course 21%N 10%N alice 1 "A" first_attempt] |}.

(** Three modules of Alice whose credit hours add up to zero. *)
Definition cancelling_credits : db :=
  {| profiles := [];
     grading_criteria := [criterion 1%N alice "A" 400];
     semesters := [term 10%N alice "Fall" true];
     modules := [course 20%N 10%N alice 2147483647 "A" first_attempt;
                 course 21%N 10%N alice 1 "A" first_attempt;
                 course 22%N 10%N alice (-2147483648) "A" first_attempt] |}.

(** A module of Bob, attached to Alice's semester. *)
Definition bobs_module : module_row := course 22%N 10%N bob 5 "A" first_attempt.

(** A grade of Bob's scale. *)
Definition bobs_criterion : grading_criteria_row := criterion 3%N bob "A" 100.

(** The last two rows of the leaderboard of [eleven_students]. *)
Definition jon_row : GetLeaderboard.row :=
  {| GetLeaderboard.id := 10%N; GetLeaderboard.full_name := "Jon";
     GetLeaderboard.registration_number := "R10"; GetLeaderboard.gpa := 300 |}.

Definition kim_row : GetLeaderboard.row :=
  {| GetLeaderboard.id := 11%N; GetLeaderboard.full_name := "Kim";
     GetLeaderboard.registration_number := "R11"; GetLeaderboard.gpa := 400 |}.

(** The update arrives, the insert is lost on its way. *)
Definition insert_lost : AddSemesterDialog.exchange :=
  {| AddSemesterDialog.net_update := delivered;
     AddSemesterDialog.net_insert := lost;
     AddSemesterDialog.new_id := 11%N |}.

(** The form of a semester that is not flagged current. *)
Definition summer_form : AddSemesterDialog.formData :=
  {| AddSemesterDialog.semester_name := "Summer";
     AddSemesterDialog.academic_year := "2024-2025";
     AddSemesterDialog.start_date := "2025-06-01";
     AddSemesterDialog.end_date := "";
     AddSemesterDialog.is_current := false |}.

(** A line of the setup form with a grade point of 10. *)
Definition ten_points : GradingCriteriaSetup.GradingCriteria :=
  {| GradingCriteriaSetup.grade_name := "A++";
     GradingCriteriaSetup.gpa_value := "10";
     GradingCriteriaSetup.min_percentage := "";
     GradingCriteriaSetup.max_percentage := "" |}.

(** Alice's semester, with a module of hers and the module that Bob has
    attached to it. *)
Definition shared_semester : db :=
  {| profiles := [];
     grading_criteria := [criterion 1%N alice "A" 400; bobs_criterion];
     semesters := [term 10%N alice "Fall" true; term 12%N bob "Fall" true];
     modules := [course 20%N 10%N alice 3 "A" first_attempt; bobs_module;
                 course 23%N 12%N bob 4 "A" first_attempt] |}.

(** A semester card before its first load. *)
Definition empty_card : SemesterCard.State :=
  {| SemesterCard.modules := []; SemesterCard.totalCredits := 0;
     SemesterCard.toasted := None |}.

End MoreExamples.

(** * Properties *)

Import Examples.
Import MoreExamples.

(** A closed decidable fact about a concrete store is evaluated. *)
Ltac evaluated := apply (bool_decide_unpack _); vm_compute; exact I.

(** ** Rounding *)

Lemma inject_Z_nonzero (d : Z) : d <> 0 -> ~ (inject_Z d == 0)%Q.
Proof. intros Hd H. unfold Qeq in H. simpl in H. lia. Qed.

Lemma Qfloor_inject_div (a b : Z) :
  0 < b -> Qfloor (inject_Z a / inject_Z b) = a / b.
Proof.
  intros Hb.
  assert (E : (inject_Z a / inject_Z b == a # Z.to_pos b)%Q).
  { unfold Qeq, Qdiv, Qmult, Qinv, inject_Z. simpl.
    destruct b as [|p|p]; try lia. simpl. lia. }
  rewrite (Qfloor_comp _ _ E). simpl. rewrite Z2Pos.id by lia. reflexivity.
Qed.

Lemma Qle_bool_inject_div (n d : Z) :
  0 < d -> Qle_bool 0 (inject_Z n / inject_Z d) = (0 <=? n).
Proof.
  intros Hd. apply eq_true_iff_eq. rewrite Qle_bool_iff, Z.leb_le.
  unfold Qle, Qdiv, Qmult, Qinv, inject_Z. simpl.
  destruct d as [|p|p]; try lia. simpl. lia.
Qed.

Lemma round_half_away_pos (n d : Z) :
  0 < d ->
  round_half_away_from_zero (inject_Z n / inject_Z d)
  = if 0 <=? n then (2 * n + d) / (2 * d) else - ((2 * (- n) + d) / (2 * d)).
Proof.
  intros Hd. unfold round_half_away_from_zero.
  rewrite Qle_bool_inject_div by done.
  destruct (0 <=? n).
  - assert (E : (inject_Z n / inject_Z d + (1 # 2)
                 == inject_Z (2 * n + d) / inject_Z (2 * d))%Q).
    { rewrite !inject_Z_plus, !inject_Z_mult. field.
      apply inject_Z_nonzero; lia. }
    rewrite (Qfloor_comp _ _ E). rewrite Qfloor_inject_div by lia. done.
  - assert (E : (- (inject_Z n / inject_Z d) + (1 # 2)
                 == inject_Z (2 * (- n) + d) / inject_Z (2 * d))%Q).
    { rewrite !inject_Z_plus, !inject_Z_mult, inject_Z_opp. field.
      apply inject_Z_nonzero; lia. }
    rewrite (Qfloor_comp _ _ E). rewrite Qfloor_inject_div by lia. done.
Qed.

Lemma Qdiv_opp_opp (n d : Z) : d <> 0 ->
  (inject_Z n / inject_Z d == inject_Z (- n) / inject_Z (- d))%Q.
Proof.
  intros Hd. rewrite !inject_Z_opp. field. apply inject_Z_nonzero; lia.
Qed.

Lemma round_half_away_comp (x y : Q) : (x == y)%Q ->
  round_half_away_from_zero x = round_half_away_from_zero y.
Proof.
  intros E. unfold round_half_away_from_zero.
  assert (Qle_bool 0 x = Qle_bool 0 y) as ->.
  { apply eq_true_iff_eq. rewrite !Qle_bool_iff. by rewrite E. }
  destruct (Qle_bool 0 y).
  - apply Qfloor_comp. by rewrite E.
  - f_equal. apply Qfloor_comp. by rewrite E.
Qed.

Lemma round_div_pos (n d : Z) :
  0 < d ->
  round_div n d
  = if 0 <=? n then (2 * n + d) / (2 * d) else - ((2 * (- n) + d) / (2 * d)).
Proof.
  intros Hd. unfold round_div.
  rewrite (Z.sgn_pos d), (Z.abs_eq d) by lia.
  destruct (Z.leb_spec 0 n).
  - destruct (Z.eq_dec n 0) as [->|].
    + change (Z.sgn 0) with 0. rewrite !Z.mul_0_l, Z.add_0_l.
      rewrite Z.div_small; lia.
    + rewrite (Z.sgn_pos n), (Z.abs_eq n) by lia. lia.
  - rewrite (Z.sgn_neg n), (Z.abs_neq n) by lia. lia.
Qed.

Lemma round_div_opp_opp (n d : Z) : round_div (- n) (- d) = round_div n d.
Proof. unfold round_div. rewrite !Z.sgn_opp, !Z.abs_opp. lia. Qed.

(** The integer formula of [round_div] is the rational quotient rounded
    to the nearest integer, ties away from zero. *)
Lemma round_div_spec (n d : Z) : d <> 0 ->
  round_div n d = round_half_away_from_zero (inject_Z n / inject_Z d).
Proof.
  intros Hd. destruct (Z.lt_trichotomy d 0) as [Hlt|[->|Hgt]]; [|done|].
  - rewrite (round_half_away_comp _ _ (Qdiv_opp_opp n d Hd)).
    rewrite <- round_div_opp_opp. rewrite round_div_pos, round_half_away_pos by lia. done.
  - rewrite round_div_pos, round_half_away_pos by lia. done.
Qed.

Lemma round_div_opp_l (n d : Z) : round_div (- n) d = - round_div n d.
Proof. unfold round_div. rewrite Z.sgn_opp, Z.abs_opp. lia. Qed.

Lemma round_div_nonneg (n d : Z) :
  0 <= n -> 0 < d -> round_div n d = (2 * n + d) / (2 * d).
Proof. intros Hn Hd. rewrite round_div_pos by done. by rewrite (proj2 (Z.leb_le 0 n) Hn). Qed.

Lemma div_bounds (a b : Z) : 0 < b -> b * (a / b) <= a < b * (a / b + 1).
Proof.
  intros Hb. pose proof (Z.div_mod a b ltac:(lia)). pose proof (Z.mod_pos_bound a b Hb). lia.
Qed.

Lemma round_div_two_steps_nonneg (n d K2 : Z) :
  0 <= n -> 0 < d -> d < 2 * K2 ->
  round_div (round_div (n * (2 * K2)) d) (2 * K2) = round_div n d.
Proof.
  intros Hn Hd HK.
  rewrite (round_div_nonneg n d), (round_div_nonneg (n * (2 * K2)) d) by nia.
  set (r := (2 * n + d) / (2 * d)).
  set (q := (2 * (n * (2 * K2)) + d) / (2 * d)).
  pose proof (div_bounds (2 * n + d) (2 * d) ltac:(lia)) as Hr. fold r in Hr.
  pose proof (div_bounds (2 * (n * (2 * K2)) + d) (2 * d) ltac:(lia)) as Hq. fold q in Hq.
  assert (0 <= q) by (apply Z.div_pos; nia).
  rewrite round_div_nonneg by lia.
  symmetry. apply (Z.div_unique_pos _ _ r (2 * q + 2 * K2 - 2 * (2 * K2) * r)); [|lia].
  assert (Hlow : (2 * r - 1) * K2 <= q) by nia.
  assert (Hup : q < (2 * r + 1) * K2) by nia.
  nia.
Qed.

Lemma round_div_two_steps_pos (n d K2 : Z) :
  0 < d -> d < 2 * K2 ->
  round_div (round_div (n * (2 * K2)) d) (2 * K2) = round_div n d.
Proof.
  intros Hd HK. destruct (Z.le_gt_cases 0 n) as [Hn|Hn].
  - by apply round_div_two_steps_nonneg.
  - rewrite <- (Z.opp_involutive n) at 1 2.
    rewrite Z.mul_opp_l, !round_div_opp_l.
    rewrite round_div_two_steps_nonneg by lia. rewrite round_div_opp_l. done.
Qed.

(** Rounding the quotient to [k] more places first and to the hundredth
    afterwards gives the hundredth that rounding once gives, as soon as
    [10^k] exceeds the divisor. *)
Lemma round_div_two_steps (n d k : Z) :
  d <> 0 -> Z.abs d < 10 ^ k ->
  round_scale k (div_to_scale k n d) = round_div n d.
Proof.
  intros Hd Hk. unfold round_scale, div_to_scale.
  assert (0 < k).
  { destruct (Z.lt_trichotomy k 0) as [Hlt|[->|Hgt]]; [|cbn in Hk; lia|done].
    rewrite Z.pow_neg_r in Hk by done. lia. }
  assert (HK : 10 ^ k = 2 * (5 * 10 ^ (k - 1))).
  { replace k with (1 + (k - 1)) at 1 by lia. rewrite Z.pow_add_r by lia. lia. }
  rewrite HK in *.
  destruct (Z.lt_trichotomy d 0) as [Hlt|[->|Hgt]]; [|done|].
  - rewrite <- (round_div_opp_opp (n * _) d), <- (round_div_opp_opp n d).
    rewrite <- Z.mul_opp_l. apply round_div_two_steps_pos; lia.
  - apply round_div_two_steps_pos; lia.
Qed.

(** ** The loop of [calculate_gpa] *)

Section Loop.
Variables (d : db) (user : uuid).

(** The lookup of the loop is the lookup of the specification. *)
Lemma select_gpa_value_grade_point (g : string) :
  select_gpa_value d user g = grade_point d user g.
Proof.
  unfold select_gpa_value, grade_point.
  induction (grading_criteria d) as [|gc l IH]; [done|].
  cbn [list_find]. rewrite filter_cons.
  destruct (decide (gc_user_id gc = user ∧ grade_name gc = g)); [done|].
  rewrite IH. by destruct (list_find _ l) as [[? ?]|].
Qed.

Lemma select_gpa_value_None (g : string) :
  select_gpa_value d user g = None <->
  Forall (fun gc => gc_user_id gc = user -> grade_name gc <> g) (grading_criteria d).
Proof.
  unfold select_gpa_value.
  induction (grading_criteria d) as [|gc l IH].
  - split; [constructor|done].
  - rewrite filter_cons, Forall_cons.
    destruct (decide (gc_user_id gc = user ∧ grade_name gc = g)) as [[Hu Hg]|Hn].
    + split; [done|]. intros [Hx _]. by destruct (Hx Hu).
    + rewrite IH. split; [|tauto]. intros Hx. split; [|done]. intros ? ?. apply Hn. done.
Qed.

Lemma select_gpa_value_Some (g : string) (v : Z) :
  select_gpa_value d user g = Some v ->
  exists gc, gc ∈ grading_criteria d /\ gc_user_id gc = user /\ gpa_value gc = v.
Proof.
  unfold select_gpa_value.
  destruct (filter _ _) as [|gc l] eqn:E; [done|].
  intros [= <-]. exists gc.
  assert (H : gc ∈ filter (λ gc, gc_user_id gc = user ∧ grade_name gc = g) (grading_criteria d)).
  { rewrite E. left. }
  apply list_elem_of_filter in H. tauto.
Qed.

Lemma loop_body_unmapped (st : locals) (r : module_record) :
  select_gpa_value d user (r_grade r) = None ->
  loop_body d user st r =
    Ok {| total_grade_points := total_grade_points st;
          total_credit_hours := total_credit_hours st;
          gpa_value_var := None |}.
Proof. intros H. unfold loop_body. cbn. by rewrite H. Qed.

(** The value that [gpa_value] holds on entry is overwritten. *)
Lemma loop_body_var_irrelevant (st : locals) (v : option Z) (r : module_record) :
  loop_body d user
    {| total_grade_points := total_grade_points st;
       total_credit_hours := total_credit_hours st;
       gpa_value_var := v |} r
  = loop_body d user st r.
Proof. reflexivity. Qed.

Lemma for_loop_app (rows1 rows2 : list module_record) (st : locals) :
  for_loop (loop_body d user) st (rows1 ++ rows2)
  = (st' <-- for_loop (loop_body d user) st rows1 ;; for_loop (loop_body d user) st' rows2).
Proof.
  revert st. induction rows1 as [|r rows1 IH]; intros st; [done|].
  cbn. destruct (loop_body d user st r); cbn; [apply IH|done].
Qed.

Lemma counted_cons (r : module_record) (rows : list module_record) :
  counted d user (r :: rows) =
  match select_gpa_value d user (r_grade r) with
  | Some v => (r_credit_hours r, v) :: counted d user rows
  | None => counted d user rows
  end.
Proof. unfold counted. cbn. by destruct (select_gpa_value d user (r_grade r)). Qed.

(** While the running total of credit hours fits, the loop ends with the
    two sums over the counted pairs added to its totals. *)
Lemma for_loop_counted (rows : list module_record) (st : locals) :
  credits_fit_int4 (total_credit_hours st) ((counted d user rows).*1) = true ->
  exists v,
    for_loop (loop_body d user) st rows =
    Ok {| total_grade_points := total_grade_points st + sum_grade_points (counted d user rows);
          total_credit_hours := total_credit_hours st + sum_credit_hours (counted d user rows);
          gpa_value_var := v |}.
Proof.
  revert st. induction rows as [|r rows IH]; intros st Hfit.
  - exists (gpa_value_var st). cbn. destruct st; cbn. f_equal. f_equal; lia.
  - cbn [for_loop]. unfold loop_body at 1. cbn [gpa_value_var total_grade_points total_credit_hours].
    rewrite counted_cons in *.
    destruct (select_gpa_value d user (r_grade r)) as [v|] eqn:E; cbn in Hfit |- *.
    + apply andb_true_iff in Hfit as [Hin Hfit].
      unfold int4pl. rewrite Hin. cbn.
      destruct (IH {| total_grade_points := total_grade_points st + v * r_credit_hours r;
                      total_credit_hours := total_credit_hours st + r_credit_hours r;
                      gpa_value_var := Some v |} Hfit) as [w Hw].
      cbn in Hw. exists w. rewrite Hw.
      unfold sum_grade_points, sum_credit_hours. cbn. f_equal. f_equal; lia.
    + destruct (IH {| total_grade_points := total_grade_points st;
                      total_credit_hours := total_credit_hours st;
                      gpa_value_var := None |} Hfit) as [w Hw].
      exists w. apply Hw.
Qed.

(** Otherwise it raises. *)
Lemma for_loop_overflow (rows : list module_record) (st : locals) :
  credits_fit_int4 (total_credit_hours st) ((counted d user rows).*1) = false ->
  for_loop (loop_body d user) st rows = Raise integer_out_of_range.
Proof.
  revert st. induction rows as [|r rows IH]; intros st Hfit; [done|].
  cbn [for_loop]. unfold loop_body at 1. cbn [gpa_value_var total_grade_points total_credit_hours].
  rewrite counted_cons in *.
  destruct (select_gpa_value d user (r_grade r)) as [v|] eqn:E; cbn in Hfit |- *.
  - unfold int4pl. destruct (in_int4 _) eqn:Hin; cbn; [|done].
    apply (IH {| total_grade_points := total_grade_points st + v * r_credit_hours r;
                 total_credit_hours := total_credit_hours st + r_credit_hours r;
                 gpa_value_var := Some v |}). done.
  - apply (IH {| total_grade_points := total_grade_points st;
                 total_credit_hours := total_credit_hours st;
                 gpa_value_var := None |}). done.
Qed.

End Loop.

(** ** The query of the loop *)


Lemma attempt_type_eqb_eq (a b : attempt_type) : attempt_type_eqb a b = true <-> a = b.
Proof. destruct a, b; cbn; split; congruence. Qed.

Lemma scan_cond_true (u : uuid) (sc : option uuid) (m : module_row) (s : semester) :
  scan_cond u sc m s = true <-> m_semester_id m = s_id s /\ selected u sc m.
Proof.
  unfold scan_cond, selected.
  rewrite !andb_true_iff, !bool_decide_eq_true, negb_true_iff.
  rewrite <- not_true_iff_false, attempt_type_eqb_eq.
  destruct sc as [sid|]; [rewrite bool_decide_eq_true|]; intuition congruence.
Qed.

Lemma module_scan_app (d : db) (ms1 ms2 : list module_row) (u : uuid) (sc : option uuid) :
  module_scan (with_modules d (ms1 ++ ms2)) u sc =
  module_scan (with_modules d ms1) u sc ++ module_scan (with_modules d ms2) u sc.
Proof. unfold module_scan. cbn. apply flat_map_app. Qed.

Lemma module_scan_cons (d : db) (m : module_row) (ms : list module_row)
    (u : uuid) (sc : option uuid) :
  module_scan (with_modules d (m :: ms)) u sc =
  module_scan (with_modules d [m]) u sc ++ module_scan (with_modules d ms) u sc.
Proof. apply (module_scan_app d [m] ms). Qed.

(** The rows that one module contributes are copies of its own record,
    and there are none unless the module is selected. *)
Lemma module_scan_single (d : db) (m : module_row) (u : uuid) (sc : option uuid) :
  exists n : nat,
    module_scan (with_modules d [m]) u sc = replicate n (record_of m)
    /\ (~ selected u sc m -> n = 0%nat).
Proof.
  unfold module_scan. cbn. rewrite app_nil_r.
  induction (semesters d) as [|s sems [n [IH Hn]]].
  - by exists 0%nat.
  - cbn. destruct (scan_cond u sc m s) eqn:E.
    + exists (S n). split; [cbn; by rewrite IH|].
      intros Hsel. apply scan_cond_true in E. tauto.
    + exists n. done.
Qed.

Lemma module_scan_not_selected (d : db) (m : module_row) (u : uuid) (sc : option uuid) :
  ~ selected u sc m -> module_scan (with_modules d [m]) u sc = [].
Proof.
  intros H. destruct (module_scan_single d m u sc) as [n [-> Hn]]. by rewrite (Hn H).
Qed.

Lemma with_modules_self (d : db) : with_modules d (modules d) = d.
Proof. by destruct d. Qed.

(** Under the key constraints the join keeps each selected module once. *)
Lemma module_scan_single_keys (d : db) (m : module_row) (u : uuid) (sc : option uuid) :
  semesters_pkey d ->
  m_semester_id m ∈ s_id <$> semesters d ->
  module_scan (with_modules d [m]) u sc =
  if decide (selected u sc m) then [record_of m] else [].
Proof.
  unfold semesters_pkey, module_scan. cbn. rewrite app_nil_r.
  destruct (decide (selected u sc m)) as [Hsel|Hsel].
  - induction (semesters d) as [|s sems IH]; cbn; intros Hnd Hin.
    + by apply elem_of_nil in Hin.
    + apply NoDup_cons in Hnd as [Hnotin Hnd].
      destruct (scan_cond u sc m s) eqn:E.
      * apply scan_cond_true in E as [Eid _].
        assert (Hrest : flat_map (fun s0 => if scan_cond u sc m s0 then [record_of m] else []) sems = []).
        { clear IH Hin Hnd. induction sems as [|s' sems IH']; [done|]. cbn.
          rewrite fmap_cons, not_elem_of_cons in Hnotin. destruct Hnotin as [Hne Hnotin].
          destruct (scan_cond u sc m s') eqn:E'.
          - apply scan_cond_true in E' as [Eid' _]. congruence.
          - by apply IH'. }
        unfold record_of in Hrest. by rewrite Hrest.
      * apply elem_of_cons in Hin as [Hin|Hin].
        { assert (scan_cond u sc m s = true) by (apply scan_cond_true; done). congruence. }
        by apply IH.
  - intros _ _. induction (semesters d) as [|s sems IH]; [done|]. cbn.
    destruct (scan_cond u sc m s) eqn:E; [|done].
    apply scan_cond_true in E. tauto.
Qed.

Lemma module_scan_keys (d : db) (u : uuid) (sc : option uuid) :
  semesters_pkey d -> modules_semester_fkey d ->
  module_scan d u sc = record_of <$> filter (selected u sc) (modules d).
Proof.
  intros Hpk Hfk. rewrite <- (with_modules_self d) at 1.
  unfold modules_semester_fkey in Hfk.
  induction (modules d) as [|m ms IH]; [done|].
  apply Forall_cons in Hfk as [Hm Hfk].
  rewrite module_scan_cons, (IH Hfk), module_scan_single_keys by done.
  rewrite filter_cons. by destruct (decide (selected u sc m)).
Qed.

Lemma counted_record_of (d : db) (u : uuid) (ms : list module_row) :
  counted d u (record_of <$> ms) =
  omap (fun m => (fun p => (credit_hours m, p)) <$> grade_point d u (grade m)) ms.
Proof.
  induction ms as [|m ms IH]; [done|].
  rewrite fmap_cons, counted_cons, IH. cbn.
  rewrite select_gpa_value_grade_point. by destruct (grade_point d u (grade m)).
Qed.

Lemma counted_module_scan (d : db) (u : uuid) (sc : option uuid) :
  semesters_pkey d -> modules_semester_fkey d ->
  counted d u (module_scan d u sc) = eligible d u sc.
Proof. intros Hpk Hfk. rewrite module_scan_keys by done. apply counted_record_of. Qed.

(** What [calculate_gpa] returns, from the pairs its loop adds up. *)
Lemma calculate_gpa_counted (d : db) (u : uuid) (sc : option uuid) :
  let l := counted d u (module_scan d u sc) in
  calculate_gpa d u sc =
  if credits_fit_int4 0 (l.*1) then
    if sum_credit_hours l =? 0 then Ok 0
    else Ok (round_div (sum_grade_points l) (sum_credit_hours l))
  else Raise integer_out_of_range.
Proof.
  intros l. unfold calculate_gpa. subst l.
  destruct (credits_fit_int4 0 _) eqn:Hfit.
  - destruct (for_loop_counted d u _ initial_locals Hfit) as [v ->]. done.
  - by rewrite (for_loop_overflow d u _ initial_locals Hfit).
Qed.

(** Under the key constraints the pairs counted are the eligible ones. *)
Lemma calculate_gpa_eligible (d : db) (u : uuid) (sc : option uuid) :
  semesters_pkey d -> modules_semester_fkey d ->
  calculate_gpa d u sc =
  if credits_fit_int4 0 ((eligible d u sc).*1) then
    if sum_credit_hours (eligible d u sc) =? 0 then Ok 0
    else Ok (round_div (sum_grade_points (eligible d u sc))
                       (sum_credit_hours (eligible d u sc)))
  else Raise integer_out_of_range.
Proof.
  intros Hpk Hfk. rewrite calculate_gpa_counted. cbv zeta.
  by rewrite counted_module_scan.
Qed.

(** The reference value, with the integer rounding of the code. *)
Lemma gpa_reference_round_div (d : db) (u : uuid) (sc : option uuid) :
  gpa_reference d u sc =
  if sum_credit_hours (eligible d u sc) =? 0 then 0
  else round_div (sum_grade_points (eligible d u sc)) (sum_credit_hours (eligible d u sc)).
Proof.
  unfold gpa_reference.
  destruct (decide (sum_credit_hours (eligible d u sc) = 0)) as [E|E].
  - by rewrite (proj2 (Z.eqb_eq _ _) E).
  - rewrite (proj2 (Z.eqb_neq _ _) E). by rewrite <- round_div_spec.
Qed.

(** ** Sums and bounds *)

(** Rounding keeps a quotient between integer bounds. *)
Lemma round_div_between (n d lo hi : Z) :
  0 < d -> lo * d <= n <= hi * d -> lo <= round_div n d <= hi.
Proof.
  intros Hd [Hlo Hhi]. rewrite round_div_pos by done.
  destruct (Z.leb_spec 0 n).
  - split.
    + apply Z.div_le_lower_bound; lia.
    + apply Z.lt_succ_r, Z.div_lt_upper_bound; lia.
  - split.
    + apply Z.opp_le_mono. rewrite Z.opp_involutive.
      apply Z.lt_succ_r, Z.div_lt_upper_bound; lia.
    + apply Z.opp_le_mono. rewrite Z.opp_involutive.
      apply Z.div_le_lower_bound; lia.
Qed.

Lemma sum_credit_hours_cons (cp : Z * Z) (l : list (Z * Z)) :
  sum_credit_hours (cp :: l) = cp.1 + sum_credit_hours l.
Proof. reflexivity. Qed.

Lemma sum_grade_points_cons (cp : Z * Z) (l : list (Z * Z)) :
  sum_grade_points (cp :: l) = cp.2 * cp.1 + sum_grade_points l.
Proof. reflexivity. Qed.

Lemma sum_credit_hours_nonneg (l : list (Z * Z)) :
  Forall (fun cp => 0 <= cp.1) l -> 0 <= sum_credit_hours l.
Proof.
  induction 1 as [|cp l H _ IH]; [done|]. rewrite sum_credit_hours_cons. lia.
Qed.

Lemma sum_grade_points_between (lo hi : Z) (l : list (Z * Z)) :
  Forall (fun cp => 0 <= cp.1 /\ lo <= cp.2 <= hi) l ->
  lo * sum_credit_hours l <= sum_grade_points l <= hi * sum_credit_hours l.
Proof.
  induction 1 as [|cp l H _ IH]; [cbn; lia|].
  rewrite sum_credit_hours_cons, sum_grade_points_cons. nia.
Qed.

Lemma credits_fit_int4_nonneg (acc : Z) (cs : list Z) :
  0 <= acc -> Forall (fun c => 0 <= c) cs ->
  acc + foldr Z.add 0 cs <= int4_max ->
  credits_fit_int4 acc cs = true.
Proof.
  intros Hacc Hcs. revert acc Hacc.
  induction Hcs as [|c cs Hc Hcs IH]; intros acc Hacc Hsum; [done|].
  cbn in Hsum |- *. apply andb_true_iff. 
  assert (0 <= foldr Z.add 0 cs) by (clear -Hcs; induction Hcs; cbn; lia).
  split.
  - unfold in_int4, int4_min, int4_max in *. lia.
  - apply IH; lia.
Qed.

Lemma max_gpa_value_nonneg (d : db) (u : uuid) : 0 <= max_gpa_value d u.
Proof.
  unfold max_gpa_value. induction (_ <$> _) as [|v l IH]; cbn; lia.
Qed.

Lemma max_gpa_value_upper (d : db) (u : uuid) (gc : grading_criteria_row) :
  gc ∈ grading_criteria d -> gc_user_id gc = u -> gpa_value gc <= max_gpa_value d u.
Proof.
  intros Hin Hu. unfold max_gpa_value.
  assert (H : gpa_value gc ∈ gpa_value <$> filter (fun gc => gc_user_id gc = u) (grading_criteria d)).
  { apply list_elem_of_fmap. exists gc. split; [done|]. by apply list_elem_of_filter. }
  revert H. generalize (gpa_value gc). 
  induction (_ <$> _) as [|v l IH]; intros w Hw.
  - by apply elem_of_nil in Hw.
  - cbn. apply elem_of_cons in Hw as [->|Hw]; [lia|]. specialize (IH _ Hw). lia.
Qed.

Lemma module_scan_elem (d : db) (u : uuid) (sc : option uuid) (r : module_record) :
  r ∈ module_scan d u sc ->
  exists m, m ∈ modules d /\ selected u sc m /\ r = record_of m.
Proof.
  unfold module_scan. rewrite list_elem_of_In, in_flat_map.
  intros [m [Hm Hr]]. apply in_flat_map in Hr as [s [_ Hr]].
  destruct (scan_cond u sc m s) eqn:E; [|done].
  apply scan_cond_true in E as [_ Hsel].
  exists m. rewrite list_elem_of_In. destruct Hr as [<-|[]]. done.
Qed.

Lemma counted_elem (d : db) (u : uuid) (rows : list module_record) (cp : Z * Z) :
  cp ∈ counted d u rows ->
  exists r, r ∈ rows /\ cp.1 = r_credit_hours r
            /\ select_gpa_value d u (r_grade r) = Some cp.2.
Proof.
  unfold counted. rewrite list_elem_of_omap. intros [r [Hr E]].
  exists r. destruct (select_gpa_value d u (r_grade r)); [|done].
  cbn in E. injection E as <-. done.
Qed.

(** ** The claims about [calculate_gpa] *)

Lemma sum_credit_hours_fst (l : list (Z * Z)) :
  foldr Z.add 0 (l.*1) = sum_credit_hours l.
Proof.
  induction l as [|cp l IH]; [done|].
  rewrite fmap_cons, sum_credit_hours_cons. cbn [foldr]. by rewrite IH.
Qed.

Lemma credits_fit_int4_total (acc : Z) (cs : list Z) :
  in_int4 acc = true -> credits_fit_int4 acc cs = true ->
  acc + foldr Z.add 0 cs <= int4_max.
Proof.
  revert acc. induction cs as [|c cs IH]; intros acc Hacc H; cbn in *.
  - unfold in_int4 in Hacc. apply andb_true_iff in Hacc as [_ Hacc]. lia.
  - apply andb_true_iff in H as [H1 H2]. specialize (IH _ H1 H2). lia.
Qed.

(** Grade points that fit their column and credit hours that are not
    negative and add up to an INTEGER: the running total never overflows
    and the reference value has one digit before the decimal point. *)
Lemma eligible_credits_typed (d : db) (user : uuid) (scope : option uuid) :
  semesters_pkey d ->
  modules_semester_fkey d ->
  gpa_values_typed d ->
  Forall (fun m => m_user_id m = user -> 0 <= credit_hours m) (modules d) ->
  sum_credit_hours (eligible d user scope) <= int4_max ->
  credits_fit_int4 0 ((eligible d user scope).*1) = true
  /\ Z.abs (gpa_reference d user scope) < 1000.
Proof.
  intros Hpk Hfk Htyped Hcredits Hsum.
  assert (Hl : Forall (fun cp => 0 <= cp.1 /\ -999 <= cp.2 <= 999) (eligible d user scope)).
  { rewrite <- counted_module_scan by done.
    apply Forall_forall. intros cp Hcp.
    apply counted_elem in Hcp as [rec [Hrec [Hc Hv]]].
    apply module_scan_elem in Hrec as [m [Hm [[Hu _] ->]]].
    apply select_gpa_value_Some in Hv as [gc [Hgc [Hgu Hgv]]].
    unfold gpa_values_typed in Htyped.
    rewrite Forall_forall in Htyped. rewrite Forall_forall in Hcredits.
    rewrite Hc, <- Hgv. cbn. split; [by apply Hcredits|].
    specialize (Htyped gc Hgc). cbn in Htyped. lia. }
  assert (Hnn : 0 <= sum_credit_hours (eligible d user scope)).
  { apply sum_credit_hours_nonneg. eapply Forall_impl; [exact Hl|]. cbn. tauto. }
  split.
  - apply credits_fit_int4_nonneg; [done| |].
    + apply Forall_fmap. eapply Forall_impl; [exact Hl|]. cbn. tauto.
    + rewrite sum_credit_hours_fst. lia.
  - unfold gpa_reference.
    destruct (decide (sum_credit_hours (eligible d user scope) = 0)); [lia|].
    rewrite <- round_div_spec by done.
    pose proof (round_div_between (sum_grade_points (eligible d user scope))
                  (sum_credit_hours (eligible d user scope)) (-999) 999 ltac:(lia)
                  (sum_grade_points_between (-999) 999 _ Hl)).
    lia.
Qed.

(** C1, amended. Under the constraints of the schema (the keys, grade
    points that fit [DECIMAL(3,2)]), when none of the user's credit hours
    is negative and those of the eligible modules add up to an INTEGER,
    [calculate_gpa] returns the value of the reference definition: over
    the modules of the user (of the semester when one is given) that are
    not dropped and whose grade label has an entry in the user's grading
    scale, the sum of grade point times credit hours divided by the sum of
    credit hours, rounded to two decimals with ties away from zero, and
    0.00 when the credit total is zero. The quotient is then below 10, and
    the value is the one that the two roundings of PostgreSQL give,
    whatever number [k >= 10] of further places the division keeps. *)
Theorem calculate_gpa_reference (d : db) (user : uuid) (scope : option uuid) :
  semesters_pkey d ->
  modules_semester_fkey d ->
  gpa_values_typed d ->
  Forall (fun m => m_user_id m = user -> 0 <= credit_hours m) (modules d) ->
  sum_credit_hours (eligible d user scope) <= int4_max ->
  calculate_gpa d user scope = Ok (gpa_reference d user scope)
  /\ (sum_credit_hours (eligible d user scope) <> 0 ->
      forall k, 10 <= k ->
        round_scale k (div_to_scale k (sum_grade_points (eligible d user scope))
                         (sum_credit_hours (eligible d user scope)))
        = gpa_reference d user scope).
Proof.
  intros Hpk Hfk Htyped Hcredits Hsum.
  destruct (eligible_credits_typed d user scope Hpk Hfk Htyped Hcredits Hsum) as [Hfit _].
  split.
  - rewrite calculate_gpa_eligible, Hfit, gpa_reference_round_div by done.
    by destruct (_ =? _).
  - intros Hnz k Hk. rewrite gpa_reference_round_div, (proj2 (Z.eqb_neq _ _) Hnz).
    apply round_div_two_steps; [done|].
    pose proof (credits_fit_int4_total 0 _ eq_refl Hfit) as Hle.
    rewrite sum_credit_hours_fst in Hle.
    assert (10 ^ 10 <= 10 ^ k) by (apply Z.pow_le_mono_r; lia).
    assert (Hnn : 0 <= sum_credit_hours (eligible d user scope)).
    { rewrite <- counted_module_scan by done.
      apply sum_credit_hours_nonneg, Forall_forall. intros cp Hcp.
      apply counted_elem in Hcp as [rec [Hrec [Hc _]]].
      apply module_scan_elem in Hrec as [m [Hm [[Hu _] ->]]].
      rewrite Forall_forall in Hcredits. rewrite Hc. by apply Hcredits. }
    unfold int4_max in *. lia.
Qed.

(** 3 credits at 4.00 and 4 credits at 3.00 give 3.43. *)
Lemma calculate_gpa_reference_witness :
  calculate_gpa two_grades alice None = Ok (gpa_reference two_grades alice None)
  /\ gpa_reference two_grades alice None = 343.
Proof.
  split.
  - apply (proj1 (calculate_gpa_reference two_grades alice None
                    ltac:(evaluated) ltac:(evaluated) ltac:(evaluated) ltac:(evaluated)
                    ltac:(vm_compute; discriminate))).
  - vm_compute. reflexivity.
Defined.

(** C1 as stated fails: the credit hours of two modules graded "A" add up
    to one more than an INTEGER holds; the reference value is 4.00 and
    [calculate_gpa] raises. *)
Lemma calculate_gpa_reference_overflow :
  semesters_pkey too_many_credits
  /\ modules_semester_fkey too_many_credits
  /\ gpa_reference too_many_credits alice None = 400
  /\ calculate_gpa too_many_credits alice None = Raise integer_out_of_range
  /\ calculate_gpa too_many_credits alice None
     <> Ok (gpa_reference too_many_credits alice None).
Proof.
  split; [evaluated|]. split; [evaluated|].
  split; [vm_compute; reflexivity|]. split; [vm_compute; reflexivity|].
  vm_compute. discriminate.
Qed.

(** C2, amended. When none of the user's credit hours is negative and the
    credit hours of the eligible modules (not dropped, grade label in the
    user's scale) add up to zero, [calculate_gpa] returns exactly 0.00 and
    raises nothing. The lemmas [calculate_gpa_no_modules],
    [calculate_gpa_all_dropped] and [calculate_gpa_no_resolvable_grade]
    that follow give the three named cases without any side condition. *)
Theorem calculate_gpa_zero_credit_hours (d : db) (user : uuid) (scope : option uuid) :
  semesters_pkey d ->
  modules_semester_fkey d ->
  Forall (fun m => m_user_id m = user -> 0 <= credit_hours m) (modules d) ->
  sum_credit_hours (eligible d user scope) = 0 ->
  calculate_gpa d user scope = Ok 0.
Proof.
  intros Hpk Hfk Hcredits Hzero.
  assert (Hfit : credits_fit_int4 0 ((eligible d user scope).*1) = true).
  { apply credits_fit_int4_nonneg; [done| |].
    - apply Forall_fmap, Forall_forall. intros cp Hcp.
      rewrite <- counted_module_scan in Hcp by done.
      apply counted_elem in Hcp as [rec [Hrec [Hc _]]].
      apply module_scan_elem in Hrec as [m [Hm [[Hu _] ->]]].
      rewrite Forall_forall in Hcredits. cbn. rewrite Hc. by apply Hcredits.
    - rewrite sum_credit_hours_fst, Hzero. done. }
  by rewrite calculate_gpa_eligible, Hfit, Hzero.
Qed.

Lemma calculate_gpa_zero_credit_hours_witness :
  calculate_gpa all_dropped alice None = Ok 0.
Proof.
  apply calculate_gpa_zero_credit_hours; [evaluated|evaluated|evaluated|reflexivity].
Defined.

(** C2 as stated fails: the credit hours 2147483647, 1 and -2147483648 of
    three modules graded "A" add up to zero, and the running total leaves
    the INTEGER range at the second of them. *)
Lemma calculate_gpa_zero_total_raises :
  semesters_pkey cancelling_credits
  /\ modules_semester_fkey cancelling_credits
  /\ sum_credit_hours (eligible cancelling_credits alice None) = 0
  /\ calculate_gpa cancelling_credits alice None = Raise integer_out_of_range.
Proof.
  split; [evaluated|]. split; [evaluated|].
  split; vm_compute; reflexivity.
Qed.

(** When nothing is counted the loop leaves both totals at zero. *)
Lemma calculate_gpa_nothing_counted (d : db) (user : uuid) (scope : option uuid) :
  counted d user (module_scan d user scope) = [] ->
  calculate_gpa d user scope = Ok 0.
Proof. intros E. rewrite calculate_gpa_counted. cbv zeta. by rewrite E. Qed.

Lemma module_scan_nil (d : db) (user : uuid) (scope : option uuid) :
  Forall (fun m => ~ selected user scope m) (modules d) ->
  module_scan d user scope = [].
Proof.
  intros H. rewrite <- (with_modules_self d).
  induction H as [|m ms Hm _ IH]; [done|].
  by rewrite module_scan_cons, module_scan_not_selected, IH.
Qed.

Lemma calculate_gpa_no_modules (d : db) (user : uuid) (scope : option uuid) :
  modules d = [] -> calculate_gpa d user scope = Ok 0.
Proof.
  intros E. apply calculate_gpa_nothing_counted.
  rewrite module_scan_nil; [done|]. rewrite E. constructor.
Qed.

Lemma calculate_gpa_all_dropped (d : db) (user : uuid) (scope : option uuid) :
  Forall (fun m => m_user_id m = user -> m_attempt_type m = dropped) (modules d) ->
  calculate_gpa d user scope = Ok 0.
Proof.
  intros H. apply calculate_gpa_nothing_counted.
  rewrite module_scan_nil; [done|].
  eapply Forall_impl; [exact H|]. cbn. intros m Hm [Hu [_ Hd]]. by apply Hd, Hm.
Qed.

Lemma calculate_gpa_no_resolvable_grade (d : db) (user : uuid) (scope : option uuid) :
  Forall (fun m => select_gpa_value d user (grade m) = None) (modules d) ->
  calculate_gpa d user scope = Ok 0.
Proof.
  intros H. apply calculate_gpa_nothing_counted.
  assert (Hrows : Forall (fun r => select_gpa_value d user (r_grade r) = None)
                    (module_scan d user scope)).
  { apply Forall_forall. intros r Hr.
    apply module_scan_elem in Hr as [m [Hm [_ ->]]].
    rewrite Forall_forall in H. by apply H. }
  induction Hrows as [|r rows Hr _ IH]; [done|].
  by rewrite counted_cons, Hr.
Qed.

(** C3. A dropped module, with whatever credit hours and grade and at
    whatever place in the table, changes nothing: the result with it,
    error or value, is the result without it. *)
Theorem dropped_module_never_counts (d : db) (before after : list module_row)
    (m : module_row) (user : uuid) (scope : option uuid) :
  m_attempt_type m = dropped ->
  calculate_gpa (with_modules d (before ++ m :: after)) user scope
  = calculate_gpa (with_modules d (before ++ after)) user scope.
Proof.
  intros Hm. unfold calculate_gpa.
  rewrite !module_scan_app, module_scan_cons.
  rewrite (module_scan_not_selected d m); [done|].
  unfold selected. tauto.
Qed.

Lemma dropped_module_never_counts_witness :
  calculate_gpa (with_modules two_grades
                   ([course 20%N 10%N alice 3 "A" first_attempt]
                    ++ course 22%N 10%N alice 5 "B" dropped
                    :: [course 21%N 10%N alice 4 "B" first_attempt])) alice None
  = calculate_gpa (with_modules two_grades
                   ([course 20%N 10%N alice 3 "A" first_attempt]
                    ++ [course 21%N 10%N alice 4 "B" first_attempt])) alice None.
Proof. apply dropped_module_never_counts. reflexivity. Defined.

Lemma bind_assoc {A B C : Type} (r : result A) (f : A -> result B) (g : B -> result C) :
  Sql.bind (Sql.bind r f) g = Sql.bind r (fun a => Sql.bind (f a) g).
Proof. by destruct r. Qed.

Section Totals.
Variables (d : db) (user : uuid).

(** Only the two totals of the state matter to what follows. *)
Lemma for_loop_same_totals {B : Type} (k : locals -> result B)
    (rows : list module_record) (st st' : locals) :
  (forall a b, total_grade_points a = total_grade_points b ->
               total_credit_hours a = total_credit_hours b -> k a = k b) ->
  total_grade_points st = total_grade_points st' ->
  total_credit_hours st = total_credit_hours st' ->
  Sql.bind (for_loop (loop_body d user) st rows) k
  = Sql.bind (for_loop (loop_body d user) st' rows) k.
Proof.
  intros Hk. revert st st'. induction rows as [|r rows IH]; intros st st' Hg Hc.
  - cbn. by apply Hk.
  - cbn [for_loop]. unfold loop_body at 1 3.
    cbn [gpa_value_var total_grade_points total_credit_hours].
    rewrite Hg, Hc.
    destruct (select_gpa_value d user (r_grade r)) as [v|]; cbn.
    + destruct (int4pl _ _); cbn; [|done]. by apply IH.
    + by apply IH.
Qed.

(** Rows without a grade point leave the totals as they are. *)
Lemma for_loop_unmapped (n : nat) (r : module_record) (st : locals) :
  select_gpa_value d user (r_grade r) = None ->
  exists st', for_loop (loop_body d user) st (replicate n r) = Ok st'
              /\ total_grade_points st' = total_grade_points st
              /\ total_credit_hours st' = total_credit_hours st.
Proof.
  intros Hr. revert st. induction n as [|n IH]; intros st.
  - by exists st.
  - cbn. rewrite loop_body_unmapped by done. cbn.
    destruct (IH {| total_grade_points := total_grade_points st;
                    total_credit_hours := total_credit_hours st;
                    gpa_value_var := None |}) as [st' [E [Hg Hc]]].
    exists st'. done.
Qed.

End Totals.

(** C4. A module whose grade label has no entry in the user's grading
    scale changes nothing, at whatever place in the table: the [SELECT
    INTO] that finds no row sets the variable to NULL, so no grade point
    of an earlier module is counted for it. *)
Theorem unmapped_module_never_counts (d : db) (before after : list module_row)
    (m : module_row) (user : uuid) (scope : option uuid) :
  Forall (fun gc => gc_user_id gc = user -> grade_name gc <> grade m) (grading_criteria d) ->
  calculate_gpa (with_modules d (before ++ m :: after)) user scope
  = calculate_gpa (with_modules d (before ++ after)) user scope.
Proof.
  intros Hm. apply (select_gpa_value_None d user) in Hm.
  unfold calculate_gpa.
  rewrite !module_scan_app, module_scan_cons.
  destruct (module_scan_single d m user scope) as [n [-> _]].
  change (loop_body (with_modules d (before ++ m :: after)) user) with (loop_body d user).
  change (loop_body (with_modules d (before ++ after)) user) with (loop_body d user).
  rewrite !for_loop_app, !bind_assoc.
  destruct (for_loop (loop_body d user) initial_locals _) as [st|e];
    cbn [Sql.bind]; [|done].
  rewrite for_loop_app, bind_assoc.
  destruct (for_loop_unmapped d user n (record_of m) st Hm) as [st' [-> [Hg Hc]]].
  cbn [Sql.bind]. apply for_loop_same_totals; [|done|done].
  intros a b Ha Hb. by rewrite Ha, Hb.
Qed.

Lemma unmapped_module_never_counts_witness :
  calculate_gpa (with_modules two_grades
                   ([course 20%N 10%N alice 3 "A" first_attempt]
                    ++ course 22%N 10%N alice 5 "Z" first_attempt
                    :: [course 21%N 10%N alice 4 "B" first_attempt])) alice None
  = calculate_gpa (with_modules two_grades
                   ([course 20%N 10%N alice 3 "A" first_attempt]
                    ++ [course 21%N 10%N alice 4 "B" first_attempt])) alice None.
Proof.
  apply unmapped_module_never_counts. cbn.
  repeat constructor; intros _; discriminate.
Defined.

(** C7, amended. When no grade point of the user's scale and no credit
    hour count of the user's modules is negative, every value that
    [calculate_gpa] returns lies between 0.00 and the largest grade point
    of the scale; labels and values may repeat in the scale. *)
Theorem calculate_gpa_range (d : db) (user : uuid) (scope : option uuid) (r : Z) :
  Forall (fun gc => gc_user_id gc = user -> 0 <= gpa_value gc) (grading_criteria d) ->
  Forall (fun m => m_user_id m = user -> 0 <= credit_hours m) (modules d) ->
  calculate_gpa d user scope = Ok r ->
  0 <= r <= max_gpa_value d user.
Proof.
  intros Hscale Hcredits. rewrite calculate_gpa_counted. cbv zeta.
  set (l := counted d user (module_scan d user scope)).
  assert (Hl : Forall (fun cp => 0 <= cp.1 /\ 0 <= cp.2 <= max_gpa_value d user) l).
  { apply Forall_forall. intros cp Hcp.
    apply counted_elem in Hcp as [rec [Hrec [Hc Hv]]].
    apply module_scan_elem in Hrec as [m [Hm [[Hu _] ->]]].
    apply select_gpa_value_Some in Hv as [gc [Hgc [Hgu Hgv]]].
    rewrite Forall_forall in Hscale. rewrite Forall_forall in Hcredits.
    rewrite Hc, <- Hgv. cbn. split; [by apply Hcredits|].
    split; [by apply Hscale|by apply max_gpa_value_upper]. }
  destruct (credits_fit_int4 0 _); [|done].
  destruct (Z.eqb_spec (sum_credit_hours l) 0) as [E|E].
  - intros [= <-]. split; [done|apply max_gpa_value_nonneg].
  - intros [= <-].
    assert (0 <= sum_credit_hours l).
    { apply sum_credit_hours_nonneg. eapply Forall_impl; [exact Hl|]. cbn. tauto. }
    apply round_div_between; [lia|].
    apply sum_grade_points_between. exact Hl.
Qed.

Lemma calculate_gpa_range_witness :
  0 <= 350 <= max_gpa_value duplicate_scale alice.
Proof.
  apply (calculate_gpa_range duplicate_scale alice None 350).
  - evaluated.
  - evaluated.
  - vm_compute. reflexivity.
Defined.

(** C7 as stated fails: with a scale whose only grade is worth -1.00 a
    graded module gives -1.00, below 0.00. *)
Lemma calculate_gpa_negative_scale :
  exists r, calculate_gpa negative_scale alice None = Ok r
            /\ ~ (0 <= r <= max_gpa_value negative_scale alice).
Proof. exists (-100). split; [vm_compute; reflexivity|]. vm_compute. intros [H _]. by apply H. Qed.

(** ** The forms *)

(** *** AddSemesterDialog *)

Lemma current_semesters_app (user : uuid) (d : db) (l1 l2 : list semester) :
  semesters d = l1 ++ l2 ->
  AddSemesterDialog.current_semesters user d
  = List.filter (fun s => bool_decide (s_user_id s = user)
                          && bool_decide (is_current s = Some true)) l1
    ++ List.filter (fun s => bool_decide (s_user_id s = user)
                             && bool_decide (is_current s = Some true)) l2.
Proof. unfold AddSemesterDialog.current_semesters. intros ->. apply List.filter_app. Qed.

(** Once the update has gone through, none of the user's semesters is
    current. *)
Lemma update_semesters_not_current_clears (user : uuid) (d : db) :
  AddSemesterDialog.current_semesters user
    (update_semesters_not_current delivered user user d).1 = [].
Proof.
  unfold AddSemesterDialog.current_semesters. cbn.
  induction (semesters d) as [|s l IH]; [done|]. cbn.
  unfold owner_policy.
  destruct (decide (s_user_id s = user)) as [E|E].
  - rewrite (bool_decide_eq_true_2 _ (eq_sym E)), (bool_decide_eq_true_2 _ E). cbn.
    rewrite (bool_decide_eq_true_2 _ E). cbn. exact IH.
  - rewrite (bool_decide_eq_false_2 (user = s_user_id s)) by congruence. cbn.
    rewrite (bool_decide_eq_false_2 _ E). cbn. exact IH.
Qed.

(** The store that a submission leaves is the one the insert leaves. *)
Lemma handleSubmit_store (auth userId : uuid) (fd : AddSemesterDialog.formData)
    (x : AddSemesterDialog.exchange) (d : db) :
  (AddSemesterDialog.handleSubmit auth userId fd x d).1
  = (insert_semester (AddSemesterDialog.net_insert x) auth
       {| s_id := AddSemesterDialog.new_id x;
          s_user_id := userId;
          semester_name := AddSemesterDialog.semester_name fd;
          academic_year := AddSemesterDialog.academic_year fd;
          start_date := AddSemesterDialog.or_null (AddSemesterDialog.start_date fd);
          end_date := AddSemesterDialog.or_null (AddSemesterDialog.end_date fd);
          is_current := Some (AddSemesterDialog.is_current fd) |}
       (if AddSemesterDialog.is_current fd
        then (update_semesters_not_current (AddSemesterDialog.net_update x) auth userId d).1
        else d)).1.
Proof.
  unfold AddSemesterDialog.handleSubmit.
  destruct (insert_semester _ _ _ _) as [d2 r]. by destruct (error r).
Qed.

(** An insert leaves the table as it was or adds its row at the end. *)
Lemma insert_semester_store (net : delivery) (auth : uuid) (row : semester) (d : db) :
  (insert_semester net auth row d).1 = d
  \/ semesters (insert_semester net auth row d).1 = semesters d ++ [row].
Proof.
  unfold insert_semester. destruct net; [|by left].
  destruct (owner_policy auth (s_user_id row)); [by right|by left].
Qed.

(** With the update delivered, the new semester is the only one that can
    be current afterwards. *)
Lemma handleSubmit_update_delivered (user : uuid) (fd : AddSemesterDialog.formData)
    (x : AddSemesterDialog.exchange) (d : db) :
  AddSemesterDialog.is_current fd = true ->
  AddSemesterDialog.net_update x = delivered ->
  let d' := (AddSemesterDialog.handleSubmit user user fd x d).1 in
  (length (AddSemesterDialog.current_semesters user d') <= 1)%nat
  /\ Forall (fun s => s_id s = AddSemesterDialog.new_id x)
       (AddSemesterDialog.current_semesters user d').
Proof.
  intros Hcur Hnet d'. subst d'. rewrite handleSubmit_store, Hcur, Hnet.
  pose proof (update_semesters_not_current_clears user d) as Hclear.
  set (d1 := (update_semesters_not_current delivered user user d).1) in *.
  destruct (insert_semester_store (AddSemesterDialog.net_insert x) user
              {| s_id := AddSemesterDialog.new_id x;
                 s_user_id := user;
                 semester_name := AddSemesterDialog.semester_name fd;
                 academic_year := AddSemesterDialog.academic_year fd;
                 start_date := AddSemesterDialog.or_null (AddSemesterDialog.start_date fd);
                 end_date := AddSemesterDialog.or_null (AddSemesterDialog.end_date fd);
                 is_current := Some true |} d1) as [-> | E].
  - rewrite Hclear. cbn. split; [lia|constructor].
  - rewrite (current_semesters_app _ _ _ _ E).
    fold (AddSemesterDialog.current_semesters user d1). rewrite Hclear.
    cbn. rewrite !bool_decide_eq_true_2 by done. cbn.
    split; [lia|]. by repeat constructor.
Qed.

(** C5, where the code departs from the claim. Alice has one current
    semester; she adds a second one flagged current, the update that
    clears the flag is lost and the insert arrives. [handleSubmit] drops
    the response of the update, inserts, reports success, and leaves two
    current semesters. *)
Theorem handleSubmit_update_lost :
  AddSemesterDialog.current_semesters alice one_current = [term 10%N alice "Fall" true]
  /\ (AddSemesterDialog.handleSubmit alice alice spring_form update_lost one_current).2
     = Success "Semester added successfully!"
  /\ s_id <$> AddSemesterDialog.current_semesters alice
       (AddSemesterDialog.handleSubmit alice alice spring_form update_lost one_current).1
     = [10%N; 11%N].
Proof. repeat split. Qed.

(** *** GradingCriteriaSetup *)

(** The rows of an accepted statement carry the labels sent and belong to
    the session's user. *)
Lemma rows_of_inputs_columns (auth : uuid) (fresh : nat -> uuid)
    (rs : list grading_criteria_input) (i : nat) (rows : list grading_criteria_row) :
  rows_of_inputs auth fresh i rs = Ok rows ->
  Forall (fun r => gc_user_id r = auth) rows
  /\ grade_name <$> rows = in_grade_name <$> rs.
Proof.
  revert i rows. induction rs as [|r rs IH]; intros i rows; cbn.
  - intros [= <-]. split; [constructor|done].
  - unfold grading_criteria_of_input, owner_policy.
    destruct (decide (auth = in_user_id r)) as [E|E];
      [rewrite (bool_decide_eq_true_2 _ E)|rewrite (bool_decide_eq_false_2 _ E); done].
    destruct (gpa_value_of_json _); cbn; [|done].
    destruct (percentage_of_json (in_min_percentage r)); cbn; [|done].
    destruct (percentage_of_json (in_max_percentage r)); cbn; [|done].
    destruct (rows_of_inputs auth fresh (S i) rs) as [rows'|] eqn:E'; cbn; [|done].
    intros [= <-]. destruct (IH _ _ E') as [Hu Hl].
    split; [constructor; [by cbn|done]|]. cbn. by rewrite Hl.
Qed.

Lemma labels_app (user : uuid) (d : db) (l1 l2 : list grading_criteria_row) :
  grading_criteria d = l1 ++ l2 ->
  GradingCriteriaSetup.labels user d
  = (grade_name <$> List.filter (fun gc => bool_decide (gc_user_id gc = user)) l1)
    ++ (grade_name <$> List.filter (fun gc => bool_decide (gc_user_id gc = user)) l2).
Proof.
  unfold GradingCriteriaSetup.labels. intros ->. by rewrite List.filter_app, map_app.
Qed.

Lemma filter_owner_all (user : uuid) (rows : list grading_criteria_row) :
  Forall (fun r => gc_user_id r = user) rows ->
  List.filter (fun gc => bool_decide (gc_user_id gc = user)) rows = rows.
Proof.
  induction 1 as [|r rows Hr _ IH]; [done|]. cbn.
  by rewrite (bool_decide_eq_true_2 _ Hr), IH.
Qed.

Lemma filter_owner_none (auth user : uuid) (rows : list grading_criteria_row) :
  auth <> user ->
  Forall (fun r => gc_user_id r = auth) rows ->
  List.filter (fun gc => bool_decide (gc_user_id gc = user)) rows = [].
Proof.
  intros Hne. induction 1 as [|r rows Hr _ IH]; [done|]. cbn.
  rewrite bool_decide_eq_false_2 by congruence. done.
Qed.

Lemma to_input_labels (userId : uuid) (l : list GradingCriteriaSetup.GradingCriteria) :
  in_grade_name <$> map (GradingCriteriaSetup.to_input userId) l
  = (fun c => Js.trim (GradingCriteriaSetup.grade_name c)) <$> l.
Proof. induction l as [|c l IH]; [done|]. cbn. by f_equal. Qed.

Lemma saveCriteria_store (auth userId : uuid)
    (criteria : list GradingCriteriaSetup.GradingCriteria)
    (net : delivery) (fresh : nat -> uuid) (d : db) :
  (GradingCriteriaSetup.saveCriteria auth userId criteria net fresh d).1 = d
  \/ (GradingCriteriaSetup.saveCriteria auth userId criteria net fresh d).1
     = (insert_grading_criteria net auth fresh
          (map (GradingCriteriaSetup.to_input userId)
               (GradingCriteriaSetup.validCriteria criteria)) d).1.
Proof.
  unfold GradingCriteriaSetup.saveCriteria.
  destruct (_ =? _)%nat; [by left|]. right.
  destruct (insert_grading_criteria _ _ _ _ _) as [d' r]. by destruct (error r).
Qed.

Lemma insert_grading_criteria_store (net : delivery) (auth : uuid) (fresh : nat -> uuid)
    (rs : list grading_criteria_input) (d : db) :
  (insert_grading_criteria net auth fresh rs d).1 = d
  \/ exists rows,
       rows_of_inputs auth fresh 0 rs = Ok rows
       /\ grading_criteria (insert_grading_criteria net auth fresh rs d).1
          = grading_criteria d ++ rows.
Proof.
  unfold insert_grading_criteria. destruct net; [|by left].
  destruct (rows_of_inputs auth fresh 0 rs) as [rows|e]; [|by left].
  right. by exists rows.
Qed.

(** What the save adds to the labels of [user]: nothing, or, when [user]
    is the one signed in, the trimmed labels of the valid lines, in
    order. *)
Lemma saveCriteria_labels (auth userId user : uuid)
    (criteria : list GradingCriteriaSetup.GradingCriteria)
    (net : delivery) (fresh : nat -> uuid) (d : db) :
  let d' := (GradingCriteriaSetup.saveCriteria auth userId criteria net fresh d).1 in
  GradingCriteriaSetup.labels user d' = GradingCriteriaSetup.labels user d
  \/ (user = auth
      /\ GradingCriteriaSetup.labels user d'
         = GradingCriteriaSetup.labels user d
           ++ ((fun c => Js.trim (GradingCriteriaSetup.grade_name c))
                 <$> GradingCriteriaSetup.validCriteria criteria)).
Proof.
  intros d'. subst d'.
  destruct (saveCriteria_store auth userId criteria net fresh d) as [-> | ->]; [by left|].
  destruct (insert_grading_criteria_store net auth fresh
              (map (GradingCriteriaSetup.to_input userId)
                   (GradingCriteriaSetup.validCriteria criteria)) d)
    as [-> | [rows [E Hrows]]]; [by left|].
  apply rows_of_inputs_columns in E as [Hu Hl].
  rewrite (labels_app _ _ _ _ Hrows).
  fold (GradingCriteriaSetup.labels user d).
  destruct (decide (auth = user)) as [<-|Hne].
  - right. split; [done|]. rewrite (filter_owner_all auth rows Hu), Hl.
    by rewrite to_input_labels.
  - left. rewrite (filter_owner_none auth user rows Hne Hu). cbn. by rewrite app_nil_r.
Qed.

(** The scale of anybody else is left as it was. *)
Lemma saveCriteria_other_user (auth userId user : uuid)
    (criteria : list GradingCriteriaSetup.GradingCriteria)
    (net : delivery) (fresh : nat -> uuid) (d : db) :
  user <> auth ->
  GradingCriteriaSetup.labels user
    (GradingCriteriaSetup.saveCriteria auth userId criteria net fresh d).1
  = GradingCriteriaSetup.labels user d.
Proof.
  intros Hne.
  by destruct (saveCriteria_labels auth userId user criteria net fresh d) as [-> | [? _]].
Qed.

(** C8, amended. Saving the setup form keeps the grade labels of a user
    pairwise distinct provided the trimmed labels of the valid lines are
    pairwise distinct and none of them is in the user's scale already;
    neither the form nor the table checks it. *)
Theorem saveCriteria_keeps_labels_distinct (auth userId user : uuid)
    (criteria : list GradingCriteriaSetup.GradingCriteria)
    (net : delivery) (fresh : nat -> uuid) (d : db) :
  NoDup (GradingCriteriaSetup.labels user d) ->
  NoDup ((fun c => Js.trim (GradingCriteriaSetup.grade_name c))
           <$> GradingCriteriaSetup.validCriteria criteria) ->
  Forall (fun c => Js.trim (GradingCriteriaSetup.grade_name c)
                   ∉ GradingCriteriaSetup.labels user d)
         (GradingCriteriaSetup.validCriteria criteria) ->
  NoDup (GradingCriteriaSetup.labels user
           (GradingCriteriaSetup.saveCriteria auth userId criteria net fresh d).1).
Proof.
  intros Hold Hnew Hfresh.
  destruct (saveCriteria_labels auth userId user criteria net fresh d) as [-> | [_ ->]];
    [done|].
  apply NoDup_app. split; [done|]. split; [|done].
  intros l Hl Hl'. apply list_elem_of_fmap in Hl' as [c [-> Hc]].
  rewrite Forall_forall in Hfresh. by apply (Hfresh c).
Qed.

Lemma saveCriteria_keeps_labels_distinct_witness :
  NoDup (GradingCriteriaSetup.labels alice
           (GradingCriteriaSetup.saveCriteria alice alice
              GradingCriteriaSetup.defaultCriteria delivered fresh_ids empty_store).1).
Proof.
  apply saveCriteria_keeps_labels_distinct.
  - evaluated.
  - evaluated.
  - evaluated.
Defined.

(** C8 as stated fails: a form with the label "A" on two lines is saved
    with success and leaves two entries "A". *)
Lemma saveCriteria_repeated_label :
  NoDup (GradingCriteriaSetup.labels alice empty_store)
  /\ (GradingCriteriaSetup.saveCriteria alice alice repeated_label delivered fresh_ids empty_store).2
     = Success "Grading criteria saved successfully!"
  /\ ~ NoDup (GradingCriteriaSetup.labels alice
           (GradingCriteriaSetup.saveCriteria alice alice repeated_label delivered
              fresh_ids empty_store).1).
Proof.
  split; [constructor|]. split; [reflexivity|].
  change (~ NoDup ["A"; "A"]).
  intros H. apply NoDup_cons in H as [H _]. apply H. left.
Qed.

(** ** A user's own rows *)

Lemma for_loop_ext (f g : locals -> module_record -> result locals)
    (rows : list module_record) (st : locals) :
  (forall st r, f st r = g st r) -> for_loop f st rows = for_loop g st rows.
Proof.
  intros H. revert st. induction rows as [|r rows IH]; intros st; [done|].
  cbn. rewrite H. destruct (g st r); cbn; [apply IH|done].
Qed.

Lemma filter_rls {A : Type} (P : A -> Prop) `{forall x, Decision (P x)}
    (b : A -> bool) (l : list A) :
  (forall x, P x -> b x = true) -> filter P (List.filter b l) = filter P l.
Proof.
  intros Hb. induction l as [|x l IH]; [done|]. cbn [List.filter].
  destruct (b x) eqn:E.
  - rewrite !filter_cons, IH. done.
  - rewrite filter_cons, IH. destruct (decide (P x)) as [Hx|]; [|done].
    apply Hb in Hx. congruence.
Qed.

Lemma select_gpa_value_own (d1 d2 : db) (user : uuid) (g : string) :
  rls_grading_criteria user d1 = rls_grading_criteria user d2 ->
  select_gpa_value d1 user g = select_gpa_value d2 user g.
Proof.
  intros E. unfold select_gpa_value.
  rewrite <- (filter_rls _ (fun gc => owner_policy user (gc_user_id gc)) (grading_criteria d1)).
  2:{ intros gc [Hu _]. unfold owner_policy. by apply bool_decide_eq_true_2. }
  rewrite <- (filter_rls _ (fun gc => owner_policy user (gc_user_id gc)) (grading_criteria d2)).
  2:{ intros gc [Hu _]. unfold owner_policy. by apply bool_decide_eq_true_2. }
  fold (rls_grading_criteria user d1). fold (rls_grading_criteria user d2).
  by rewrite E.
Qed.

Lemma selected_own (d1 d2 : db) (user : uuid) (scope : option uuid) :
  rls_modules user d1 = rls_modules user d2 ->
  filter (selected user scope) (modules d1) = filter (selected user scope) (modules d2).
Proof.
  intros E.
  rewrite <- (filter_rls _ (fun m => owner_policy user (m_user_id m)) (modules d1)).
  2:{ intros m [Hu _]. unfold owner_policy. by apply bool_decide_eq_true_2. }
  rewrite <- (filter_rls _ (fun m => owner_policy user (m_user_id m)) (modules d2)).
  2:{ intros m [Hu _]. unfold owner_policy. by apply bool_decide_eq_true_2. }
  fold (rls_modules user d1). fold (rls_modules user d2). by rewrite E.
Qed.

(** A user's own GPA is a function of the user's own rows. *)
Lemma calculate_gpa_own (d1 d2 : db) (user : uuid) (scope : option uuid) :
  semesters_pkey d1 -> modules_semester_fkey d1 ->
  semesters_pkey d2 -> modules_semester_fkey d2 ->
  rls_grading_criteria user d1 = rls_grading_criteria user d2 ->
  rls_modules user d1 = rls_modules user d2 ->
  calculate_gpa d1 user scope = calculate_gpa d2 user scope.
Proof.
  intros Hpk1 Hfk1 Hpk2 Hfk2 Hgc Hm. unfold calculate_gpa.
  rewrite !module_scan_keys by done.
  rewrite (selected_own d1 d2) by done.
  rewrite (for_loop_ext (loop_body d1 user) (loop_body d2 user)); [done|].
  intros st r. unfold loop_body. by rewrite (select_gpa_value_own d1 d2).
Qed.

Lemma filter_map_fixed {A : Type} (p : A -> bool) (f : A -> A) (l : list A) :
  (forall x, p (f x) = p x) -> (forall x, p x = true -> f x = x) ->
  List.filter p (map f l) = List.filter p l.
Proof.
  intros Hp Hf. induction l as [|x l IH]; [done|]. cbn. rewrite Hp.
  destruct (p x) eqn:E; [|done]. by rewrite Hf, IH.
Qed.

Lemma filter_app_none {A : Type} (p : A -> bool) (l l' : list A) :
  Forall (fun x => p x = false) l' -> List.filter p (l ++ l') = List.filter p l.
Proof.
  intros H. rewrite List.filter_app.
  assert (List.filter p l' = []) as ->; [|by rewrite app_nil_r].
  induction H as [|x l' Hx _ IH]; [done|]. cbn. by rewrite Hx.
Qed.

(** *** Leaderboard *)

Lemma sort_insert_perm {A : Type} (cmp : A -> A -> Z) (x : A) (l : list A) :
  Js.sort_insert cmp x l ≡ₚ x :: l.
Proof.
  induction l as [|y l IH]; [done|]. cbn.
  destruct (cmp x y <=? 0); [done|]. rewrite IH. apply Permutation_swap.
Qed.

Lemma array_sort_perm {A : Type} (cmp : A -> A -> Z) (l : list A) :
  Js.array_sort cmp l ≡ₚ l.
Proof.
  induction l as [|x l IH]; [done|]. cbn.
  rewrite sort_insert_perm. by rewrite IH.
Qed.






(** [get_leaderboard] lists a page of profiles by name, whatever their GPA. *)
Example get_leaderboard_by_name :
  GetLeaderboard.get_leaderboard eleven_students "MIT" "CS" 2 9
  = Ok [ {| GetLeaderboard.id := 10%N; GetLeaderboard.full_name := "Jon";
            GetLeaderboard.registration_number := "R10"; GetLeaderboard.gpa := 300 |};
         {| GetLeaderboard.id := 11%N; GetLeaderboard.full_name := "Kim";
            GetLeaderboard.registration_number := "R11"; GetLeaderboard.gpa := 400 |} ].
Proof. vm_compute. reflexivity. Qed.

(** The page of the specification's example: 3.80, 2.10 and 3.95 come
    out as 3.95, 3.80, 2.10. *)
Example array_sort_by_gpa_desc :
  Js.array_sort (fun a b : Z => b - a) [380; 210; 395] = [395; 380; 210].
Proof. reflexivity. Qed.

(** C6, where the code departs from the claim. Eleven students share a
    university and a course. One of them opens the leaderboard: the policy
    that is to let classmates see each other reads [profiles] from within a
    policy on [profiles], the store refuses the first query of the page,
    and the page shows its error toast and not one profile, on every page
    and with every exchange delivered. *)
Theorem loadLeaderboard_shows_nobody :
  length (List.filter (fun p => String.eqb (university_name p) (university_name ana)
                                && String.eqb (course_name p) (course_name ana))
            (profiles eleven_students)) = 11%nat
  /\ Leaderboard.same_course 1%N ana eleven_students = Raise infinite_recursion
  /\ forall page,
       Leaderboard.loadLeaderboard 1%N ana page all_delivered eleven_students blank_page
       = {| Leaderboard.leaderboard := [];
            Leaderboard.totalPages := 1;
            Leaderboard.toasted := Some Leaderboard.failed_to_load |}.
Proof.
  split; [reflexivity|]. split; [reflexivity|]. intros page. reflexivity.
Qed.



(** * Further properties of the code *)


(** ** More about [calculate_gpa] *)

Lemma credits_fit_int4_nonneg_iff (cs : list Z) :
  Forall (fun c => 0 <= c) cs ->
  credits_fit_int4 0 cs = true <-> foldr Z.add 0 cs <= int4_max.
Proof.
  intros Hcs. split.
  - intros H. by apply (credits_fit_int4_total 0 cs) in H.
  - intros H. by apply credits_fit_int4_nonneg.
Qed.

(** The rounded quotient is within half a unit of the exact one. *)
Lemma round_div_nearest (n d : Z) :
  d <> 0 -> 2 * Z.abs (round_div n d * d - n) <= Z.abs d.
Proof.
  intros Hd. unfold round_div.
  pose proof (div_bounds (2 * Z.abs n + Z.abs d) (2 * Z.abs d) ltac:(lia)) as Hb.
  set (q := (2 * Z.abs n + Z.abs d) / (2 * Z.abs d)) in *.
  destruct (Z.abs_spec n) as [[? En]|[? En]], (Z.abs_spec d) as [[? Ed]|[? Ed]];
    rewrite En, Ed in *;
    destruct (Z.sgn_spec n) as [[? Sn]|[[? Sn]|[? Sn]]];
    destruct (Z.sgn_spec d) as [[? Sd]|[[? Sd]|[? Sd]]];
    rewrite Sn, Sd; try lia; nia.
Qed.

Lemma round_div_exact (v c : Z) : c <> 0 -> round_div (v * c) c = v.
Proof.
  intros Hc. pose proof (round_div_nearest (v * c) c Hc) as H.
  assert (E : round_div (v * c) c * c - v * c = (round_div (v * c) c - v) * c) by lia.
  rewrite E, Z.abs_mul in H.
  assert (Z.abs (round_div (v * c) c - v) = 0 \/ 1 <= Z.abs (round_div (v * c) c - v)) as [H0|H1] by lia.
  - lia.
  - assert (0 < Z.abs c) by lia. nia.
Qed.

(** The pairs counted for [user] have the credit hours of a module of
    [user] and a grade point of the scale of [user]. *)
Lemma counted_module_scan_elem (d : db) (user : uuid) (scope : option uuid) (cp : Z * Z) :
  cp ∈ counted d user (module_scan d user scope) ->
  exists m, m ∈ modules d /\ selected user scope m /\ cp.1 = credit_hours m
            /\ select_gpa_value d user (grade m) = Some cp.2.
Proof.
  intros Hcp. apply counted_elem in Hcp as [rec [Hrec [Hc Hv]]].
  apply module_scan_elem in Hrec as [m [Hm [Hsel ->]]].
  by exists m.
Qed.

Lemma counted_credits_nonneg (d : db) (user : uuid) (scope : option uuid) :
  Forall (fun m => m_user_id m = user -> 0 <= credit_hours m) (modules d) ->
  Forall (fun c => 0 <= c) ((counted d user (module_scan d user scope)).*1).
Proof.
  intros H. apply Forall_fmap, Forall_forall. intros cp Hcp.
  apply counted_module_scan_elem in Hcp as (m & Hm & [Hu _] & Hc & _).
  rewrite Forall_forall in H. cbn. rewrite Hc. by apply H.
Qed.

(** X1. When no module of the user has negative credit hours,
    [calculate_gpa] raises exactly when the credit hours that it counts add
    up to more than an INTEGER holds, and "integer out of range" is the only
    error that it ever raises. *)
Theorem calculate_gpa_raises_iff (d : db) (user : uuid) (scope : option uuid) :
  Forall (fun m => m_user_id m = user -> 0 <= credit_hours m) (modules d) ->
  (calculate_gpa d user scope = Raise integer_out_of_range
   <-> int4_max < sum_credit_hours (counted d user (module_scan d user scope)))
  /\ (forall e, calculate_gpa d user scope = Raise e -> e = integer_out_of_range).
Proof.
  intros Hnn. rewrite calculate_gpa_counted. cbv zeta.
  pose proof (credits_fit_int4_nonneg_iff _ (counted_credits_nonneg d user scope Hnn)) as Hiff.
  rewrite sum_credit_hours_fst in Hiff.
  destruct (credits_fit_int4 0 _).
  - split.
    + split; [by destruct (_ =? _)|].
      intros H. destruct Hiff as [Hiff _]. specialize (Hiff eq_refl). lia.
    + intros e. by destruct (_ =? _).
  - split.
    + split; [|done]. intros _. apply Z.lt_nge. intros H. by apply Hiff in H.
    + by intros e [= <-].
Qed.

Lemma calculate_gpa_raises_iff_witness :
  calculate_gpa too_many_credits alice None = Raise integer_out_of_range.
Proof.
  apply (proj1 (calculate_gpa_raises_iff too_many_credits alice None ltac:(evaluated))).
  vm_compute. reflexivity.
Defined.

(** X2. Whenever [calculate_gpa] returns, some credit hours were counted
    and the quotient is below [10^8] (the range in which [round_div] is
    what PostgreSQL computes), the value returned is within half a
    hundredth of the exact weighted average: no other number of
    hundredths is nearer. *)
Theorem calculate_gpa_nearest_hundredth (d : db) (user : uuid) (scope : option uuid) (r : Z) :
  let l := counted d user (module_scan d user scope) in
  sum_credit_hours l <> 0 ->
  Z.abs (sum_grade_points l) < 10 ^ 10 * Z.abs (sum_credit_hours l) ->
  calculate_gpa d user scope = Ok r ->
  2 * Z.abs (r * sum_credit_hours l - sum_grade_points l) <= Z.abs (sum_credit_hours l).
Proof.
  intros l Hnz _. rewrite calculate_gpa_counted. cbv zeta. fold l.
  destruct (credits_fit_int4 0 _); [|done].
  rewrite (proj2 (Z.eqb_neq _ _) Hnz). intros [= <-]. by apply round_div_nearest.
Qed.

Lemma calculate_gpa_nearest_hundredth_witness :
  2 * Z.abs (343 * 7 - 2400) <= Z.abs 7.
Proof.
  apply (calculate_gpa_nearest_hundredth two_grades alice None 343).
  - vm_compute. discriminate.
  - vm_compute. reflexivity.
  - vm_compute. reflexivity.
Defined.

(** X3. A module of another user, or of another semester than the one
    asked for, changes nothing in the result, wherever it stands in the
    table and whatever semester it is attached to. *)
Theorem unselected_module_never_counts (d : db) (before after : list module_row)
    (m : module_row) (user : uuid) (scope : option uuid) :
  m_user_id m <> user \/ (exists sid, scope = Some sid /\ m_semester_id m <> sid) ->
  calculate_gpa (with_modules d (before ++ m :: after)) user scope
  = calculate_gpa (with_modules d (before ++ after)) user scope.
Proof.
  intros Hm. unfold calculate_gpa.
  rewrite !module_scan_app, module_scan_cons.
  rewrite (module_scan_not_selected d m); [done|].
  unfold selected. intros (Hu & Hs & _). destruct Hm as [Hm|(sid & -> & Hm)]; [done|].
  destruct Hs as [Hs|Hs]; congruence.
Qed.

Lemma unselected_module_never_counts_witness :
  calculate_gpa
    (with_modules two_grades
       ([course 20%N 10%N alice 3 "A" first_attempt]
        ++ bobs_module :: [course 21%N 10%N alice 4 "B" first_attempt])) alice None
  = calculate_gpa
      (with_modules two_grades
         ([course 20%N 10%N alice 3 "A" first_attempt]
          ++ [course 21%N 10%N alice 4 "B" first_attempt])) alice None.
Proof.
  apply unselected_module_never_counts. left. vm_compute. discriminate.
Defined.

Lemma select_gpa_value_other_user (d : db) (l1 l2 : list grading_criteria_row)
    (gc : grading_criteria_row) (user : uuid) (g : string) :
  gc_user_id gc <> user ->
  select_gpa_value (Rest.with_grading_criteria d (l1 ++ gc :: l2)) user g
  = select_gpa_value (Rest.with_grading_criteria d (l1 ++ l2)) user g.
Proof.
  intros Hne. unfold select_gpa_value. cbn.
  rewrite !filter_app, filter_cons.
  by destruct (decide (gc_user_id gc = user ∧ grade_name gc = g)) as [[? _]|].
Qed.

(** X4. A row of another user's grading scale changes nothing in the
    result, whatever its label and value and wherever it stands in the
    table. *)
Theorem other_scale_never_counts (d : db) (l1 l2 : list grading_criteria_row)
    (gc : grading_criteria_row) (user : uuid) (scope : option uuid) :
  gc_user_id gc <> user ->
  calculate_gpa (Rest.with_grading_criteria d (l1 ++ gc :: l2)) user scope
  = calculate_gpa (Rest.with_grading_criteria d (l1 ++ l2)) user scope.
Proof.
  intros Hne. unfold calculate_gpa.
  change (module_scan (Rest.with_grading_criteria d (l1 ++ gc :: l2)) user scope)
    with (module_scan (Rest.with_grading_criteria d (l1 ++ l2)) user scope).
  rewrite (for_loop_ext _ (loop_body (Rest.with_grading_criteria d (l1 ++ l2)) user)); [done|].
  intros st r. unfold loop_body. by rewrite select_gpa_value_other_user.
Qed.

Lemma other_scale_never_counts_witness :
  calculate_gpa
    (Rest.with_grading_criteria two_grades
       ([] ++ bobs_criterion :: [criterion 1%N alice "A" 400; criterion 2%N alice "B" 300]))
    alice None
  = calculate_gpa
      (Rest.with_grading_criteria two_grades
         ([] ++ [criterion 1%N alice "A" 400; criterion 2%N alice "B" 300]))
      alice None.
Proof.
  apply other_scale_never_counts. vm_compute. discriminate.
Defined.

Lemma sum_grade_points_uniform (v : Z) (l : list (Z * Z)) :
  Forall (fun cp => cp.2 = v) l -> sum_grade_points l = v * sum_credit_hours l.
Proof.
  induction 1 as [|cp l H _ IH]; [cbn; lia|].
  rewrite sum_grade_points_cons, sum_credit_hours_cons, IH, H. lia.
Qed.

(** X5. When every module that counts has the same grade point [v], the
    result is exactly [v], whatever the credit hours are (negative ones
    included), unless the credit total is zero or overflows. *)
Theorem calculate_gpa_uniform (d : db) (user : uuid) (scope : option uuid) (v : Z) :
  Forall (fun m => selected user scope m ->
                   select_gpa_value d user (grade m) = None
                   \/ select_gpa_value d user (grade m) = Some v) (modules d) ->
  sum_credit_hours (counted d user (module_scan d user scope)) <> 0 ->
  calculate_gpa d user scope = Ok v
  \/ calculate_gpa d user scope = Raise integer_out_of_range.
Proof.
  intros Hall Hnz. rewrite calculate_gpa_counted. cbv zeta.
  destruct (credits_fit_int4 0 _); [left|by right].
  rewrite (proj2 (Z.eqb_neq _ _) Hnz).
  rewrite (sum_grade_points_uniform v).
  - by rewrite round_div_exact.
  - apply Forall_forall. intros cp Hcp.
    apply counted_module_scan_elem in Hcp as (m & Hm & Hsel & _ & Hv).
    rewrite Forall_forall in Hall. destruct (Hall m Hm Hsel) as [E|E]; congruence.
Qed.

Lemma calculate_gpa_uniform_witness :
  calculate_gpa negative_scale alice None = Ok (-100)
  \/ calculate_gpa negative_scale alice None = Raise integer_out_of_range.
Proof.
  apply calculate_gpa_uniform.
  - constructor; [|constructor]. intros _. right. vm_compute. reflexivity.
  - vm_compute. discriminate.
Defined.

Lemma sum_credit_hours_perm (l1 l2 : list (Z * Z)) :
  l1 ≡ₚ l2 -> sum_credit_hours l1 = sum_credit_hours l2.
Proof.
  induction 1 as [|x l1 l2 _ IH|x y l|l1 l2 l3 _ IH1 _ IH2];
    rewrite ?sum_credit_hours_cons; lia.
Qed.

Lemma sum_grade_points_perm (l1 l2 : list (Z * Z)) :
  l1 ≡ₚ l2 -> sum_grade_points l1 = sum_grade_points l2.
Proof.
  induction 1 as [|x l1 l2 _ IH|x y l|l1 l2 l3 _ IH1 _ IH2];
    rewrite ?sum_grade_points_cons; lia.
Qed.

Lemma counted_module_scan_perm (d : db) (ms1 ms2 : list module_row)
    (user : uuid) (scope : option uuid) :
  ms1 ≡ₚ ms2 ->
  counted (with_modules d ms1) user (module_scan (with_modules d ms1) user scope)
  ≡ₚ counted (with_modules d ms2) user (module_scan (with_modules d ms2) user scope).
Proof.
  intros Hp.
  change (counted (with_modules d ms1) user) with (counted (with_modules d ms2) user).
  unfold counted. apply omap_Permutation.
  unfold module_scan. cbn [modules with_modules semesters].
  by apply Permutation_flat_map.
Qed.

(** X6. With credit hours that are not negative, the result does not
    depend on the order in which the table holds the modules. *)
Theorem calculate_gpa_modules_order (d : db) (ms1 ms2 : list module_row)
    (user : uuid) (scope : option uuid) :
  ms1 ≡ₚ ms2 ->
  Forall (fun m => m_user_id m = user -> 0 <= credit_hours m) ms1 ->
  calculate_gpa (with_modules d ms1) user scope
  = calculate_gpa (with_modules d ms2) user scope.
Proof.
  intros Hp Hnn1.
  assert (Hnn2 : Forall (fun m => m_user_id m = user -> 0 <= credit_hours m) ms2)
    by (by rewrite <- Hp).
  pose proof (counted_module_scan_perm d ms1 ms2 user scope Hp) as Hc.
  pose proof (credits_fit_int4_nonneg_iff _
                (counted_credits_nonneg (with_modules d ms1) user scope Hnn1)) as H1.
  pose proof (credits_fit_int4_nonneg_iff _
                (counted_credits_nonneg (with_modules d ms2) user scope Hnn2)) as H2.
  rewrite sum_credit_hours_fst in H1, H2.
  rewrite !calculate_gpa_counted. cbv zeta.
  rewrite <- (sum_credit_hours_perm _ _ Hc), <- (sum_grade_points_perm _ _ Hc) in *.
  destruct (credits_fit_int4 0 _), (credits_fit_int4 0 _); try done.
  - destruct H1 as [H1 _], H2 as [_ H2]. specialize (H2 (H1 eq_refl)). done.
  - destruct H1 as [_ H1], H2 as [H2 _]. specialize (H1 (H2 eq_refl)). done.
Qed.

Lemma calculate_gpa_modules_order_witness :
  calculate_gpa
    (with_modules two_grades
       [course 20%N 10%N alice 3 "A" first_attempt; course 21%N 10%N alice 4 "B" first_attempt])
    alice None
  = calculate_gpa
      (with_modules two_grades
         [course 21%N 10%N alice 4 "B" first_attempt; course 20%N 10%N alice 3 "A" first_attempt])
      alice None.
Proof.
  apply calculate_gpa_modules_order.
  - apply Permutation_swap.
  - evaluated.
Defined.

(** ** [get_leaderboard] and [count_leaderboard_entries] *)

(** What the loop returns, row by row. *)
Lemma return_next_Ok (d : db) (ps : list profile) (rows : list GetLeaderboard.row) :
  GetLeaderboard.return_next d ps = Ok rows ->
  Forall2 (fun p r =>
      GetLeaderboard.id r = p_id p
      /\ GetLeaderboard.full_name r = full_name p
      /\ GetLeaderboard.registration_number r = registration_number p
      /\ calculate_gpa d (p_user_id p) None = Ok (GetLeaderboard.gpa r)
      /\ Z.abs (GetLeaderboard.gpa r) < 1000) ps rows.
Proof.
  revert rows. induction ps as [|p ps IH]; intros rows; cbn.
  - intros [= <-]. constructor.
  - destruct (calculate_gpa d (p_user_id p) None) as [g|] eqn:Eg; cbn; [|done].
    unfold to_decimal_3_2. destruct (Z.ltb_spec (Z.abs g) 1000); cbn; [|done].
    destruct (GetLeaderboard.return_next d ps) as [rest|]; cbn; [|done].
    intros [= <-]. constructor; [done|]. by apply IH.
Qed.

Lemma return_next_app (d : db) (ps1 ps2 : list profile) :
  GetLeaderboard.return_next d (ps1 ++ ps2)
  = (r1 <-- GetLeaderboard.return_next d ps1 ;;
     r2 <-- GetLeaderboard.return_next d ps2 ;;
     Ok (r1 ++ r2)).
Proof.
  induction ps1 as [|p ps1 IH]; cbn.
  - by destruct (GetLeaderboard.return_next d ps2).
  - destruct (calculate_gpa d (p_user_id p) None) as [g|]; cbn; [|done].
    destruct (to_decimal_3_2 g); cbn; [|done].
    rewrite IH. destruct (GetLeaderboard.return_next d ps1); cbn; [|done].
    by destruct (GetLeaderboard.return_next d ps2).
Qed.

(** The profiles of the course, by name: what LIMIT and OFFSET cut. *)
Lemma profile_scan_Ok (d : db) (un cn : string) (limit offset : Z) (ps : list profile) :
  GetLeaderboard.profile_scan d un cn limit offset = Ok ps ->
  0 <= limit /\ 0 <= offset
  /\ ps = take (Z.to_nat limit) (drop (Z.to_nat offset)
            (Js.array_sort GetLeaderboard.by_full_name
               (List.filter (fun p => String.eqb (university_name p) un
                                      && String.eqb (course_name p) cn)
                  (profiles d)))).
Proof.
  unfold GetLeaderboard.profile_scan.
  destruct (Z.ltb_spec limit 0); [done|]. destruct (Z.ltb_spec offset 0); [done|].
  by intros [= <-].
Qed.

Lemma profile_scan_range (d : db) (un cn : string) (limit offset : Z) :
  0 <= limit -> 0 <= offset ->
  GetLeaderboard.profile_scan d un cn limit offset
  = Ok (take (Z.to_nat limit) (drop (Z.to_nat offset)
          (Js.array_sort GetLeaderboard.by_full_name
             (List.filter (fun p => String.eqb (university_name p) un
                                    && String.eqb (course_name p) cn)
                (profiles d))))).
Proof.
  intros Hl Ho. unfold GetLeaderboard.profile_scan.
  destruct (Z.ltb_spec limit 0); [lia|]. destruct (Z.ltb_spec offset 0); [lia|]. done.
Qed.

Lemma Forall_List_filter {A : Type} (P : A -> Prop) (b : A -> bool) (l : list A) :
  Forall P l -> Forall (fun x => P x /\ b x = true) (List.filter b l).
Proof.
  induction 1 as [|x l Hx _ IH]; cbn; [constructor|].
  destruct (b x) eqn:E; [by constructor|done].
Qed.

(** Every profile scanned is a profile of the table, of that university
    and course. *)
Lemma profile_scan_elem (d : db) (un cn : string) (limit offset : Z) (ps : list profile)
    (P : profile -> Prop) :
  GetLeaderboard.profile_scan d un cn limit offset = Ok ps ->
  Forall P (profiles d) ->
  Forall (fun p => P p /\ university_name p = un /\ course_name p = cn) ps.
Proof.
  intros Hps HP. apply profile_scan_Ok in Hps as (_ & _ & ->).
  apply Forall_take, Forall_drop.
  rewrite array_sort_perm.
  eapply Forall_impl; [apply Forall_List_filter, HP|].
  cbn. intros p [Hp Hb]. apply andb_true_iff in Hb as [H1 H2].
  by apply String.eqb_eq in H1, H2.
Qed.

(** With grade points that fit their column and credit hours that are not
    negative and add up to an INTEGER, the GPA has one digit before the
    decimal point. *)
Lemma calculate_gpa_typed (d : db) (user : uuid) (scope : option uuid) :
  gpa_values_typed d ->
  Forall (fun m => 0 <= credit_hours m) (modules d) ->
  sum_credit_hours (counted d user (module_scan d user scope)) <= int4_max ->
  exists g, calculate_gpa d user scope = Ok g /\ Z.abs g < 1000.
Proof.
  intros Htyped Hcredits Hsum. rewrite calculate_gpa_counted. cbv zeta.
  set (l := counted d user (module_scan d user scope)) in *.
  assert (Hl : Forall (fun cp => 0 <= cp.1 /\ -999 <= cp.2 <= 999) l).
  { apply Forall_forall. intros cp Hcp.
    apply counted_module_scan_elem in Hcp as (m & Hm & _ & Hc & Hv).
    apply select_gpa_value_Some in Hv as [gc [Hgc [_ Hgv]]].
    unfold gpa_values_typed in Htyped.
    rewrite Forall_forall in Htyped. rewrite Forall_forall in Hcredits.
    rewrite Hc, <- Hgv. split; [by apply Hcredits|].
    specialize (Htyped gc Hgc). cbn in Htyped. lia. }
  assert (Hnn : 0 <= sum_credit_hours l).
  { apply sum_credit_hours_nonneg. eapply Forall_impl; [exact Hl|]. cbn. tauto. }
  rewrite credits_fit_int4_nonneg.
  - destruct (Z.eqb_spec (sum_credit_hours l) 0) as [E|E].
    + exists 0. split; [done|lia].
    + eexists. split; [done|].
      pose proof (round_div_between (sum_grade_points l) (sum_credit_hours l) (-999) 999
                    ltac:(lia) (sum_grade_points_between (-999) 999 _ Hl)).
      lia.
  - done.
  - apply Forall_fmap. eapply Forall_impl; [exact Hl|]. cbn. tauto.
  - rewrite sum_credit_hours_fst. lia.
Qed.

Lemma return_next_returns (d : db) (ps : list profile) :
  Forall (fun p => exists g, calculate_gpa d (p_user_id p) None = Ok g /\ Z.abs g < 1000) ps ->
  exists rows, GetLeaderboard.return_next d ps = Ok rows.
Proof.
  induction 1 as [|p ps (g & Hg & Hlt) _ [rows IH]]; [by exists []|].
  cbn. rewrite Hg. cbn. unfold to_decimal_3_2.
  rewrite (proj2 (Z.ltb_lt _ _) Hlt). cbn. rewrite IH. cbn. by eexists.
Qed.

(** X7. [get_leaderboard] returns, with no more rows than the limit, when
    limit and offset are not negative, the grade points fit their column,
    no credit hours are negative and those counted for each student add up
    to an INTEGER. *)
Theorem get_leaderboard_returns (d : db) (un cn : string) (limit offset : Z) :
  0 <= limit -> 0 <= offset ->
  gpa_values_typed d ->
  Forall (fun m => 0 <= credit_hours m) (modules d) ->
  Forall (fun p => sum_credit_hours
                     (counted d (p_user_id p) (module_scan d (p_user_id p) None))
                   <= int4_max) (profiles d) ->
  exists rows,
    GetLeaderboard.get_leaderboard d un cn limit offset = Ok rows
    /\ Z.of_nat (length rows) <= limit.
Proof.
  intros Hl Ho Htyped Hcredits Hsums.
  unfold GetLeaderboard.get_leaderboard.
  destruct (GetLeaderboard.profile_scan d un cn limit offset) as [ps|] eqn:Eps.
  2:{ by rewrite profile_scan_range in Eps. }
  cbn.
  pose proof (profile_scan_elem _ _ _ _ _ _ _ Eps Hsums) as Hps.
  destruct (return_next_returns d ps) as [rows Hrows].
  { eapply Forall_impl; [exact Hps|]. cbn. intros p [Hp _].
    by apply calculate_gpa_typed. }
  exists rows. split; [done|].
  apply return_next_Ok, Forall2_length in Hrows. rewrite <- Hrows.
  apply profile_scan_Ok in Eps as (_ & _ & ->). rewrite length_take. lia.
Qed.

Lemma get_leaderboard_returns_witness :
  exists rows,
    GetLeaderboard.get_leaderboard eleven_students "MIT" "CS" 10 0 = Ok rows
    /\ Z.of_nat (length rows) <= 10.
Proof.
  apply get_leaderboard_returns; [lia|lia|evaluated|evaluated|].
  apply Forall_forall. intros p Hp.
  repeat (apply elem_of_cons in Hp as [->|Hp]; [vm_compute; discriminate|]).
  by apply elem_of_nil in Hp.
Defined.

Lemma return_next_raises (d : db) (ps : list profile) (p : profile) (e : sql_error) :
  p ∈ ps ->
  (g <-- calculate_gpa d (p_user_id p) None ;; to_decimal_3_2 g) = Raise e ->
  exists e', GetLeaderboard.return_next d ps = Raise e'.
Proof.
  intros Hp He. induction Hp as [p ps|p q ps _ IH]; cbn.
  - destruct (calculate_gpa d (p_user_id p) None) as [g|]; cbn in *; [|by eexists].
    rewrite He. cbn. by eexists.
  - destruct (calculate_gpa d (p_user_id q) None) as [g|]; cbn; [|by eexists].
    destruct (to_decimal_3_2 g); cbn; [|by eexists].
    destruct (IH He) as [e' ->]. cbn. by eexists.
Qed.

(** X8. One student is enough to make the listing fail for everybody:
    when the GPA of a student of the page cannot be computed, or does not
    fit [DECIMAL(3,2)], [get_leaderboard] raises and returns no row at
    all. *)
Theorem get_leaderboard_fails_as_one (d : db) (un cn : string) (limit offset : Z)
    (ps : list profile) (p : profile) (e : sql_error) :
  GetLeaderboard.profile_scan d un cn limit offset = Ok ps ->
  p ∈ ps ->
  (g <-- calculate_gpa d (p_user_id p) None ;; to_decimal_3_2 g) = Raise e ->
  exists e', GetLeaderboard.get_leaderboard d un cn limit offset = Raise e'.
Proof.
  intros Hps Hp He. unfold GetLeaderboard.get_leaderboard. rewrite Hps. cbn.
  by apply (return_next_raises d ps p e).
Qed.

Lemma get_leaderboard_fails_as_one_witness :
  exists e', GetLeaderboard.get_leaderboard too_many_credits "MIT" "CS" 10 0 = Raise e'.
Proof.
  apply (get_leaderboard_fails_as_one too_many_credits "MIT" "CS" 10 0
           [student 1%N alice "Alice" "MIT" "CS" "R1"; student 2%N bob "Bob" "MIT" "CS" "R2"]
           (student 1%N alice "Alice" "MIT" "CS" "R1") integer_out_of_range).
  - vm_compute. reflexivity.
  - constructor.
  - vm_compute. reflexivity.
Defined.

(** X9. Pages compose: when the names of the course are distinct, so that
    [ORDER BY] fixes the order of the rows, a page of [a] rows at offset
    [o] followed by the page of [b] rows at offset [o + a] is the page of
    [a + b] rows at offset [o]. *)
Theorem get_leaderboard_pages_compose (d : db) (un cn : string) (a b o : Z)
    (r1 r2 : list GetLeaderboard.row) :
  NoDup (full_name <$> List.filter (fun p => String.eqb (university_name p) un
                                             && String.eqb (course_name p) cn)
                         (profiles d)) ->
  0 <= a -> 0 <= b -> 0 <= o ->
  GetLeaderboard.get_leaderboard d un cn a o = Ok r1 ->
  GetLeaderboard.get_leaderboard d un cn b (o + a) = Ok r2 ->
  GetLeaderboard.get_leaderboard d un cn (a + b) o = Ok (r1 ++ r2).
Proof.
  intros _ Ha Hb Ho. unfold GetLeaderboard.get_leaderboard.
  rewrite !profile_scan_range by lia. cbn.
  rewrite !Z2Nat.inj_add by lia.
  set (l := Js.array_sort _ _).
  rewrite <- (take_take_drop (drop (Z.to_nat o) l)), drop_drop, return_next_app.
  by intros -> ->.
Qed.

Lemma get_leaderboard_pages_compose_witness :
  GetLeaderboard.get_leaderboard eleven_students "MIT" "CS" (1 + 1) 9
  = Ok ([jon_row] ++ [kim_row]).
Proof.
  apply get_leaderboard_pages_compose; try lia; try (vm_compute; reflexivity).
  evaluated.
Defined.

(** X10. The number of rows of a page is what [count_leaderboard_entries]
    leaves after the offset, cut at the limit. *)
Theorem get_leaderboard_length (d : db) (un cn : string) (limit offset : Z)
    (rows : list GetLeaderboard.row) (n : Z) :
  GetLeaderboard.get_leaderboard d un cn limit offset = Ok rows ->
  CountLeaderboard.count_leaderboard_entries d un cn = Ok n ->
  Z.of_nat (length rows) = Z.min limit (Z.max 0 (n - offset)).
Proof.
  unfold GetLeaderboard.get_leaderboard, CountLeaderboard.count_leaderboard_entries.
  destruct (GetLeaderboard.profile_scan d un cn limit offset) as [ps|] eqn:Eps; [|done].
  cbn. intros Hrows. apply return_next_Ok, Forall2_length in Hrows. rewrite <- Hrows.
  apply profile_scan_Ok in Eps as (Hl & Ho & ->).
  destruct (in_int4 _); [|done]. intros [= <-].
  rewrite length_take, length_drop, (Permutation_length (array_sort_perm _ _)). lia.
Qed.

Lemma get_leaderboard_length_witness :
  Z.of_nat (length [jon_row; kim_row]) = Z.min 10 (Z.max 0 (11 - 9)).
Proof.
  apply (get_leaderboard_length eleven_students "MIT" "CS" 10 9); vm_compute; reflexivity.
Defined.

(** Insertion keeps a list in order, for any comparison that agrees with
    the order. *)
Lemma sort_insert_sorted_by {A : Type} (cmp : A -> A -> Z) (R : A -> A -> Prop)
    (x : A) (l : list A) :
  (forall a b, cmp a b <= 0 -> R a b) ->
  (forall a b, 0 < cmp a b -> R b a) ->
  Sorted R l -> Sorted R (Js.sort_insert cmp x l).
Proof.
  intros Hle Hgt. induction 1 as [|y l Hl IH Hhd]; cbn.
  - repeat constructor.
  - destruct (Z.leb_spec (cmp x y) 0) as [H|H].
    + constructor; [by constructor|]. constructor. by apply Hle.
    + constructor; [done|].
      destruct l as [|z l]; cbn.
      * constructor. by apply Hgt.
      * destruct (Z.leb_spec (cmp x z) 0).
        -- constructor. by apply Hgt.
        -- constructor. by inversion Hhd.
Qed.

Lemma array_sort_sorted_by {A : Type} (cmp : A -> A -> Z) (R : A -> A -> Prop) (l : list A) :
  (forall a b, cmp a b <= 0 -> R a b) ->
  (forall a b, 0 < cmp a b -> R b a) ->
  Sorted R (Js.array_sort cmp l).
Proof.
  intros Hle Hgt. induction l as [|x l IH]; cbn; [constructor|].
  by apply sort_insert_sorted_by.
Qed.

(** X11. Whatever page [get_leaderboard] returns, every row of it is a
    profile of the university and course asked for, with the GPA that
    [calculate_gpa] returns for its user, and that GPA fits
    [DECIMAL(3,2)]. *)
Theorem get_leaderboard_rows (d : db) (un cn : string) (limit offset : Z)
    (rows : list GetLeaderboard.row) :
  GetLeaderboard.get_leaderboard d un cn limit offset = Ok rows ->
  Forall (fun r => exists p,
      p ∈ profiles d /\ university_name p = un /\ course_name p = cn
      /\ GetLeaderboard.id r = p_id p
      /\ GetLeaderboard.full_name r = full_name p
      /\ GetLeaderboard.registration_number r = registration_number p
      /\ calculate_gpa d (p_user_id p) None = Ok (GetLeaderboard.gpa r)
      /\ Z.abs (GetLeaderboard.gpa r) < 1000) rows.
Proof.
  unfold GetLeaderboard.get_leaderboard.
  destruct (GetLeaderboard.profile_scan d un cn limit offset) as [ps|] eqn:Eps; [|done].
  cbn. intros Hrows. apply return_next_Ok in Hrows.
  pose proof (profile_scan_elem d un cn limit offset ps (fun p => p ∈ profiles d) Eps) as Hps.
  specialize (Hps ltac:(by apply Forall_forall)).
  clear Eps. induction Hrows as [|p r ps rows (Hi & Hn & Hr & Hg & Hlt) _ IH]; [constructor|].
  apply Forall_cons in Hps as [(Hp & Hu & Hc) Hps].
  constructor; [by exists p|by apply IH].
Qed.

Lemma get_leaderboard_rows_witness :
  Forall (fun r => exists p,
      p ∈ profiles eleven_students /\ university_name p = "MIT" /\ course_name p = "CS"
      /\ GetLeaderboard.id r = p_id p
      /\ GetLeaderboard.full_name r = full_name p
      /\ GetLeaderboard.registration_number r = registration_number p
      /\ calculate_gpa eleven_students (p_user_id p) None = Ok (GetLeaderboard.gpa r)
      /\ Z.abs (GetLeaderboard.gpa r) < 1000)
    [jon_row; kim_row].
Proof.
  apply (get_leaderboard_rows eleven_students "MIT" "CS" 2 9). vm_compute. reflexivity.
Defined.

(** ** The [Leaderboard] page *)


(** ** More about [AddSemesterDialog.handleSubmit] *)

(** X13. With both exchanges delivered, a semester submitted as current
    by its user is reported as added and is the one and only current
    semester of that user afterwards. *)
Theorem handleSubmit_sets_the_current (user : uuid) (fd : AddSemesterDialog.formData)
    (x : AddSemesterDialog.exchange) (d : db) :
  AddSemesterDialog.is_current fd = true ->
  AddSemesterDialog.net_update x = delivered ->
  AddSemesterDialog.net_insert x = delivered ->
  let out := AddSemesterDialog.handleSubmit user user fd x d in
  out.2 = Success "Semester added successfully!"
  /\ s_id <$> AddSemesterDialog.current_semesters user out.1 = [AddSemesterDialog.new_id x].
Proof.
  intros Hcur Hu Hi out. subst out. split.
  - unfold AddSemesterDialog.handleSubmit, insert_semester, owner_policy.
    rewrite Hi. cbn [s_user_id]. by rewrite bool_decide_eq_true_2.
  - rewrite handleSubmit_store, Hcur, Hu, Hi.
    pose proof (update_semesters_not_current_clears user d) as Hclear.
    set (d1 := (update_semesters_not_current delivered user user d).1) in *.
    unfold insert_semester, owner_policy. cbn [s_user_id].
    rewrite bool_decide_eq_true_2 by done. cbn [fst].
    erewrite current_semesters_app by done.
    fold (AddSemesterDialog.current_semesters user d1). rewrite Hclear.
    cbn. rewrite !bool_decide_eq_true_2 by done. done.
Qed.

Lemma handleSubmit_sets_the_current_witness :
  let out := AddSemesterDialog.handleSubmit alice alice spring_form both_delivered
               one_current in
  out.2 = Success "Semester added successfully!"
  /\ s_id <$> AddSemesterDialog.current_semesters alice out.1 = [11%N].
Proof.
  apply (handleSubmit_sets_the_current alice spring_form both_delivered one_current);
    reflexivity.
Defined.

(** X14. The two writes of a submission are not one transaction: when the
    flag has been cleared and the insert then fails to arrive, the form
    reports the error, no semester is added, and the user is left with no
    current semester at all. *)
Theorem handleSubmit_insert_lost (user : uuid) (fd : AddSemesterDialog.formData)
    (x : AddSemesterDialog.exchange) (d : db) :
  AddSemesterDialog.is_current fd = true ->
  AddSemesterDialog.net_update x = delivered ->
  AddSemesterDialog.net_insert x = lost ->
  let out := AddSemesterDialog.handleSubmit user user fd x d in
  out.2 = Error (of_error fetch_failed)
  /\ s_id <$> semesters out.1 = s_id <$> semesters d
  /\ AddSemesterDialog.current_semesters user out.1 = [].
Proof.
  intros Hcur Hu Hi out. subst out.
  unfold AddSemesterDialog.handleSubmit. rewrite Hcur, Hu, Hi.
  cbn [insert_semester fst snd error rejected].
  split; [done|]. split.
  - cbn. rewrite <- list_fmap_compose. apply list_fmap_ext.
    intros i s _. cbn. by destruct (_ && _).
  - apply update_semesters_not_current_clears.
Qed.

Lemma handleSubmit_insert_lost_witness :
  let out := AddSemesterDialog.handleSubmit alice alice spring_form insert_lost one_current in
  out.2 = Error (of_error fetch_failed)
  /\ s_id <$> semesters out.1 = s_id <$> semesters one_current
  /\ AddSemesterDialog.current_semesters alice out.1 = [].
Proof.
  apply (handleSubmit_insert_lost alice spring_form insert_lost one_current); reflexivity.
Defined.

Lemma current_semesters_insert_not_current (u : uuid) (net : delivery) (auth : uuid)
    (row : semester) (d : db) :
  is_current row = Some false ->
  AddSemesterDialog.current_semesters u (insert_semester net auth row d).1
  = AddSemesterDialog.current_semesters u d.
Proof.
  intros Hrow.
  destruct (insert_semester_store net auth row d) as [-> | E]; [done|].
  rewrite (current_semesters_app _ _ _ _ E). cbn. rewrite Hrow.
  rewrite andb_false_r. by rewrite app_nil_r.
Qed.

(** X15. A semester added without the "current" switch leaves the current
    semesters of everybody as they were, whatever happens to the
    exchange. *)
Theorem handleSubmit_not_current (auth userId u : uuid) (fd : AddSemesterDialog.formData)
    (x : AddSemesterDialog.exchange) (d : db) :
  AddSemesterDialog.is_current fd = false ->
  AddSemesterDialog.current_semesters u (AddSemesterDialog.handleSubmit auth userId fd x d).1
  = AddSemesterDialog.current_semesters u d.
Proof.
  intros Hcur. rewrite handleSubmit_store, Hcur.
  by apply current_semesters_insert_not_current.
Qed.

Lemma handleSubmit_not_current_witness :
  AddSemesterDialog.current_semesters alice
    (AddSemesterDialog.handleSubmit alice alice summer_form both_delivered one_current).1
  = AddSemesterDialog.current_semesters alice one_current.
Proof. by apply handleSubmit_not_current. Defined.

Lemma update_semesters_not_current_other (net : delivery) (auth userId : uuid) (d : db) :
  auth <> userId -> (update_semesters_not_current net auth userId d).1 = d.
Proof.
  intros Hne. unfold update_semesters_not_current. destruct net; [|done].
  destruct d as [ps gcs ss ms]. cbn. f_equal.
  rewrite <- (map_id ss) at 2. apply map_ext. intros s.
  unfold owner_policy.
  destruct (decide (auth = s_user_id s)) as [E|E].
  - rewrite (bool_decide_eq_false_2 (s_user_id s = userId)) by congruence.
    by rewrite andb_false_r.
  - by rewrite (bool_decide_eq_false_2 _ E).
Qed.

(** X16. A form submitted for another user's id writes nothing: the
    policies let neither the update nor the insert through, the store is
    left as it was and the form shows an error. *)
Theorem handleSubmit_for_other_user (auth userId : uuid) (fd : AddSemesterDialog.formData)
    (x : AddSemesterDialog.exchange) (d : db) :
  auth <> userId ->
  (AddSemesterDialog.handleSubmit auth userId fd x d).1 = d
  /\ exists e, (AddSemesterDialog.handleSubmit auth userId fd x d).2 = Error (of_error e).
Proof.
  intros Hne. unfold AddSemesterDialog.handleSubmit.
  assert (Hd1 : (if AddSemesterDialog.is_current fd
                 then (update_semesters_not_current (AddSemesterDialog.net_update x)
                         auth userId d).1
                 else d) = d).
  { destruct (AddSemesterDialog.is_current fd); [|done].
    by apply update_semesters_not_current_other. }
  rewrite Hd1. unfold insert_semester.
  destruct (AddSemesterDialog.net_insert x); cbn.
  - unfold owner_policy. rewrite (bool_decide_eq_false_2 _ Hne). cbn.
    split; [done|by eexists].
  - split; [done|by eexists].
Qed.

Lemma handleSubmit_for_other_user_witness :
  (AddSemesterDialog.handleSubmit bob alice spring_form both_delivered one_current).1
  = one_current
  /\ exists e,
       (AddSemesterDialog.handleSubmit bob alice spring_form both_delivered one_current).2
       = Error (of_error e).
Proof. apply handleSubmit_for_other_user. vm_compute. discriminate. Defined.

(** ** More about [GradingCriteriaSetup] *)

Lemma rows_of_inputs_length (auth : uuid) (fresh : nat -> uuid)
    (rs : list grading_criteria_input) (i : nat) (rows : list grading_criteria_row) :
  rows_of_inputs auth fresh i rs = Ok rows -> length rows = length rs.
Proof.
  intros H. apply rows_of_inputs_columns in H as [_ H].
  apply (f_equal length) in H. by rewrite !length_fmap in H.
Qed.

(** A save either leaves the store alone and shows an error, or shows
    success and appends the rows that the store made of the valid lines. *)
Lemma saveCriteria_outcome (auth userId : uuid)
    (criteria : list GradingCriteriaSetup.GradingCriteria)
    (net : delivery) (fresh : nat -> uuid) (d : db) :
  let out := GradingCriteriaSetup.saveCriteria auth userId criteria net fresh d in
  (out.1 = d /\ exists m, out.2 = Error m)
  \/ (out.2 = Success "Grading criteria saved successfully!"
      /\ GradingCriteriaSetup.validCriteria criteria <> []
      /\ exists rows,
           rows_of_inputs auth fresh 0
             (map (GradingCriteriaSetup.to_input userId)
                (GradingCriteriaSetup.validCriteria criteria)) = Ok rows
           /\ out.1 = Rest.with_grading_criteria d (grading_criteria d ++ rows)).
Proof.
  intros out. subst out. unfold GradingCriteriaSetup.saveCriteria.
  destruct (Nat.eqb_spec (length (GradingCriteriaSetup.validCriteria criteria)) 0) as [E|E].
  { left. split; [done|by eexists]. }
  unfold insert_grading_criteria. destruct net.
  2:{ left. split; [done|by eexists]. }
  destruct (rows_of_inputs auth fresh 0 _) as [rows|e] eqn:Erows.
  2:{ left. split; [done|by eexists]. }
  right. split; [done|]. split; [by destruct (GradingCriteriaSetup.validCriteria criteria)|].
  by exists rows.
Qed.

(** The rows stored for a form submitted as [userId] belong to [userId]. *)
Lemma rows_of_inputs_user (auth userId : uuid) (fresh : nat -> uuid)
    (l : list GradingCriteriaSetup.GradingCriteria) (i : nat)
    (rows : list grading_criteria_row) :
  rows_of_inputs auth fresh i (map (GradingCriteriaSetup.to_input userId) l) = Ok rows ->
  Forall (fun gc => gc_user_id gc = userId) rows.
Proof.
  revert rows i. induction l as [|c l IH]; intros rows i; cbn.
  - intros [= <-]. constructor.
  - destruct (grading_criteria_of_input auth (fresh i) _) as [row|] eqn:Er; cbn; [|done].
    destruct (rows_of_inputs auth fresh (S i) _) as [rows'|] eqn:E'; cbn; [|done].
    intros [= <-]. constructor; [|by apply (IH rows' (S i))].
    unfold grading_criteria_of_input in Er.
    destruct (owner_policy _ _); [|done].
    destruct (gpa_value_of_json _); cbn in Er; [|done].
    destruct (percentage_of_json _); cbn in Er; [|done].
    destruct (percentage_of_json _); cbn in Er; [|done].
    by injection Er as <-.
Qed.

(** X17. A save stores all the valid lines or none: either an error is
    shown and the store is what it was, or success is shown and the table
    has got, at its end, one row for each valid line, owned by the user and
    labelled with the trimmed label of its line. *)
Theorem saveCriteria_all_or_nothing (auth userId : uuid)
    (criteria : list GradingCriteriaSetup.GradingCriteria)
    (net : delivery) (fresh : nat -> uuid) (d : db) :
  let out := GradingCriteriaSetup.saveCriteria auth userId criteria net fresh d in
  (out.1 = d /\ exists m, out.2 = Error m)
  \/ (out.2 = Success "Grading criteria saved successfully!"
      /\ exists rows,
           out.1 = Rest.with_grading_criteria d (grading_criteria d ++ rows)
           /\ rows <> []
           /\ length rows = length (GradingCriteriaSetup.validCriteria criteria)
           /\ Forall (fun gc => gc_user_id gc = auth /\ gc_user_id gc = userId) rows
           /\ grade_name <$> rows
              = (fun c => Js.trim (GradingCriteriaSetup.grade_name c))
                  <$> GradingCriteriaSetup.validCriteria criteria).
Proof.
  intros out. subst out.
  destruct (saveCriteria_outcome auth userId criteria net fresh d)
    as [H | (Hs & Hne & rows & Erows & Hd)]; [by left|].
  right. split; [done|]. exists rows.
  pose proof (rows_of_inputs_length _ _ _ _ _ Erows) as Hlen.
  rewrite length_map in Hlen.
  pose proof (rows_of_inputs_columns _ _ _ _ _ Erows) as [Hu Hl].
  pose proof (rows_of_inputs_user _ _ _ _ _ _ Erows) as Hu'.
  split; [done|]. split.
  { intros ->. by destruct (GradingCriteriaSetup.validCriteria criteria). }
  split; [done|]. split.
  - apply Forall_forall. intros gc Hgc. rewrite Forall_forall in Hu, Hu'. split; auto.
  - by rewrite Hl, to_input_labels.
Qed.

Lemma rows_of_inputs_raises (auth : uuid) (fresh : nat -> uuid)
    (rs : list grading_criteria_input) (i : nat) (r : grading_criteria_input) (e : sql_error) :
  r ∈ rs -> gpa_value_of_json (in_gpa_value r) = Raise e ->
  exists e', rows_of_inputs auth fresh i rs = Raise e'.
Proof.
  intros Hr He. revert i. induction Hr as [r rs|r q rs _ IH]; intros i; cbn.
  - unfold grading_criteria_of_input. destruct (owner_policy _ _); [|by eexists].
    rewrite He. cbn. by eexists.
  - destruct (grading_criteria_of_input auth (fresh i) q); cbn; [|by eexists].
    destruct (IH He (S i)) as [e' ->]. cbn. by eexists.
Qed.

(** X18. One line is enough to lose the whole form: when a valid line
    carries a grade point that the column does not take (10 or more, or
    "Infinity"), nothing is stored, not even the lines that are in order,
    and the form shows the error of the store. *)
Theorem saveCriteria_one_bad_value (auth userId : uuid)
    (criteria : list GradingCriteriaSetup.GradingCriteria)
    (fresh : nat -> uuid) (d : db) (c : GradingCriteriaSetup.GradingCriteria)
    (e : sql_error) :
  c ∈ GradingCriteriaSetup.validCriteria criteria ->
  gpa_value_of_json (Js.parseFloat (GradingCriteriaSetup.gpa_value c)) = Raise e ->
  exists e',
    GradingCriteriaSetup.saveCriteria auth userId criteria delivered fresh d
    = (d, Error (of_error (store_error e'))).
Proof.
  intros Hc He. unfold GradingCriteriaSetup.saveCriteria.
  destruct (Nat.eqb_spec (length (GradingCriteriaSetup.validCriteria criteria)) 0) as [E|E].
  { apply nil_length_inv in E. rewrite E in Hc. by apply elem_of_nil in Hc. }
  unfold insert_grading_criteria.
  destruct (rows_of_inputs_raises auth fresh
              (map (GradingCriteriaSetup.to_input userId)
                   (GradingCriteriaSetup.validCriteria criteria)) 0
              (GradingCriteriaSetup.to_input userId c) e) as [e' ->].
  - apply list_elem_of_In, in_map, list_elem_of_In, Hc.
  - exact He.
  - by exists e'.
Qed.

Lemma saveCriteria_one_bad_value_witness :
  exists e',
    GradingCriteriaSetup.saveCriteria alice alice
      (GradingCriteriaSetup.defaultCriteria ++ [ten_points]) delivered fresh_ids empty_store
    = (empty_store, Error (of_error (store_error e'))).
Proof.
  apply (saveCriteria_one_bad_value alice alice
           (GradingCriteriaSetup.defaultCriteria ++ [ten_points]) fresh_ids empty_store
           ten_points numeric_field_overflow).
  - vm_compute. do 10 right. left.
  - vm_compute. reflexivity.
Defined.

(** X19. The empty line that "Add Grade" appends is not a valid line: a
    save with it does what the save without it does. *)
Theorem saveCriteria_ignores_added_line (auth userId : uuid)
    (criteria : list GradingCriteriaSetup.GradingCriteria)
    (net : delivery) (fresh : nat -> uuid) (d : db) :
  GradingCriteriaSetup.saveCriteria auth userId (SetupForm.addCriteria criteria) net fresh d
  = GradingCriteriaSetup.saveCriteria auth userId criteria net fresh d.
Proof.
  unfold GradingCriteriaSetup.saveCriteria, SetupForm.addCriteria,
    GradingCriteriaSetup.validCriteria.
  rewrite List.filter_app. cbn [List.filter].
  change (GradingCriteriaSetup.valid SetupForm.blank) with false.
  by rewrite app_nil_r.
Qed.

Lemma removeCriteria_cons (index : nat) (c : GradingCriteriaSetup.GradingCriteria)
    (criteria : list GradingCriteriaSetup.GradingCriteria) :
  SetupForm.removeCriteria (S index) (c :: criteria)
  = c :: SetupForm.removeCriteria index criteria.
Proof.
  unfold SetupForm.removeCriteria. cbn. f_equal. f_equal.
  apply imap_ext. intros i x _. cbn.
  destruct (decide (i = index)) as [->|Hne].
  - by rewrite !bool_decide_eq_true_2.
  - rewrite !bool_decide_eq_false_2 by lia. done.
Qed.

Lemma removeCriteria_beyond (index : nat)
    (criteria : list GradingCriteriaSetup.GradingCriteria) :
  (length criteria <= index)%nat -> SetupForm.removeCriteria index criteria = criteria.
Proof.
  revert index. induction criteria as [|c criteria IH]; intros index Hlen; [done|].
  destruct index as [|index]; [cbn in Hlen; lia|].
  rewrite removeCriteria_cons, IH; [done|]. cbn in Hlen. lia.
Qed.

(** X20. [removeCriteria] takes out the line at the index and no other,
    so that removing the line that "Add Grade" has just appended gives the
    form back. *)
Theorem removeCriteria_line (index : nat)
    (criteria : list GradingCriteriaSetup.GradingCriteria) :
  SetupForm.removeCriteria index criteria = take index criteria ++ drop (S index) criteria
  /\ SetupForm.removeCriteria (length criteria) (SetupForm.addCriteria criteria) = criteria.
Proof.
  split.
  - revert index. induction criteria as [|c criteria IH]; intros index.
    + by destruct index.
    + destruct index as [|index].
      * cbn [take drop app]. rewrite drop_0.
        rewrite <- (removeCriteria_beyond (length criteria) criteria) at 2 by lia.
        clear IH. unfold SetupForm.removeCriteria.
        rewrite imap_cons. cbn [concat].
        rewrite (bool_decide_eq_true_2 (0%nat = 0%nat)) by done. cbn [app].
        f_equal. apply imap_ext. intros i x Hi. cbn.
        apply lookup_lt_Some in Hi.
        rewrite (bool_decide_eq_false_2 (i = length criteria)) by lia. done.
      * rewrite removeCriteria_cons, IH. done.
  - unfold SetupForm.addCriteria.
    induction criteria as [|c criteria IH]; [done|].
    cbn [length app]. by rewrite removeCriteria_cons, IH.
Qed.

(** ** [Dashboard.checkGradingCriteria] *)

(** X21. After a save that reports success, the dashboard finds a grading
    scale for the user and shows the setup form no more. *)
Theorem checkGradingCriteria_after_save (user : uuid)
    (criteria : list GradingCriteriaSetup.GradingCriteria)
    (net : delivery) (fresh : nat -> uuid) (d : db) (s : string) (b : bool) :
  (GradingCriteriaSetup.saveCriteria user user criteria net fresh d).2 = Success s ->
  Dashboard.checkGradingCriteria delivered user user
    (GradingCriteriaSetup.saveCriteria user user criteria net fresh d).1 b = true.
Proof.
  intros Hs.
  destruct (saveCriteria_outcome user user criteria net fresh d)
    as [[_ [m Hm]] | (_ & Hne & rows & Erows & ->)].
  { rewrite Hm in Hs. done. }
  pose proof (rows_of_inputs_user _ _ _ _ _ _ Erows) as Hu.
  pose proof (rows_of_inputs_length _ _ _ _ _ Erows) as Hlen. rewrite length_map in Hlen.
  unfold Dashboard.checkGradingCriteria, rls_grading_criteria.
  cbn [grading_criteria Rest.with_grading_criteria].
  set (l := List.filter _ (List.filter _ _)).
  assert (Hl : exists r, In r l).
  { destruct rows as [|r rows].
    { by destruct (GradingCriteriaSetup.validCriteria criteria). }
    apply Forall_cons in Hu as [Hr _].
    exists r. subst l. apply filter_In. split.
    - apply filter_In. split; [apply in_or_app; right; by left|].
      unfold owner_policy. by apply bool_decide_eq_true_2.
    - by apply bool_decide_eq_true_2. }
  destruct Hl as [r Hr]. by destruct l.
Qed.

Lemma checkGradingCriteria_after_save_witness :
  Dashboard.checkGradingCriteria delivered alice alice
    (GradingCriteriaSetup.saveCriteria alice alice GradingCriteriaSetup.defaultCriteria
       delivered fresh_ids empty_store).1 false = true.
Proof.
  apply (checkGradingCriteria_after_save alice GradingCriteriaSetup.defaultCriteria
           delivered fresh_ids empty_store "Grading criteria saved successfully!" false).
  vm_compute. reflexivity.
Defined.

(** ** Adding and deleting modules and semesters *)

(** X23. What [AddModuleDialog.handleSubmit] does: either it reports
    success, and then the exchange was delivered, the form was submitted
    for the user signed in, the semester exists (whoever owns it), the
    text of the credit hours starts with an integer that fits an INTEGER,
    and exactly one module with these credit hours is added at the end of
    the table; or it reports an error and the store is what it was. *)
Theorem add_module_outcome (auth userId semesterId : uuid) (fd : AddModuleDialog.formData)
    (net : delivery) (new_id : uuid) (d : db) :
  let out := AddModuleDialog.handleSubmit auth userId semesterId fd net new_id d in
  (out.2 = Rest.Success "Module added successfully!"
   /\ net = delivered /\ auth = userId /\ semesterId ∈ s_id <$> semesters d
   /\ exists c,
        JsInt.parseInt (AddModuleDialog.credit_hours fd) = Some c
        /\ in_int4 c = true
        /\ out.1 = with_modules d
                     (modules d ++
                      [ {| m_id := new_id;
                           m_semester_id := semesterId;
                           m_user_id := userId;
                           module_code := AddModuleDialog.module_code fd;
                           module_name := AddModuleDialog.module_name fd;
                           credit_hours := c;
                           grade := AddModuleDialog.grade fd;
                           m_module_type := AddModuleDialog.module_type fd;
                           m_attempt_type := AddModuleDialog.attempt_type fd |} ]))
  \/ (out.1 = d /\ exists e, out.2 = Rest.Error (Rest.of_error e)).
Proof.
  intros out. subst out. unfold AddModuleDialog.handleSubmit, Rest.insert_module.
  destruct net; [|right; split; [done|by eexists]].
  cbn [Rest.in_credit_hours Rest.in_user_id Rest.in_semester_id].
  destruct (JsInt.parseInt (AddModuleDialog.credit_hours fd)) as [c|].
  - destruct (in_int4 c) eqn:Ec; [|right; split; [done|by eexists]].
    cbn [negb]. unfold owner_policy.
    destruct (decide (auth = userId)) as [Ea|Ea].
    2:{ rewrite (bool_decide_eq_false_2 _ Ea). right. split; [done|by eexists]. }
    rewrite (bool_decide_eq_true_2 _ Ea). cbn [negb].
    destruct (decide (semesterId ∈ s_id <$> semesters d)) as [Es|Es].
    2:{ rewrite (bool_decide_eq_false_2 _ Es). right. split; [done|by eexists]. }
    rewrite (bool_decide_eq_true_2 _ Es). cbn.
    left. repeat (split; [done|]). by exists c.
  - cbn [negb]. destruct (negb _); right; (split; [done|by eexists]).
Qed.

(** The store after [AddModuleDialog.handleSubmit]: as it was, or with one
    module of the user signed in, attached to a semester of the table. *)
Lemma add_module_store (auth userId semesterId : uuid) (fd : AddModuleDialog.formData)
    (net : delivery) (new_id : uuid) (d : db) :
  (AddModuleDialog.handleSubmit auth userId semesterId fd net new_id d).1 = d
  \/ exists m,
       (AddModuleDialog.handleSubmit auth userId semesterId fd net new_id d).1
       = with_modules d (modules d ++ [m])
       /\ m_user_id m = auth /\ m_semester_id m ∈ s_id <$> semesters d.
Proof.
  unfold AddModuleDialog.handleSubmit, Rest.insert_module.
  destruct net; [|by left].
  cbn [Rest.in_credit_hours Rest.in_user_id Rest.in_semester_id].
  destruct (negb (match JsInt.parseInt _ with Some n => in_int4 n | None => true end));
    [by left|].
  unfold owner_policy.
  destruct (decide (auth = userId)) as [Ea|Ea];
    [rewrite (bool_decide_eq_true_2 _ Ea)|rewrite (bool_decide_eq_false_2 _ Ea); by left].
  cbn [negb].
  destruct (JsInt.parseInt _) as [c|]; [|by left].
  destruct (decide (semesterId ∈ s_id <$> semesters d)) as [Es|Es];
    [rewrite (bool_decide_eq_true_2 _ Es)|rewrite (bool_decide_eq_false_2 _ Es); by left].
  cbn. right. eexists. split; [done|]. by cbn.
Qed.

Lemma handleDelete_store (auth moduleId : uuid) (net : delivery) (d : db) :
  (ModuleList.handleDelete auth moduleId net d).1
  = (Rest.delete_modules net auth (fun m => bool_decide (m_id m = moduleId)) d).1.
Proof. unfold ModuleList.handleDelete, Rest.delete_modules. by destruct net. Qed.

(** A delete on [modules] leaves the semesters alone and keeps every
    module that the session does not own. *)
Lemma delete_modules_store (net : delivery) (auth : uuid) (matches : module_row -> bool)
    (d : db) :
  exists keep,
    (Rest.delete_modules net auth matches d).1 = with_modules d (List.filter keep (modules d))
    /\ forall m, m_user_id m <> auth -> keep m = true.
Proof.
  unfold Rest.delete_modules. destruct net.
  - eexists. split; [done|]. intros m Hm. cbn. unfold owner_policy.
    rewrite (bool_decide_eq_false_2 (auth = m_user_id m)) by congruence. done.
  - exists (fun _ => true). split; [|done]. cbn.
    rewrite forallb_filter_id; [by rewrite with_modules_self|].
    by apply forallb_forall.
Qed.

Lemma Forall_List_filter_keep {A : Type} (P : A -> Prop) (b : A -> bool) (l : list A) :
  Forall P l -> Forall P (List.filter b l).
Proof.
  intros H. eapply Forall_impl; [by apply (Forall_List_filter P b)|]. cbn. tauto.
Qed.

Lemma delete_semester_keys (net : delivery) (auth id : uuid) (d : db) :
  semesters_pkey d -> modules_semester_fkey d ->
  semesters_pkey (Rest.delete_semester net auth id d).1
  /\ modules_semester_fkey (Rest.delete_semester net auth id d).1.
Proof.
  intros Hpk Hfk. unfold Rest.delete_semester. destruct net; [|done].
  destruct (existsb _ _); [|done]. cbn [fst].
  unfold semesters_pkey, modules_semester_fkey in *. cbn. split.
  - clear Hfk. induction (semesters d) as [|s ss IH]; [done|].
    rewrite fmap_cons in Hpk. apply NoDup_cons in Hpk as [Hs Hpk]. cbn.
    destruct (negb _); [|by apply IH].
    rewrite fmap_cons. apply NoDup_cons. split; [|by apply IH].
    intros Hin. apply Hs. apply list_elem_of_fmap in Hin as (s' & -> & Hin).
    apply list_elem_of_fmap. exists s'. split; [done|].
    apply list_elem_of_In in Hin. apply filter_In in Hin as [Hin _].
    by apply list_elem_of_In.
  - eapply Forall_impl; [apply (Forall_List_filter _ _ _ Hfk)|].
    cbn. intros m [Hm Hkeep]. apply negb_true_iff, bool_decide_eq_false in Hkeep.
    apply list_elem_of_fmap in Hm as (s & Es & Hs).
    apply list_elem_of_fmap. exists s. split; [done|].
    apply list_elem_of_In, filter_In. split; [by apply list_elem_of_In|].
    apply negb_true_iff, andb_false_iff. right. apply bool_decide_eq_false. congruence.
Qed.

Lemma confirmDeleteSemester_store (auth id : uuid) (net_modules net_semester : delivery)
    (d : db) :
  let d1 := (Rest.delete_modules net_modules auth
               (fun m => bool_decide (m_semester_id m = id)) d).1 in
  (SemesterOverview.confirmDeleteSemester auth (Some id) net_modules net_semester d).1 = d1
  \/ (SemesterOverview.confirmDeleteSemester auth (Some id) net_modules net_semester d).1
     = (Rest.delete_semester net_semester auth id d1).1.
Proof.
  intros d1. subst d1. unfold SemesterOverview.confirmDeleteSemester.
  destruct (Rest.delete_modules _ _ _ _) as [d1 r1]. cbn [fst].
  destruct (Rest.error r1); [by left|].
  destruct (Rest.delete_semester _ _ _ _) as [d2 r2]. cbn [fst].
  right. by destruct (Rest.error r2).
Qed.

Lemma delete_modules_keys (net : delivery) (auth : uuid) (matches : module_row -> bool)
    (d : db) :
  semesters_pkey d -> modules_semester_fkey d ->
  semesters_pkey (Rest.delete_modules net auth matches d).1
  /\ modules_semester_fkey (Rest.delete_modules net auth matches d).1.
Proof.
  intros Hpk Hfk. destruct (delete_modules_store net auth matches d) as (keep & -> & _).
  split; [done|]. unfold modules_semester_fkey in *. cbn.
  by apply Forall_List_filter_keep.
Qed.

(** X24. The forms keep the keys of the schema: whatever is submitted and
    whichever exchange is lost, after a module is added, a module is
    deleted or a semester is deleted with its modules, the ids of the
    semesters are still distinct and every module still refers to a
    semester of the table. *)
Theorem module_forms_keep_keys (auth : uuid) (d : db) :
  semesters_pkey d -> modules_semester_fkey d ->
  (forall userId semesterId fd net new_id,
      let d' := (AddModuleDialog.handleSubmit auth userId semesterId fd net new_id d).1 in
      semesters_pkey d' /\ modules_semester_fkey d')
  /\ (forall moduleId net,
        let d' := (ModuleList.handleDelete auth moduleId net d).1 in
        semesters_pkey d' /\ modules_semester_fkey d')
  /\ (forall semesterToDelete net_modules net_semester,
        let d' := (SemesterOverview.confirmDeleteSemester auth semesterToDelete
                     net_modules net_semester d).1 in
        semesters_pkey d' /\ modules_semester_fkey d').
Proof.
  intros Hpk Hfk. split; [|split].
  - intros userId semesterId fd net new_id d'. subst d'.
    destruct (add_module_store auth userId semesterId fd net new_id d)
      as [-> | (m & -> & _ & Hm)]; [done|].
    split; [done|]. unfold modules_semester_fkey in *. cbn.
    apply Forall_app. split; [done|]. by constructor.
  - intros moduleId net d'. subst d'. rewrite handleDelete_store.
    by apply delete_modules_keys.
  - intros [id|] net_modules net_semester d'; subst d'; [|done].
    destruct (delete_modules_keys net_modules auth
                (fun m => bool_decide (m_semester_id m = id)) d Hpk Hfk) as [Hpk1 Hfk1].
    destruct (confirmDeleteSemester_store auth id net_modules net_semester d) as [-> | ->];
      [done|].
    by apply delete_semester_keys.
Qed.

Lemma module_forms_keep_keys_witness :
  (forall userId semesterId fd net new_id,
      let d' := (AddModuleDialog.handleSubmit alice userId semesterId fd net new_id
                   two_grades).1 in
      semesters_pkey d' /\ modules_semester_fkey d')
  /\ (forall moduleId net,
        let d' := (ModuleList.handleDelete alice moduleId net two_grades).1 in
        semesters_pkey d' /\ modules_semester_fkey d')
  /\ (forall semesterToDelete net_modules net_semester,
        let d' := (SemesterOverview.confirmDeleteSemester alice semesterToDelete
                     net_modules net_semester two_grades).1 in
        semesters_pkey d' /\ modules_semester_fkey d').
Proof. apply (module_forms_keep_keys alice two_grades); evaluated. Defined.

Lemma module_scan_filter_others (d : db) (keep : module_row -> bool) (ms : list module_row)
    (user : uuid) (scope : option uuid) :
  (forall m, m_user_id m = user -> keep m = true) ->
  module_scan (with_modules d (List.filter keep ms)) user scope
  = module_scan (with_modules d ms) user scope.
Proof.
  intros Hkeep. induction ms as [|m ms IH]; [done|]. cbn [List.filter].
  destruct (keep m) eqn:E.
  - by rewrite module_scan_cons, IH, <- module_scan_cons.
  - rewrite (module_scan_cons d m ms), IH, module_scan_not_selected; [done|].
    intros [Hu _]. apply Hkeep in Hu. congruence.
Qed.

Lemma calculate_gpa_with_modules (d : db) (ms1 ms2 : list module_row)
    (user : uuid) (scope : option uuid) :
  module_scan (with_modules d ms1) user scope = module_scan (with_modules d ms2) user scope ->
  calculate_gpa (with_modules d ms1) user scope = calculate_gpa (with_modules d ms2) user scope.
Proof. unfold calculate_gpa. by intros ->. Qed.

(** X25. Adding or deleting a module changes the GPA of nobody else:
    for every other user, in every scope, [calculate_gpa] gives what it
    gave before, whatever the form held and whatever it was attached to. *)
Theorem module_forms_other_gpa (auth user : uuid) (scope : option uuid) (d : db) :
  user <> auth ->
  (forall userId semesterId fd net new_id,
      calculate_gpa (AddModuleDialog.handleSubmit auth userId semesterId fd net new_id d).1
        user scope
      = calculate_gpa d user scope)
  /\ (forall moduleId net,
        calculate_gpa (ModuleList.handleDelete auth moduleId net d).1 user scope
        = calculate_gpa d user scope).
Proof.
  intros Hne. split.
  - intros userId semesterId fd net new_id.
    destruct (add_module_store auth userId semesterId fd net new_id d)
      as [-> | (m & -> & Hm & _)]; [done|].
    rewrite <- (with_modules_self d) at 3. apply calculate_gpa_with_modules.
    rewrite module_scan_app, module_scan_not_selected, app_nil_r; [done|].
    intros [Hu _]. congruence.
  - intros moduleId net. rewrite handleDelete_store.
    destruct (delete_modules_store net auth (fun m => bool_decide (m_id m = moduleId)) d)
      as (keep & -> & Hkeep).
    rewrite <- (with_modules_self d) at 2. apply calculate_gpa_with_modules.
    apply module_scan_filter_others. intros m Hm. apply Hkeep. congruence.
Qed.

Lemma module_forms_other_gpa_witness :
  (forall userId semesterId fd net new_id,
      calculate_gpa
        (AddModuleDialog.handleSubmit bob userId semesterId fd net new_id two_grades).1
        alice None
      = calculate_gpa two_grades alice None)
  /\ (forall moduleId net,
        calculate_gpa (ModuleList.handleDelete bob moduleId net two_grades).1 alice None
        = calculate_gpa two_grades alice None).
Proof. apply (module_forms_other_gpa bob alice None two_grades). vm_compute. discriminate. Defined.

(** X26. Deleting a module that is not there, or that belongs to somebody
    else, deletes nothing and still reports success. *)
Theorem handleDelete_nothing_to_delete (auth moduleId : uuid) (d : db) :
  Forall (fun m => m_id m = moduleId -> m_user_id m <> auth) (modules d) ->
  ModuleList.handleDelete auth moduleId delivered d
  = (d, Rest.Success "Module deleted successfully!").
Proof.
  intros H. unfold ModuleList.handleDelete, Rest.delete_modules. cbn.
  rewrite forallb_filter_id; [by rewrite with_modules_self|].
  apply forallb_forall. intros m Hm. rewrite Forall_forall in H.
  apply list_elem_of_In in Hm. specialize (H m Hm).
  apply negb_true_iff, andb_false_iff. unfold owner_policy.
  destruct (decide (m_id m = moduleId)) as [E|E].
  - left. apply bool_decide_eq_false. intros Ha. by apply (H E).
  - right. by apply bool_decide_eq_false.
Qed.

Lemma handleDelete_nothing_to_delete_witness :
  ModuleList.handleDelete bob 20%N delivered two_grades
  = (two_grades, Rest.Success "Module deleted successfully!").
Proof. apply handleDelete_nothing_to_delete. evaluated. Defined.

Lemma filter_filter_and {A : Type} (p q : A -> bool) (l : list A) :
  List.filter p (List.filter q l) = List.filter (fun x => q x && p x) l.
Proof.
  induction l as [|x l IH]; [done|]. cbn.
  destruct (q x); cbn; [|done]. destruct (p x); by rewrite IH.
Qed.

(** X27. When the owner of a semester deletes it and both exchanges are
    delivered, success is shown, the semester is gone, and so is every
    module attached to it, whoever owns the module; the other modules and
    semesters stay, and the GPA of that semester is 0.00 for everybody. *)
Theorem confirmDeleteSemester_cascade (auth id : uuid) (d : db) :
  semesters_pkey d ->
  (exists s, s ∈ semesters d /\ s_id s = id /\ s_user_id s = auth) ->
  let out := SemesterOverview.confirmDeleteSemester auth (Some id) delivered delivered d in
  out.2 = Some (Rest.Success "Semester and its modules deleted successfully!")
  /\ semesters out.1 = List.filter (fun s => negb (bool_decide (s_id s = id))) (semesters d)
  /\ modules out.1
     = List.filter (fun m => negb (bool_decide (m_semester_id m = id))) (modules d)
  /\ forall u, calculate_gpa out.1 u (Some id) = Ok 0.
Proof.
  intros Hpk (s & Hs & Hid & Hown) out. subst out.
  unfold SemesterOverview.confirmDeleteSemester, Rest.delete_modules, Rest.delete_semester.
  cbn [Rest.error Rest.resolved semesters with_modules].
  assert (Hex : existsb (fun s0 => owner_policy auth (s_user_id s0)
                                   && bool_decide (s_id s0 = id)) (semesters d) = true).
  { apply existsb_exists. exists s. split; [by apply list_elem_of_In|].
    unfold owner_policy. by rewrite !bool_decide_eq_true_2. }
  rewrite Hex. cbn [fst snd Rest.error Rest.resolved].
  assert (Hsem : List.filter (fun s0 => negb (owner_policy auth (s_user_id s0)
                                              && bool_decide (s_id s0 = id))) (semesters d)
                 = List.filter (fun s0 => negb (bool_decide (s_id s0 = id))) (semesters d)).
  { apply filter_ext_in. intros s' Hs'. f_equal.
    destruct (decide (s_id s' = id)) as [E|E].
    - rewrite (bool_decide_eq_true_2 _ E), andb_true_r.
      unfold owner_policy. apply bool_decide_eq_true_2.
      assert (s' = s); [|congruence].
      unfold semesters_pkey in Hpk. apply list_elem_of_In in Hs'.
      apply list_elem_of_lookup in Hs' as [i Hi]. apply list_elem_of_lookup in Hs as [j Hj].
      assert (i = j); [|congruence].
      apply (NoDup_lookup _ i j id Hpk); rewrite list_lookup_fmap.
      + by rewrite Hi; cbn; rewrite E.
      + by rewrite Hj; cbn; rewrite Hid.
    - by rewrite (bool_decide_eq_false_2 _ E), andb_false_r. }
  assert (Hmod : List.filter (fun m => negb (bool_decide (m_semester_id m = id)))
                   (List.filter (fun m => negb (owner_policy auth (m_user_id m)
                                                && bool_decide (m_semester_id m = id)))
                      (modules d))
                 = List.filter (fun m => negb (bool_decide (m_semester_id m = id))) (modules d)).
  { rewrite filter_filter_and. apply filter_ext. intros m.
    destruct (bool_decide (m_semester_id m = id)); [by rewrite andb_false_r|].
    by rewrite andb_false_r. }
  split; [done|]. cbn [fst semesters modules Rest.with_semesters_modules].
  split; [exact Hsem|]. split; [exact Hmod|].
  intros u. apply calculate_gpa_nothing_counted.
  rewrite module_scan_nil; [done|].
  cbn [modules Rest.with_semesters_modules with_modules]. rewrite Hmod.
  apply Forall_forall. intros m Hm. apply list_elem_of_In, filter_In in Hm as [_ Hm].
  apply negb_true_iff, bool_decide_eq_false in Hm.
  intros (_ & [Hsc|Hsc] & _); [done|]. congruence.
Qed.

Lemma confirmDeleteSemester_cascade_witness :
  let out := SemesterOverview.confirmDeleteSemester alice (Some 10%N) delivered delivered
               shared_semester in
  out.2 = Some (Rest.Success "Semester and its modules deleted successfully!")
  /\ semesters out.1
     = List.filter (fun s => negb (bool_decide (s_id s = 10%N))) (semesters shared_semester)
  /\ modules out.1
     = List.filter (fun m => negb (bool_decide (m_semester_id m = 10%N)))
         (modules shared_semester)
  /\ forall u, calculate_gpa out.1 u (Some 10%N) = Ok 0.
Proof.
  apply (confirmDeleteSemester_cascade alice 10%N shared_semester).
  - evaluated.
  - exists (term 10%N alice "Fall" true). split; [constructor|done].
Defined.

(** ** What the pages read *)

Lemma select_gpa_value_is_Some (d : db) (user : uuid) (label : string) :
  select_gpa_value d user label <> None
  <-> exists gc, gc ∈ grading_criteria d /\ gc_user_id gc = user /\ grade_name gc = label.
Proof.
  rewrite select_gpa_value_None, <- Exists_Forall_neg, Exists_exists.
  - split.
    + intros (gc & Hgc & Hn). exists gc. split; [done|].
      destruct (decide (gc_user_id gc = user)) as [Hu|Hu]; [|tauto].
      destruct (decide (grade_name gc = label)) as [Hg|Hg]; [done|]. tauto.
    + intros (gc & Hgc & Hu & Hg). exists gc. split; [done|]. tauto.
  - intros gc. destruct (decide (gc_user_id gc = user)) as [Hu|Hu]; [|left; tauto].
    destruct (decide (grade_name gc = label)) as [Hg|Hg]; [right; tauto|left; tauto].
Qed.

(** X28. The grades that the "Add module" dialog offers to the user
    signed in are the labels that [calculate_gpa] resolves for that user,
    no more and no fewer, by descending grade point. *)
Theorem loadGradingCriteria_offers_the_scale (user : uuid) (d : db)
    (availableGrades : list AddModuleDialog.GradingCriteria) :
  let out := AddModuleDialog.loadGradingCriteria delivered user user d availableGrades in
  out.2 = None
  /\ (forall label,
        label ∈ AddModuleDialog.grade_name <$> out.1
        <-> select_gpa_value d user label <> None)
  /\ Sorted (fun a b => AddModuleDialog.gpa_value b <= AddModuleDialog.gpa_value a) out.1.
Proof.
  intros out. subst out.
  unfold AddModuleDialog.loadGradingCriteria, Rest.select_grading_criteria.
  cbn [negb bool_decide Rest.error Rest.data Rest.resolved fst snd].
  change (bool_decide ("gpa_value" ∈ Rest.grading_criteria_columns)) with true.
  cbn [negb Rest.error Rest.data Rest.resolved fst snd].
  set (cmp := fun a b : grading_criteria_row => Rest.compare_on "gpa_value" b a).
  set (l := List.filter _ (rls_grading_criteria user d)).
  split; [done|]. split.
  - intros label. rewrite select_gpa_value_is_Some. split.
    + intros H. apply list_elem_of_fmap in H as (g & -> & Hg).
      apply list_elem_of_In, in_map_iff in Hg as (gc & <- & Hgc).
      apply list_elem_of_In in Hgc. rewrite array_sort_perm in Hgc.
      subst l. apply list_elem_of_In, filter_In in Hgc as [Hgc Hu].
      apply filter_In in Hgc as [Hgc _]. apply bool_decide_eq_true in Hu.
      exists gc. by rewrite list_elem_of_In.
    + intros (gc & Hgc & Hu & Hg). apply list_elem_of_fmap.
      exists {| AddModuleDialog.grade_name := grade_name gc;
                AddModuleDialog.gpa_value := gpa_value gc |}.
      split; [done|]. apply list_elem_of_In, in_map_iff. exists gc. split; [done|].
      apply list_elem_of_In. rewrite array_sort_perm. subst l.
      apply list_elem_of_In, filter_In. split; [|by apply bool_decide_eq_true_2].
      apply filter_In. split; [by apply list_elem_of_In|].
      unfold owner_policy. by apply bool_decide_eq_true_2.
  - assert (Hs : Sorted (fun a b => gpa_value b <= gpa_value a) (Js.array_sort cmp l)).
    { apply array_sort_sorted_by; intros a b; subst cmp; cbn;
        change (Rest.compare_on "gpa_value" b a)
          with (Rest.compare_Z (gpa_value b ?= gpa_value a));
        destruct (Z.compare_spec (gpa_value b) (gpa_value a)); cbn; lia. }
    induction Hs as [|gc l' _ IH Hhd]; [constructor|].
    cbn. constructor; [done|]. destruct Hhd; cbn; constructor. done.
Qed.

Lemma fold_left_add_credits (ms : list module_row) (acc : Z) :
  fold_left SemesterCard.add_credits ms acc
  = acc + foldr Z.add 0
            (credit_hours <$> List.filter (fun m => negb (attempt_type_eqb (m_attempt_type m) dropped)) ms).
Proof.
  revert acc. induction ms as [|m ms IH]; intros acc; cbn; [lia|].
  rewrite IH. unfold SemesterCard.add_credits.
  destruct (negb _); cbn; lia.
Qed.

(** X29. The "total credits" that a semester card shows to its user are
    the credit hours that the GPA of that semester divides by, as long as
    every module of the semester that is not dropped has a grade of the
    user's scale. *)
Theorem loadModules_totalCredits (user sid : uuid) (d : db) (st : SemesterCard.State) :
  semesters_pkey d -> modules_semester_fkey d ->
  Forall (fun m => selected user (Some sid) m -> select_gpa_value d user (grade m) <> None)
    (modules d) ->
  SemesterCard.totalCredits (SemesterCard.loadModules delivered user sid d st)
  = sum_credit_hours (counted d user (module_scan d user (Some sid))).
Proof.
  intros Hpk Hfk Hall. rewrite counted_module_scan by done.
  unfold SemesterCard.loadModules. cbn [SemesterCard.totalCredits].
  rewrite fold_left_add_credits, Z.add_0_l.
  unfold eligible, rls_modules. clear Hfk.
  induction Hall as [|m ms Hm _ IH]; [done|].
  rewrite filter_cons. cbn [List.filter]. unfold owner_policy at 1.
  destruct (decide (selected user (Some sid) m)) as [Hsel|Hsel].
  - pose proof Hsel as (Hu & Hs & Ha).
    rewrite (bool_decide_eq_true_2 (user = m_user_id m)) by done. cbn [List.filter].
    assert (Es : m_semester_id m = sid) by (destruct Hs as [|[= ->]]; done).
    rewrite (bool_decide_eq_true_2 _ Es). cbn [List.filter].
    assert (Ea : attempt_type_eqb (m_attempt_type m) dropped = false).
    { apply not_true_iff_false. by rewrite attempt_type_eqb_eq. }
    rewrite Ea. cbn [negb fmap list_fmap foldr]. fold (fmap (M:=list) credit_hours).
    rewrite IH. cbn [omap list_omap].
    rewrite <- select_gpa_value_grade_point.
    destruct (select_gpa_value d user (grade m)) as [v|]; [|by destruct (Hm Hsel)].
    reflexivity.
  - rewrite <- IH.
    destruct (decide (user = m_user_id m)) as [Hu|Hu];
      [rewrite (bool_decide_eq_true_2 _ Hu)|by rewrite (bool_decide_eq_false_2 _ Hu)].
    cbn [List.filter].
    destruct (decide (m_semester_id m = sid)) as [Es|Es];
      [rewrite (bool_decide_eq_true_2 _ Es)|by rewrite (bool_decide_eq_false_2 _ Es)].
    cbn [List.filter].
    destruct (attempt_type_eqb (m_attempt_type m) dropped) eqn:Ea; [done|].
    exfalso. apply Hsel. split; [done|]. split; [right; by rewrite Es|].
    intros Hd. apply attempt_type_eqb_eq in Hd. congruence.
Qed.

Lemma loadModules_totalCredits_witness :
  SemesterCard.totalCredits
    (SemesterCard.loadModules delivered alice 10%N two_grades empty_card)
  = sum_credit_hours (counted two_grades alice (module_scan two_grades alice (Some 10%N))).
Proof.
  apply loadModules_totalCredits; [evaluated|evaluated|].
  apply Forall_forall. intros m Hm _.
  repeat (apply elem_of_cons in Hm as [->|Hm]; [vm_compute; discriminate|]).
  by apply elem_of_nil in Hm.
Defined.

(** X30. The transcript page never gets the grading scale: its query
    orders by "grade_point", a column that [grading_criteria] does not
    have, so the store rejects it, the page keeps the list it had (empty
    at first) and says nothing; [getGradePoint] is then 0 for every
    grade. *)
Theorem transcript_never_loads_the_scale (net : delivery) (auth userId : uuid) (d : db)
    (gradingCriteria : list Transcript.GradingCriteria) (g : string) :
  Transcript.loadGradingCriteria net auth userId d gradingCriteria = gradingCriteria
  /\ Transcript.getGradePoint (Transcript.loadGradingCriteria net auth userId d []) g = 0.
Proof.
  assert (H : forall l, Transcript.loadGradingCriteria net auth userId d l = l).
  { intros l. unfold Transcript.loadGradingCriteria, Rest.select_grading_criteria.
    by destruct net. }
  by rewrite !H.
Qed.

(** ** Row level security *)

Lemma owner_policy_owned (auth x : uuid) : owner_policy auth x = bool_decide (x = auth).
Proof. unfold owner_policy. apply bool_decide_ext. split; congruence. Qed.

(** A read of one of the three tables returns the rows of the table whose
    [user_id] is the session's. *)
Lemma rls_owned (auth : uuid) (d : db) :
  rls_grading_criteria auth d = grading_criteria (Access.owned auth d)
  /\ rls_semesters auth d = semesters (Access.owned auth d)
  /\ rls_modules auth d = modules (Access.owned auth d).
Proof.
  unfold rls_grading_criteria, rls_semesters, rls_modules, Access.owned. cbn.
  repeat split; apply filter_ext; intros; apply owner_policy_owned.
Qed.

Lemma filter_owned_Forall {A : Type} (f : A -> uuid) (user : uuid) (l : list A) :
  Forall (fun a => f a = user) (List.filter (fun a => bool_decide (f a = user)) l).
Proof.
  apply Forall_forall. intros a Ha.
  apply list_elem_of_In, filter_In in Ha as [_ Ha]. by apply bool_decide_eq_true in Ha.
Qed.

(** Rows that a filter keeps for every other user are not missed by
    another user. *)
Lemma filter_owned_kept {A : Type} (f : A -> uuid) (keep : A -> bool) (other : uuid)
    (l : list A) :
  (forall a, f a = other -> keep a = true) ->
  List.filter (fun a => bool_decide (f a = other)) (List.filter keep l)
  = List.filter (fun a => bool_decide (f a = other)) l.
Proof.
  intros Hkeep. rewrite filter_filter_and. apply filter_ext. intros a.
  destruct (decide (f a = other)) as [E|E].
  - by rewrite (bool_decide_eq_true_2 _ E), (Hkeep a E).
  - by rewrite (bool_decide_eq_false_2 _ E), andb_false_r.
Qed.

Lemma insert_module_store (net : delivery) (auth id : uuid) (r : Rest.module_input) (d : db) :
  (Rest.insert_module net auth id r d).1 = d
  \/ exists m,
       (Rest.insert_module net auth id r d).1 = with_modules d (modules d ++ [m])
       /\ m_user_id m = auth.
Proof.
  unfold Rest.insert_module. destruct net; [|by left].
  destruct (negb (match Rest.in_credit_hours r with Some n => in_int4 n | None => true end));
    [by left|].
  unfold owner_policy.
  destruct (decide (auth = Rest.in_user_id r)) as [Ea|Ea];
    [rewrite (bool_decide_eq_true_2 _ Ea)|rewrite (bool_decide_eq_false_2 _ Ea); by left].
  cbn [negb].
  destruct (Rest.in_credit_hours r) as [c|]; [|by left].
  destruct (negb _); [by left|].
  right. eexists. split; [done|]. by cbn.
Qed.

(** What a write of the session [auth] does to the rows of another user:
    nothing, but for the modules that go with a deleted semester. *)
Lemma perform_owned (net : delivery) (auth other : uuid) (w : Access.write) (d : db) :
  other <> auth ->
  Access.owned other (Access.perform net auth w d) = Access.owned other d
  \/ exists id,
       w = Access.remove_semester id
       /\ Access.owned other (Access.perform net auth w d)
          = Access.owned other (Access.without_modules_of id d).
Proof.
  intros Hne. destruct w as [userId|row|fresh rows|id row|matches|id]; cbn.
  - left. unfold update_semesters_not_current. destruct net; [|done]. cbn.
    unfold Access.owned. cbn. f_equal. apply filter_map_fixed.
    + intros s. by destruct (_ && _).
    + intros s Hs. apply bool_decide_eq_true in Hs. unfold owner_policy.
      rewrite (bool_decide_eq_false_2 (auth = s_user_id s)) by congruence. done.
  - left. unfold insert_semester. destruct net; [|done].
    destruct (owner_policy auth (s_user_id row)) eqn:E; [|done]. cbn.
    unfold Access.owned. cbn. f_equal. apply filter_app_none. repeat constructor.
    unfold owner_policy in E. apply bool_decide_eq_true in E.
    apply bool_decide_eq_false_2. congruence.
  - left.
    destruct (insert_grading_criteria_store net auth fresh rows d) as [-> | [rs [E Hrs]]]; [done|].
    apply rows_of_inputs_columns in E as [Hu _].
    unfold insert_grading_criteria in *. destruct net; [|done].
    destruct (rows_of_inputs auth fresh 0 rows); [|done]. cbn in *.
    apply app_inv_head in Hrs as ->.
    unfold Access.owned. cbn. f_equal. apply filter_app_none.
    eapply Forall_impl; [exact Hu|]. cbn. intros gc Hgc.
    apply bool_decide_eq_false_2. congruence.
  - left. destruct (insert_module_store net auth id row d) as [-> | (m & -> & Hm)]; [done|].
    unfold Access.owned. cbn. f_equal. apply filter_app_none. repeat constructor.
    apply bool_decide_eq_false_2. congruence.
  - left. destruct (delete_modules_store net auth matches d) as (keep & -> & Hkeep).
    unfold Access.owned. cbn. f_equal. apply filter_owned_kept.
    intros m Hm. apply Hkeep. congruence.
  - unfold Rest.delete_semester. destruct net; [|by left].
    destruct (existsb _ _); [|by left].
    right. exists id. split; [done|].
    unfold Access.owned, Access.without_modules_of. cbn. f_equal.
    apply filter_owned_kept. intros s Hs. unfold owner_policy.
    rewrite (bool_decide_eq_false_2 (auth = s_user_id s)) by congruence. done.
Qed.

(** C9, amended. A read of the grading scale, the semesters or the
    modules returns rows of the requester only; for two stores that hold
    the same rows of the requester these reads and every GPA of the
    requester's own answer the same; and a write of the requester leaves
    the rows of every other user as they were, except that deleting a
    semester takes the modules attached to it with it, whoever owns them.
    The two [SECURITY DEFINER] functions called for somebody else, and the
    reads of [profiles], are outside this. *)
Theorem own_requests_depend_on_own_rows (auth : uuid) (d1 d2 : db) :
  semesters_pkey d1 -> modules_semester_fkey d1 ->
  semesters_pkey d2 -> modules_semester_fkey d2 ->
  Access.owned auth d1 = Access.owned auth d2 ->
  (Forall (fun gc => gc_user_id gc = auth) (rls_grading_criteria auth d1)
   /\ Forall (fun s => s_user_id s = auth) (rls_semesters auth d1)
   /\ Forall (fun m => m_user_id m = auth) (rls_modules auth d1))
  /\ (forall q, Access.own_request auth q = true -> Access.ask auth d1 q = Access.ask auth d2 q)
  /\ (forall net other w, other <> auth ->
        Access.owned other (Access.perform net auth w d1) = Access.owned other d1
        \/ exists id,
             w = Access.remove_semester id
             /\ Access.owned other (Access.perform net auth w d1)
                = Access.owned other (Access.without_modules_of id d1)).
Proof.
  intros Hpk1 Hfk1 Hpk2 Hfk2 Hown.
  destruct (rls_owned auth d1) as (Hgc1 & Hs1 & Hm1).
  destruct (rls_owned auth d2) as (Hgc2 & Hs2 & Hm2).
  split; [|split].
  - rewrite Hgc1, Hs1, Hm1. unfold Access.owned. cbn.
    split; [|split]; apply filter_owned_Forall.
  - intros [ | | | |u sc|un cn l o] Hq; cbn in Hq |- *; try discriminate.
    + by rewrite Hgc1, Hgc2, Hown.
    + by rewrite Hs1, Hs2, Hown.
    + by rewrite Hm1, Hm2, Hown.
    + apply bool_decide_eq_true in Hq as ->. f_equal. apply calculate_gpa_own; congruence.
  - intros net other w Hne. by apply perform_owned.
Qed.

Lemma own_requests_depend_on_own_rows_witness :
  Access.ask alice (two_universities "A") (Access.call_calculate_gpa alice None)
  = Access.ask alice (two_universities "B") (Access.call_calculate_gpa alice None).
Proof.
  apply (proj1 (proj2 (own_requests_depend_on_own_rows alice
                         (two_universities "A") (two_universities "B")
                         ltac:(evaluated)
                         ltac:(evaluated)
                         ltac:(evaluated)
                         ltac:(evaluated)
                         ltac:(reflexivity)))).
  reflexivity.
Defined.

(** C9 as stated fails: Bob is no peer of Alice, the two stores hold the
    same rows of Alice (and the same profiles) and differ in a grade of
    Bob, and [calculate_gpa] called by Alice for Bob tells them apart. *)
Lemma other_user_gpa_is_disclosed :
  Access.owned alice (two_universities "A") = Access.owned alice (two_universities "B")
  /\ profiles (two_universities "A") = profiles (two_universities "B")
  /\ Access.peer (two_universities "A") alice bob = false
  /\ Access.peer (two_universities "B") alice bob = false
  /\ Access.ask alice (two_universities "A") (Access.call_calculate_gpa bob None)
     <> Access.ask alice (two_universities "B") (Access.call_calculate_gpa bob None).
Proof.
  split; [reflexivity|]. split; [reflexivity|]. split; [reflexivity|]. split; [reflexivity|].
  vm_compute. discriminate.
Qed.

(** And a write reaches the rows of somebody else: Bob has attached a
    module to Alice's semester, Alice deletes the semester, and Bob's
    module is gone. *)
Lemma other_user_module_is_deleted :
  bobs_module ∈ modules (Access.owned bob shared_semester)
  /\ bobs_module ∉ modules (Access.owned bob
                              (Access.perform delivered alice (Access.remove_semester 10%N)
                                 shared_semester)).
Proof.
  split.
  - vm_compute. left.
  - vm_compute. intros H. apply elem_of_cons in H as [H|H]; [discriminate|].
    by apply elem_of_nil in H.
Qed.
